(** * mflux-commander: session, run and settings-inheritance logic

    A shallow embedding of the parts of the repository that decide which
    session directory an invocation uses, how run directories are
    numbered, how the settings of a previous run are inherited, and what
    the run record on disk looks like while images are generated.

    Two implementations live side by side in the repository and both are
    embedded here:
    - the package [mflux_commander] ([core/session.py], [core/styles.py],
      [core/generator.py], [cli/main.py]), modules [Session], [Styles],
      [Generator] and [Cli] below;
    - the stand-alone script [mflux-wrapper.py], module [Wrapper] below.

    Conventions.  Python [int] is [Z]; [str] is [string] (ASCII text);
    [None]-able values are [option]; a raised exception is the [Raise]
    case of [result]; a directory is a finite map from entry names to
    contents; a [timedelta] is its total number of microseconds. *)

From Stdlib Require Import ZArith Lia List String Ascii Bool.
From Stdlib Require Import Decimal DecimalString DecimalZ DecimalPos DecimalN.
From stdpp Require Import gmap strings list fin_maps sorting.

Local Open Scope string_scope.

(** ** Exceptions and fallible results *)

Inductive exn : Type :=
| ValueError
| IndexError
| ZeroDivisionError
| FileNotFoundError
| JSONDecodeError
| AttributeError
| TypeError
| UsageError
| CalledProcessError
| SystemExit (code : Z).

Inductive result (A : Type) : Type :=
| Ok (a : A)
| Raise (e : exn).

Arguments Ok {A} a.
Arguments Raise {A} e.

Global Instance result_ret : MRet result := @Ok.
Global Instance result_bind : MBind result := λ A B k r,
  match r with
  | Ok a => k a
  | Raise e => Raise e
  end.

(** ** Python built-ins used by the program *)

Module Py.

(** [str.isspace] on ASCII: TAB..CR, FS..US and the blank. *)
Definition is_space (c : ascii) : bool :=
  let n := nat_of_ascii c in
  ((9 <=? n)%nat && (n <=? 13)%nat)
  || ((28 <=? n)%nat && (n <=? 32)%nat).

Fixpoint lstrip (s : string) : string :=
  match s with
  | "" => ""
  | String c r => if is_space c then lstrip r else s
  end.

Fixpoint rstrip (s : string) : string :=
  match s with
  | "" => ""
  | String c r =>
      let r' := rstrip r in
      if is_space c && (r' =? "")%string then "" else String c r'
  end.

(** [s.strip()] *)
Definition strip (s : string) : string := rstrip (lstrip s).

(** [s[n:]] and [s[:n]]; a Python slice never raises. *)
Fixpoint drop (n : nat) (s : string) : string :=
  match n, s with
  | O, _ => s
  | S _, "" => ""
  | S n', String _ r => drop n' r
  end.

Fixpoint take (n : nat) (s : string) : string :=
  match n, s with
  | O, _ => ""
  | S _, "" => ""
  | S n', String c r => String c (take n' r)
  end.

(** [s[lo:hi]] for literal bounds [0 <= lo <= hi]. *)
Definition slice (lo hi : nat) (s : string) : string :=
  take (hi - lo) (drop lo s).

(** [s.startswith(p)] *)
Definition startswith (p s : string) : bool := String.prefix p s.

(** [s.split(sep)] for a one-character separator. *)
Fixpoint split (sep : ascii) (s : string) : list string :=
  match s with
  | "" => [""]
  | String c r =>
      if Ascii.eqb c sep then "" :: split sep r
      else match split sep r with
           | h :: t => String c h :: t
           | [] => [String c ""]
           end
  end.

(** [s.split(sep, n)] *)
Fixpoint splitn (sep : ascii) (s : string) (n : nat) {struct s}
  : list string :=
  match n with
  | O => [s]
  | S n' =>
      match s with
      | "" => [""]
      | String c r =>
          if Ascii.eqb c sep then "" :: splitn sep r n'
          else match splitn sep r n with
               | h :: t => String c h :: t
               | [] => [String c ""]
               end
      end
  end.

(** [sub in s] for a one-character [sub]. *)
Fixpoint contains (c : ascii) (s : string) : bool :=
  match s with
  | "" => false
  | String c' r => Ascii.eqb c' c || contains c r
  end.

Definition digit_of (c : ascii) : option Z :=
  let n := nat_of_ascii c in
  if (48 <=? n)%nat && (n <=? 57)%nat then Some (Z.of_nat (n - 48))
  else None.

(** The digit part of an integer literal: decimal digits, single
    underscores allowed between two digits. *)
Fixpoint digits (s : string) (acc : Z) (after_digit : bool) : option Z :=
  match s with
  | "" => if after_digit then Some acc else None
  | String c r =>
      match digit_of c with
      | Some d => digits r (10 * acc + d)%Z true
      | None =>
          if Ascii.eqb c "_" && after_digit then digits r acc false
          else None
      end
  end.

(** [int(s)]: surrounding whitespace is dropped, one sign is allowed,
    anything else raises [ValueError]. *)
Definition int (s : string) : result Z :=
  match strip s with
  | "" => Raise ValueError
  | String c r as t =>
      let parsed :=
        if Ascii.eqb c "-" then Z.opp <$> digits r 0 false
        else if Ascii.eqb c "+" then digits r 0 false
        else digits t 0 false in
      match parsed with
      | Some z => Ok z
      | None => Raise ValueError
      end
  end.

(** [str(n)] *)
Definition str (n : Z) : string := NilZero.string_of_int (Z.to_int n).

(** Truth values of optional texts, integers and lists: [None], the
    empty text, zero and the empty list are false. *)
Definition truthy_str (s : option string) : bool :=
  match s with
  | Some (String _ _) => true
  | _ => false
  end.

Definition truthy_int (z : option Z) : bool :=
  match z with
  | Some z => negb (z =? 0)%Z
  | None => false
  end.

Definition truthy_list {A} (l : option (list A)) : bool :=
  match l with
  | Some (_ :: _) => true
  | _ => false
  end.

(** [s.lower()] on ASCII. *)
Definition lower_char (c : ascii) : ascii :=
  let n := nat_of_ascii c in
  if (65 <=? n)%nat && (n <=? 90)%nat then ascii_of_nat (n + 32) else c.

Fixpoint lower (s : string) : string :=
  match s with
  | "" => ""
  | String c r => String (lower_char c) (lower r)
  end.

End Py.

(** ** [datetime] values

    The naive [datetime] of Python's standard library: a civil date and
    a time of day.  [to_us] is the instant as a number of microseconds,
    following [datetime.__sub__] ([toordinal] for the date part); a
    [timedelta] is represented by its total microseconds, which is the
    order and the absolute value the interpreter uses. *)

Module Datetime.

Local Open Scope Z_scope.

Record datetime : Type := mk {
  year : Z; month : Z; day : Z;
  hour : Z; minute : Z; second : Z; microsecond : Z
}.

Definition is_leap (y : Z) : bool :=
  (y mod 4 =? 0) && (negb (y mod 100 =? 0) || (y mod 400 =? 0)).

Definition days_in_month (y m : Z) : Z :=
  if m =? 2 then (if is_leap y then 29 else 28)
  else if (m =? 4) || (m =? 6) || (m =? 9) || (m =? 11) then 30
  else 31.

Definition days_before_month (y m : Z) : Z :=
  nth (Z.to_nat m) [0; 0; 31; 59; 90; 120; 151; 181; 212; 243; 273; 304; 334] 0
  + (if (2 <? m) && is_leap y then 1 else 0).

Definition days_before_year (y : Z) : Z :=
  let y := y - 1 in y * 365 + y / 4 - y / 100 + y / 400.

Definition ymd2ord (y m d : Z) : Z :=
  days_before_year y + days_before_month y m + d.

Definition valid_date (y m d : Z) : bool :=
  (1 <=? y) && (y <=? 9999) && (1 <=? m) && (m <=? 12)
  && (1 <=? d) && (d <=? days_in_month y m).

Definition valid_time (h mi s us : Z) : bool :=
  (0 <=? h) && (h <=? 23) && (0 <=? mi) && (mi <=? 59)
  && (0 <=? s) && (s <=? 59) && (0 <=? us) && (us <=? 999999).

Definition valid (t : datetime) : bool :=
  valid_date (year t) (month t) (day t)
  && valid_time (hour t) (minute t) (second t) (microsecond t).

(** [datetime(y, m, d, h, mi, s)]: out-of-range fields raise
    [ValueError]. *)
Definition make (y m d h mi s : Z) : result datetime :=
  if valid_date y m d && valid_time h mi s 0
  then Ok (mk y m d h mi s 0)
  else Raise ValueError.

Definition to_us (t : datetime) : Z :=
  ((ymd2ord (year t) (month t) (day t) * 86400
    + hour t * 3600 + minute t * 60 + second t) * 1000000)
  + microsecond t.

(** [a - b] as a [timedelta]. *)
Definition sub (a b : datetime) : Z := to_us a - to_us b.

(** [timedelta(hours=h)] *)
Definition hours (h : Z) : Z := h * 3600 * 1000000.

(** [a < b] etc. on [datetime]: the interpreter compares the field
    tuples lexicographically. *)
Fixpoint lex_compare (a b : list Z) : comparison :=
  match a, b with
  | x :: a', y :: b' =>
      match x ?= y with
      | Eq => lex_compare a' b'
      | c => c
      end
  | [], [] => Eq
  | [], _ :: _ => Lt
  | _ :: _, [] => Gt
  end.

Definition fields (t : datetime) : list Z :=
  [year t; month t; day t; hour t; minute t; second t; microsecond t].

Definition compare (a b : datetime) : comparison :=
  lex_compare (fields a) (fields b).

(** Two decimal digits, four decimal digits: [%m], [%d], [%H], [%M],
    [%S] and [%Y] of [strftime]. *)
Definition digit_char (d : Z) : ascii := ascii_of_nat (48 + Z.to_nat d).

Definition pad2 (n : Z) : string :=
  String (digit_char (n / 10)) (String (digit_char (n mod 10)) "").

Definition pad4 (n : Z) : string :=
  String (digit_char (n / 1000))
    (String (digit_char (n / 100 mod 10)) (pad2 (n mod 100))).

(** [t.strftime("%Y%m%d_%H%M%S")] *)
Definition strftime (t : datetime) : string :=
  pad4 (year t) ++ pad2 (month t) ++ pad2 (day t) ++ "_"
  ++ pad2 (hour t) ++ pad2 (minute t) ++ pad2 (second t).

End Datetime.

(** ** On-disk state of the package

    The output base directory is a finite map from entry names to session
    directories (a base directory that does not exist yet is the empty
    map: the code finds no candidate in either case and
    [mkdir(parents=True)] creates what is missing).  A session directory
    holds the text of [run_counter.txt], when the file exists, and its
    run directories; a run directory holds the last [run_info.json] and
    [metadata.json] written to it.  Wall-clock fields ([start_time],
    [generation_times] and what is derived from them) are left out of
    the records. *)

Inductive status : Type := in_progress | completed.

Record file_info : Type := mk_file_info {
  fi_file_name : string;
  fi_prompt : string;
  fi_model : string;
  fi_steps : Z;
  fi_seed : Z;
  fi_resolution : string
}.

Record run_info : Type := mk_run_info {
  ri_prompt : string;
  ri_model : string;
  ri_steps : option Z;
  ri_base_seed : option Z;
  ri_width : Z;
  ri_height : Z;
  ri_total_iterations : Z;
  ri_completed_iterations : Z;
  ri_status : status;
  ri_variation_type : option string;
  ri_step_variations : option (list Z);
  ri_generated_files : list file_info
}.

Record run_dir : Type := mk_run_dir {
  run_info_json : option run_info;
  metadata_json : option file_info
}.

Record session_dir : Type := mk_session_dir {
  run_counter_txt : option string;
  runs : gmap string run_dir
}.

Abbreviation disk := (gmap string session_dir).

Definition empty_run_dir : run_dir := mk_run_dir None None.
Definition empty_session_dir : session_dir := mk_session_dir None ∅.

(** [path.mkdir(parents=True, exist_ok=True)] for a session directory
    and for a run directory inside a session directory. *)
Definition mkdir_session (name : string) (d : disk) : disk :=
  match d !! name with
  | Some _ => d
  | None => <[name := empty_session_dir]> d
  end.

Definition mkdir_run (sname rname : string) (d : disk) : disk :=
  let sd := default empty_session_dir (d !! sname) in
  let rs := match runs sd !! rname with
            | Some _ => runs sd
            | None => <[rname := empty_run_dir]> (runs sd)
            end in
  <[sname := mk_session_dir (run_counter_txt sd) rs]> d.

(** Writing one file of a run directory that exists. *)
Definition update_run (sname rname : string) (f : run_dir -> run_dir)
    (d : disk) : disk :=
  let sd := default empty_session_dir (d !! sname) in
  let rd := default empty_run_dir (runs sd !! rname) in
  <[sname := mk_session_dir (run_counter_txt sd) (<[rname := f rd]> (runs sd))]> d.

(** Reading [run_info.json] of a run directory back. *)
Definition read_run_info (sname rname : string) (d : disk) : option run_info :=
  sd ← d !! sname; rd ← runs sd !! rname; run_info_json rd.

(** ** [core/config.py] *)

Module Config.

Definition SESSION_TIMEOUT_HOURS : Z := 4.
Definition AVAILABLE_MODELS : list string := ["schnell"; "dev"].
Definition DEFAULT_MODEL : string := "schnell".
Definition DEFAULT_WIDTH : Z := 1024.
Definition DEFAULT_HEIGHT : Z := 1024.

Definition RESOLUTIONS : list (string * (Z * Z)) :=
  [("default", (1024, 1024)%Z); ("landscape", (1024, 576)%Z);
   ("portrait", (768, 1024)%Z); ("landscape_sm", (512, 288)%Z);
   ("portrait_sm", (384, 512)%Z); ("square_sm", (512, 512)%Z);
   ("landscape_lg", (1536, 864)%Z); ("portrait_lg", (1152, 1536)%Z);
   ("square_lg", (1536, 1536)%Z); ("landscape_xl", (2048, 1152)%Z);
   ("portrait_xl", (1536, 2048)%Z); ("square_xl", (2048, 2048)%Z)].

Fixpoint assoc {A} (k : string) (l : list (string * A)) : option A :=
  match l with
  | [] => None
  | (k', v) :: l' => if (k' =? k)%string then Some v else assoc k l'
  end.

Definition get_resolution (format_name : string) : Z * Z :=
  default (1024, 1024)%Z (assoc format_name RESOLUTIONS).

Definition get_default_steps (model : string) : Z :=
  default 1%Z (assoc model [("schnell", 1%Z); ("dev", 5%Z)]).

End Config.

(** ** [core/session.py] *)

Module Session.

Import Datetime.

Record t : Type := mk_session {
  current_session_dir : string;
  run_counter : Z
}.

Definition prefix : string := "mflux_output_".

(** [self.base_dir.glob("mflux_output_*")], in the order the
    directory is listed. *)
Definition glob (d : disk) : list string :=
  filter (λ n, Is_true (Py.startswith prefix n)) (map_to_list d).*1.

(** The body of the [try] of [_find_valid_session]: the timestamp
    embedded in a directory name. *)
Definition parse_timestamp (name : string) : result datetime :=
  let dir_timestamp := Py.drop (String.length prefix) name in
  year ← Py.int (Py.slice 0 4 dir_timestamp);
  month ← Py.int (Py.slice 4 6 dir_timestamp);
  day ← Py.int (Py.slice 6 8 dir_timestamp);
  hour ← Py.int (Py.slice 9 11 dir_timestamp);
  minute ← Py.int (Py.slice 11 13 dir_timestamp);
  second ← Py.int (Py.drop 13 dir_timestamp);
  Datetime.make year month day hour minute second.

Definition timeout : Z := Datetime.hours Config.SESSION_TIMEOUT_HOURS.

(** [time_diff < timeout] with [time_diff = abs(current_time - timestamp)] *)
Definition within_timeout (current_time timestamp : datetime) : bool :=
  (Z.abs (Datetime.sub current_time timestamp) <? timeout)%Z.

(** The loop of [_find_valid_session]; a name whose parse raises
    [ValueError] is skipped by the [except] clause. *)
Fixpoint scan (current_time : datetime) (names : list string)
  : list (datetime * string) :=
  match names with
  | [] => []
  | d :: rest =>
      match parse_timestamp d with
      | Ok timestamp =>
          if within_timeout current_time timestamp
          then (timestamp, d) :: scan current_time rest
          else scan current_time rest
      | Raise _ => scan current_time rest
      end
  end.

(** [a < b] on the tuples [(timestamp, path)]: the first components
    decide unless they are equal, then the paths, compared as text. *)
Definition tuple_lt (a b : datetime * string) : bool :=
  match Datetime.compare a.1 b.1 with
  | Lt => true
  | Gt => false
  | Eq => String.ltb a.2 b.2
  end.

(** [sorted(l, reverse=True)]: a stable sort into descending order. *)
Fixpoint insert_desc (x : datetime * string) (l : list (datetime * string))
  : list (datetime * string) :=
  match l with
  | [] => [x]
  | y :: l' =>
      if tuple_lt x y then y :: insert_desc x l' else x :: y :: l'
  end.

Definition sorted_desc (l : list (datetime * string))
  : list (datetime * string) :=
  foldr insert_desc [] l.

Definition _find_valid_session (d : disk) (now : datetime) : option string :=
  match sorted_desc (scan now (glob d)) with
  | [] => None
  | first :: _ => Some first.2
  end.

(** Returns the session directory and the disk after the call. *)
Definition _get_or_create_session_dir (force_new : bool) (d : disk)
    (now : datetime) : string * disk :=
  let existing := if force_new then None else _find_valid_session d now in
  match existing with
  | Some e => (e, d)
  | None =>
      let session_dir := prefix ++ Datetime.strftime now in
      (session_dir, mkdir_session session_dir d)
  end.

Definition _load_run_counter (sname : string) (d : disk) : result Z :=
  match d !! sname ≫= run_counter_txt with
  | Some text => Py.int (Py.strip text)
  | None => Ok 0%Z
  end.

(** [Session(force_new)] *)
Definition init (force_new : bool) (d : disk) (now : datetime)
  : result t * disk :=
  let '(sname, d') := _get_or_create_session_dir force_new d now in
  (counter ← _load_run_counter sname d'; Ok (mk_session sname counter), d').

Definition _save_run_counter (s : t) (d : disk) : disk :=
  let sd := default empty_session_dir (d !! current_session_dir s) in
  <[current_session_dir s :=
      mk_session_dir (Some (Py.str (run_counter s))) (runs sd)]> d.

Definition run_name (n : Z) : string := "run_" ++ Py.str n.

(** Returns the name of the run directory, the session object after
    the call and the disk after the call. *)
Definition get_next_run_dir (s : t) (d : disk) : string * t * disk :=
  let s' := mk_session (current_session_dir s) (run_counter s + 1) in
  let run_dir := run_name (run_counter s') in
  let d1 := mkdir_run (current_session_dir s') run_dir d in
  (run_dir, s', _save_run_counter s' d1).

Definition save_metadata (s : t) (run : string) (metadata : file_info)
    (d : disk) : disk :=
  update_run (current_session_dir s) run
    (λ rd, mk_run_dir (run_info_json rd) (Some metadata)) d.

(** [n] calls of [get_next_run_dir] on one session object. *)
Fixpoint next_run_dirs (n : nat) (s : t) (d : disk)
  : list string * t * disk :=
  match n with
  | O => ([], s, d)
  | S n' =>
      let '(run, s1, d1) := get_next_run_dir s d in
      let '(runs, s2, d2) := next_run_dirs n' s1 d1 in
      (run :: runs, s2, d2)
  end.

(** Allocating a run from a new session object on the directory
    [sname], as each invocation of the program does: the persisted
    counter is read, then [get_next_run_dir] is called. *)
Definition allocate_run (sname : string) (d : disk) : result (string * disk) :=
  counter ← _load_run_counter sname d;
  let '(run, _, d') := get_next_run_dir (mk_session sname counter) d in
  Ok (run, d').

Fixpoint allocate_runs (n : nat) (sname : string) (d : disk)
  : result (list string * disk) :=
  match n with
  | O => Ok ([], d)
  | S n' =>
      '(run, d1) ← allocate_run sname d;
      '(runs, d2) ← allocate_runs n' sname d1;
      Ok (run :: runs, d2)
  end.

End Session.

(** ** [core/styles.py]

    The styles directory maps a style name [n] to the content of the
    file [n.json]: text that is not JSON, or a JSON object given by its
    string-valued fields. *)

Inductive json_file : Type :=
| NotJson
| JsonObject (fields : list (string * string)).

Module Styles.

Abbreviation styles_dir := (gmap string json_file).

(** [json.load(f)] *)
Definition json_load (f : json_file) : result (list (string * string)) :=
  match f with
  | NotJson => Raise JSONDecodeError
  | JsonObject fields => Ok fields
  end.

Definition save_style (name description : string) (sd : styles_dir)
  : styles_dir :=
  <[name := JsonObject [("name", name); ("description", description)]]> sd.

Definition get_style (name : string) (sd : styles_dir)
  : result (option string) :=
  match sd !! name with
  | Some f => data ← json_load f; Ok (Config.assoc "description" data)
  | None => Ok None
  end.

(** One round of the loop of [list_styles]: [None] when the [except]
    clause skips the file. *)
Definition read_style (f : json_file) : option (string * string) :=
  match json_load f with
  | Ok style_data =>
      match Config.assoc "name" style_data,
            Config.assoc "description" style_data with
      | Some n, Some desc => Some (n, desc)
      | _, _ => None
      end
  | Raise _ => None
  end.

(** [sorted(styles, key=lambda x: x["name"])] *)
Fixpoint insert_by_name (x : string * string) (l : list (string * string))
  : list (string * string) :=
  match l with
  | [] => [x]
  | y :: l' =>
      if String.ltb y.1 x.1 then y :: insert_by_name x l' else x :: y :: l'
  end.

Definition list_styles (sd : styles_dir) : list (string * string) :=
  foldr insert_by_name [] (omap read_style (map_to_list sd).*2).


End Styles.

(** ** The world of one invocation of the package

    Besides the disk: the styles directory, the clock, the values
    [random.randint] will return, the exit codes the external
    [mflux-generate] will return (zero once the list is used up), and
    the commands run so far, oldest first. *)

Record world : Type := mk_world {
  w_disk : disk;
  w_styles : gmap string json_file;
  w_now : Datetime.datetime;
  w_rand : list Z;
  w_exits : list Z;
  w_calls : list (list string)
}.

Definition set_disk (d : disk) (w : world) : world :=
  mk_world d (w_styles w) (w_now w) (w_rand w) (w_exits w) (w_calls w).

(** [random.randint(lo, hi)] *)
Definition randint (lo : Z) (w : world) : Z * world :=
  match w_rand w with
  | r :: rest =>
      (r, mk_world (w_disk w) (w_styles w) (w_now w) rest (w_exits w) (w_calls w))
  | [] => (lo, w)
  end.

(** [subprocess.run(cmd, check=True)] *)
Definition subprocess_run (cmd : list string) (w : world)
  : result unit * world :=
  let code := hd 0%Z (w_exits w) in
  let w' := mk_world (w_disk w) (w_styles w) (w_now w) (w_rand w)
              (tl (w_exits w)) (w_calls w ++ [cmd]) in
  (if (code =? 0)%Z then Ok tt else Raise CalledProcessError, w').

(** ** [core/generator.py] *)

Module Generator.

Record t : Type := mk_generator {
  session : Session.t;
  model : string;
  width : Z;
  height : Z;
  steps : Z
}.

Definition validate_model (m : string) : result unit :=
  if bool_decide (m ∈ Config.AVAILABLE_MODELS) then Ok tt
  else Raise ValueError.

(** [Generator(session, model)] *)
Definition init (s : Session.t) (m : string) : result t :=
  _ ← validate_model m;
  Ok (mk_generator s m Config.DEFAULT_WIDTH Config.DEFAULT_HEIGHT
        (Config.get_default_steps m)).

Definition set_session (s : Session.t) (g : t) : t :=
  mk_generator s (model g) (width g) (height g) (steps g).

Definition set_steps (n : Z) (g : t) : t :=
  mk_generator (session g) (model g) (width g) (height g) n.

Definition _update_run_info (g : t) (run : string) (info : run_info)
    (w : world) : world :=
  set_disk
    (update_run (Session.current_session_dir (session g)) run
       (λ rd, mk_run_dir (Some info) (metadata_json rd)) (w_disk w)) w.

Definition save_metadata (g : t) (run : string) (fi : file_info)
    (w : world) : world :=
  set_disk (Session.save_metadata (session g) run fi (w_disk w)) w.

(** The [cmd] list; [steps] is what follows [--steps]. *)
Definition command (g : t) (prompt : string) (steps seed : Z)
    (output_path : string) : list string :=
  ["mflux-generate"; "--prompt"; prompt; "-m"; model g;
   "--width"; Py.str (width g); "--height"; Py.str (height g);
   "--steps"; Py.str steps; "--seed"; Py.str seed;
   "--output"; output_path; "--metadata"].

Definition make_file_info (g : t) (prompt file_name : string)
    (steps seed : Z) : file_info :=
  mk_file_info file_name prompt (model g) steps seed
    (Py.str (width g) ++ "x" ++ Py.str (height g)).

(** What one successful round does to the [run_info] dictionary. *)
Definition record_image (i : nat) (fi : file_info) (info : run_info)
  : run_info :=
  mk_run_info (ri_prompt info) (ri_model info) (ri_steps info)
    (ri_base_seed info) (ri_width info) (ri_height info)
    (ri_total_iterations info) (Z.of_nat i + 1) (ri_status info)
    (ri_variation_type info) (ri_step_variations info)
    (ri_generated_files info ++ [fi]).

(** The statements after a loop: the run is marked completed; the
    average over an empty list of times divides by zero. *)
Definition mark_completed (info : run_info) : result run_info :=
  if bool_decide (ri_generated_files info = []) then Raise ZeroDivisionError
  else Ok (mk_run_info (ri_prompt info) (ri_model info) (ri_steps info)
             (ri_base_seed info) (ri_width info) (ri_height info)
             (ri_total_iterations info) (ri_completed_iterations info)
             completed
             (ri_variation_type info) (ri_step_variations info)
             (ri_generated_files info)).

Definition session_path (g : t) (run file : string) : string :=
  Session.current_session_dir (session g) ++ "/" ++ run ++ "/" ++ file.

(** The loop [for i in range(iterations)] of [generate] and of the
    seed branch of [generate_variations]; [seed] is [None] in the
    latter. *)
Fixpoint seed_loop (g : t) (run prompt : string) (seed : option Z)
    (indices : list nat) (info : run_info) (w : world)
  : result run_info * world :=
  match indices with
  | [] => (Ok info, w)
  | i :: rest =>
      let '(current_seed, w1) :=
        match seed with
        | Some s => (s, w)
        | None => randint 1 w
        end in
      let file_name := "image_" ++ Py.str current_seed ++ ".png" in
      let cmd := command g prompt (steps g) current_seed
                   (session_path g run file_name) in
      match subprocess_run cmd w1 with
      | (Raise e, w2) => (Raise e, w2)
      | (Ok _, w2) =>
          let fi := make_file_info g prompt file_name (steps g) current_seed in
          let w3 := save_metadata g run fi w2 in
          let info' := record_image i fi info in
          let w4 := _update_run_info g run info' w3 in
          seed_loop g run prompt seed rest info' w4
      end
  end.

(** The loop [for i, step_count in enumerate(vary_steps)]. *)
Fixpoint steps_loop (g : t) (run prompt : string) (base_seed : Z)
    (items : list (nat * Z)) (info : run_info) (w : world)
  : result run_info * t * world :=
  match items with
  | [] => (Ok info, g, w)
  | (i, step_count) :: rest =>
      let g1 := set_steps step_count g in
      let file_name := "image_" ++ Py.str base_seed ++ "_steps_"
                       ++ Py.str step_count ++ ".png" in
      let cmd := command g1 prompt step_count base_seed
                   (session_path g1 run file_name) in
      match subprocess_run cmd w with
      | (Raise e, w2) => (Raise e, g1, w2)
      | (Ok _, w2) =>
          let fi := make_file_info g1 prompt file_name step_count base_seed in
          let w3 := save_metadata g1 run fi w2 in
          let info' := record_image i fi info in
          let w4 := _update_run_info g1 run info' w3 in
          steps_loop g1 run prompt base_seed rest info' w4
      end
  end.

(** [range(n)] *)
Definition range (n : Z) : list nat := seq 0 (Z.to_nat n).

(** [enumerate(l)] *)
Definition enumerate {A} (l : list A) : list (nat * A) :=
  combine (seq 0 (length l)) l.

Definition allocate (g : t) (w : world) : string * t * world :=
  let '(run, s', d') := Session.get_next_run_dir (session g) (w_disk w) in
  (run, set_session s' g, set_disk d' w).

Definition generate (g : t) (prompt : string) (iterations : Z)
    (seed : option Z) (w : world) : result string * t * world :=
  let '(run, g, w) := allocate g w in
  let info := mk_run_info prompt (model g) (Some (steps g)) None
                (width g) (height g) iterations 0 in_progress
                None None [] in
  let w := _update_run_info g run info w in
  match seed_loop g run prompt seed (range iterations) info w with
  | (Raise e, w) => (Raise e, g, w)
  | (Ok info, w) =>
      match mark_completed info with
      | Raise e => (Raise e, g, w)
      | Ok info => (Ok run, g, _update_run_info g run info w)
      end
  end.

Definition generate_variations (g : t) (prompt : string)
    (iterations : option Z) (base_seed : option Z)
    (vary_steps : option (list Z)) (w : world)
  : result (list string) * t * world :=
  if Py.truthy_list vary_steps && Py.truthy_int base_seed then
    let step_list := default [] vary_steps in
    let seed := default 0%Z base_seed in
    let '(run, g, w) := allocate g w in
    let info := mk_run_info prompt (model g) None (Some seed)
                  (width g) (height g) (Z.of_nat (length step_list)) 0
                  in_progress (Some "steps") (Some step_list) [] in
    let w := _update_run_info g run info w in
    let original_steps := steps g in
    match steps_loop g run prompt seed (enumerate step_list) info w with
    | (Raise e, g, w) => (Raise e, g, w)
    | (Ok info, g, w) =>
        let g := set_steps original_steps g in
        match mark_completed info with
        | Raise e => (Raise e, g, w)
        | Ok info => (Ok [run], g, _update_run_info g run info w)
        end
    end
  else if Py.truthy_int iterations then
    let n := default 0%Z iterations in
    let '(run, g, w) := allocate g w in
    let info := mk_run_info prompt (model g) (Some (steps g)) None
                  (width g) (height g) n 0 in_progress
                  (Some "seeds") None [] in
    let w := _update_run_info g run info w in
    match seed_loop g run prompt None (range n) info w with
    | (Raise e, w) => (Raise e, g, w)
    | (Ok info, w) =>
        match mark_completed info with
        | Raise e => (Raise e, g, w)
        | Ok info => (Ok [run], g, _update_run_info g run info w)
        end
    end
  else (Ok [], g, w).


End Generator.

(** ** Computations that read and change the world and may raise *)

Definition M (A : Type) : Type := world → result A * world.

Global Instance M_ret : MRet M := λ A a w, (Ok a, w).
Global Instance M_bind : MBind M := λ A B k m w,
  match m w with
  | (Ok a, w') => k a w'
  | (Raise e, w') => (Raise e, w')
  end.

Definition lift {A} (r : result A) : M A := λ w, (r, w).
Definition raise {A} (e : exn) : M A := λ w, (Raise e, w).

(** ** [cli/main.py], the [generate] command *)

Module Cli.

Record options : Type := mk_options {
  o_prompt : string;
  o_vary_seed : option Z;
  o_seed : option Z;
  o_vary_steps : option string;
  o_force_new_session : bool;
  o_format : option string;
  o_style : option string
}.

(** [[int(s.strip()) for s in l]] *)
Fixpoint ints (l : list string) : result (list Z) :=
  match l with
  | [] => Ok []
  | s :: rest => n ← Py.int (Py.strip s); ns ← ints rest; Ok (n :: ns)
  end.

Definition new_session (force_new : bool) : M Session.t := λ w,
  let '(r, d) := Session.init force_new (w_disk w) (w_now w) in
  (r, set_disk d w).

Definition get_style (name : string) : M (option string) := λ w,
  (Styles.get_style name (w_styles w), w).

Definition first_run (results : list string) : result string :=
  match results with
  | r :: _ => Ok r
  | [] => Raise IndexError
  end.

(** The body of the [try] of [generate]. *)
Definition generate_body (o : options) : M unit :=
  session ← new_session (o_force_new_session o);
  generator ← lift (Generator.init session Config.DEFAULT_MODEL);
  let generator :=
    if Py.truthy_str (o_format o) then
      let resolution := Config.get_resolution (default "" (o_format o)) in
      Generator.mk_generator (Generator.session generator)
        (Generator.model generator) resolution.1 resolution.2
        (Generator.steps generator)
    else generator in
  prompt ←
    (if Py.truthy_str (o_style o) then
       style_description ← get_style (default "" (o_style o));
       mret (if Py.truthy_str style_description
             then o_prompt o ++ ", " ++ default "" style_description
             else o_prompt o)
     else mret (o_prompt o));
  step_list ←
    (if Py.truthy_str (o_vary_steps o) then
       if negb (Py.truthy_int (o_seed o)) then raise UsageError
       else match ints (Py.split "," (default "" (o_vary_steps o))) with
            | Ok l => mret (Some l)
            | Raise _ => raise UsageError
            end
     else mret None);
  if Py.truthy_list step_list then
    results ← (λ w, let '(r, _, w') :=
                 Generator.generate_variations generator prompt None
                   (o_seed o) step_list w in (r, w'));
    _ ← lift (first_run results);
    mret tt
  else if Py.truthy_int (o_vary_seed o) then
    results ← (λ w, let '(r, _, w') :=
                 Generator.generate_variations generator prompt
                   (o_vary_seed o) None None w in (r, w'));
    _ ← lift (first_run results);
    mret tt
  else
    _ ← (λ w, let '(r, _, w') :=
           Generator.generate generator prompt 1 (o_seed o) w in (r, w'));
    mret tt.

(** [generate]: the exit status of the process and the world it
    leaves; any exception is reported and turned into status 1. *)
Definition generate (o : options) (w : world) : Z * world :=
  match generate_body o w with
  | (Ok _, w') => (0%Z, w')
  | (Raise _, w') => (1%Z, w')
  end.

End Cli.

(** ** [mflux-wrapper.py]

    The script keeps its own state: session directories in the working
    directory, a run directory per run with a [run_info.json], and one
    style file mapping names to descriptions.  HTML pages and the
    live-server are not part of the model. *)

Module Wrapper.

Import Datetime.

(** *** Data *)

Inductive format_flag : Type :=
| landscape | landscape_sm | landscape_lg | landscape_xl
| portrait | portrait_sm | portrait_lg | portrait_xl
| square_sm | square_xl.

Global Instance format_flag_eq_dec : EqDecision format_flag.
Proof. solve_decision. Defined.

(** The command line as [argparse] sees it: for each option whether
    it was given, and with which value. *)
Record cli : Type := mk_cli {
  c_save_style : option (string * string);
  c_list_styles : bool;
  c_style : option string;
  c_prompt : option string;
  c_model : option string;
  c_new : bool;
  c_iterate : option string;
  c_resolution : option string;
  c_formats : list format_flag;
  c_steps : option Z;
  c_variations : option Z;
  c_metadata : bool;
  c_output_dir : option string;
  c_seed : option Z
}.

(** The [args] namespace.  [a_style_desc] and [a_iterate_steps] are
    attributes that exist only once they were assigned: the outer
    [option] is [hasattr]. *)
Record args : Type := mk_args {
  a_style : option string;
  a_style_desc : option (option string);
  a_prompt : option string;
  a_model : string;
  a_new : bool;
  a_iterate : option string;
  a_iterate_steps : option (list Z);
  a_resolution : option string;
  a_formats : list format_flag;
  a_steps : option Z;
  a_variations : Z;
  a_metadata : bool;
  a_output_dir : option string;
  a_seed : option Z
}.

(** The value under ["steps"] in [run_info.json]. *)
Inductive steps_value : Type :=
| StepsInt (n : Z)
| StepsText (s : string)
| StepsList (l : list Z).

Record image_info : Type := mk_image_info {
  im_index : Z;
  im_seed : Z;
  im_steps : Z;
  im_file_path : string;
  im_metadata_path : option string
}.

Record command_args : Type := mk_command_args {
  ca_prompt : option string;
  ca_model : string;
  ca_resolution : option string;
  ca_metadata : bool;
  ca_style : option string;
  ca_steps : steps_value;
  ca_iterate : option string
}.

(** A [run_info.json]; a key read back with [info.get] may be
    missing. *)
Record info : Type := mk_info {
  i_prompt : option string;
  i_model : string;
  i_steps : steps_value;
  i_resolution : option string;
  i_variations : option Z;
  i_command_args : command_args;
  i_results : list image_info
}.

(** An entry of a session directory, seen through
    [run_info.json]: no such file, a file the [try] block of
    [get_last_settings] fails on, or a readable record. *)
Inductive run_entry : Type :=
| NoInfo
| Unreadable
| Info (i : info).

Abbreviation session := (gmap string run_entry).

(** The style file. *)
Inductive style_file : Type :=
| NoStyleFile
| BadStyleFile
| StyleDict (styles : list (string * string)).

(** Directories are keyed by their path from the working
    directory. *)
Record wworld : Type := mk_wworld {
  ww_dirs : gmap string session;
  ww_styles : style_file;
  ww_now : datetime;
  ww_rand : list Z;
  ww_exits : list Z;
  ww_calls : list (list string)
}.

Definition W (A : Type) : Type := wworld → result A * wworld.

Global Instance W_ret : MRet W := λ A a w, (Ok a, w).
Global Instance W_bind : MBind W := λ A B k m w,
  match m w with
  | (Ok a, w') => k a w'
  | (Raise e, w') => (Raise e, w')
  end.

Definition wlift {A} (r : result A) : W A := λ w, (r, w).
Definition wraise {A} (e : exn) : W A := λ w, (Raise e, w).
Definition wget : W wworld := λ w, (Ok w, w).

Definition set_dirs (d : gmap string session) (w : wworld) : wworld :=
  mk_wworld d (ww_styles w) (ww_now w) (ww_rand w) (ww_exits w) (ww_calls w).

Definition set_styles (s : style_file) (w : wworld) : wworld :=
  mk_wworld (ww_dirs w) s (ww_now w) (ww_rand w) (ww_exits w) (ww_calls w).

(** The world at a later reading of the clock. *)
Definition at_time (t : datetime) (w : wworld) : wworld :=
  mk_wworld (ww_dirs w) (ww_styles w) t (ww_rand w) (ww_exits w) (ww_calls w).

(** *** Styles *)

Definition load_styles (w : wworld) : list (string * string) :=
  match ww_styles w with
  | StyleDict styles => styles
  | _ => []
  end.

(** [styles[name] = description] on a dictionary in insertion order. *)
Fixpoint dict_set (name description : string) (l : list (string * string))
  : list (string * string) :=
  match l with
  | [] => [(name, description)]
  | (k, v) :: l' =>
      if (k =? name)%string then (k, description) :: l'
      else (k, v) :: dict_set name description l'
  end.

Definition save_style (name description : string) : W unit := λ w,
  (Ok tt, set_styles (StyleDict (dict_set name description (load_styles w))) w).

Definition get_style (name : string) (w : wworld) : option string :=
  Config.assoc name (load_styles w).

(** *** [parse_args] *)

Definition preset (f : format_flag) : string :=
  match f with
  | landscape => "1024x576"
  | landscape_sm => "512x288"
  | landscape_lg => "1536x864"
  | landscape_xl => "2048x1152"
  | portrait => "768x1024"
  | portrait_sm => "384x512"
  | portrait_lg => "1152x1536"
  | portrait_xl => "1536x2048"
  | square_sm => "512x512"
  | square_xl => "2048x2048"
  end.

(** The order of the [if]/[elif] chain. *)
Definition flag_order : list format_flag :=
  [landscape; landscape_sm; landscape_lg; landscape_xl;
   portrait; portrait_sm; portrait_lg; portrait_xl; square_sm; square_xl].

Definition flag_set (f : format_flag) (fl : list format_flag) : bool :=
  bool_decide (f ∈ fl).

(** [any([args.landscape, ..., args.square_xl])] *)
Definition any_format (fl : list format_flag) : bool :=
  existsb (λ f, flag_set f fl) flag_order.

(** What [parser.parse_args()] rejects by itself (exit status 2): two
    different options of one mutually exclusive group, a model that
    is not among the choices. *)
Definition given {A} (o : option A) : nat :=
  match o with
  | Some _ => 1
  | None => 0
  end.

Definition group_count (c : cli) : nat :=
  given (c_resolution c)
  + length (filter (λ f, Is_true (flag_set f (c_formats c))) flag_order).

Definition style_group_count (c : cli) : nat :=
  given (c_save_style c) + (if c_list_styles c then 1 else 0)
  + given (c_style c).

Definition argparse (c : cli) : result args :=
  if bool_decide ((group_count c ≤ 1)%nat ∧ (style_group_count c ≤ 1)%nat
                  ∧ default "schnell" (c_model c) ∈ ["schnell"; "dev"])
  then Ok (mk_args (c_style c) None (c_prompt c)
             (default "schnell" (c_model c)) (c_new c) (c_iterate c) None
             (Some (default "1024x1024" (c_resolution c))) (c_formats c)
             (c_steps c) (default 4%Z (c_variations c)) (c_metadata c)
             (c_output_dir c) (c_seed c))
  else Raise (SystemExit 2).

Definition set_style_and_desc (st : option string)
    (desc : option (option string)) (a : args) : args :=
  mk_args st desc (a_prompt a) (a_model a) (a_new a) (a_iterate a)
    (a_iterate_steps a) (a_resolution a) (a_formats a) (a_steps a)
    (a_variations a) (a_metadata a) (a_output_dir a) (a_seed a).

Definition set_prompt (p : option string) (a : args) : args :=
  mk_args (a_style a) (a_style_desc a) p (a_model a) (a_new a) (a_iterate a)
    (a_iterate_steps a) (a_resolution a) (a_formats a) (a_steps a)
    (a_variations a) (a_metadata a) (a_output_dir a) (a_seed a).

Definition set_resolution (r : option string) (a : args) : args :=
  mk_args (a_style a) (a_style_desc a) (a_prompt a) (a_model a) (a_new a)
    (a_iterate a) (a_iterate_steps a) r (a_formats a) (a_steps a)
    (a_variations a) (a_metadata a) (a_output_dir a) (a_seed a).

Definition set_variations (n : Z) (a : args) : args :=
  mk_args (a_style a) (a_style_desc a) (a_prompt a) (a_model a) (a_new a)
    (a_iterate a) (a_iterate_steps a) (a_resolution a) (a_formats a)
    (a_steps a) n (a_metadata a) (a_output_dir a) (a_seed a).

(** [args.iterate_steps = l; args.variations = len(l); args.steps = None] *)
Definition set_iterate (l : list Z) (a : args) : args :=
  mk_args (a_style a) (a_style_desc a) (a_prompt a) (a_model a) (a_new a)
    (a_iterate a) (Some l) (a_resolution a) (a_formats a) None
    (Z.of_nat (length l)) (a_metadata a) (a_output_dir a) (a_seed a).

(** The branch [elif args.style:]. *)
Definition apply_style (a : args) : W args := λ w,
  match a_style a with
  | Some (String _ _ as name) =>
      if (Py.lower name =? "none")%string then
        (Ok (set_style_and_desc None (Some None) a), w)
      else
        let style_desc := get_style name w in
        if negb (Py.truthy_str style_desc) then (Raise ValueError, w)
        else if Py.truthy_str (a_prompt a) then
          (Ok (set_prompt
                 (Some (default "" (a_prompt a) ++ ", " ++ default "" style_desc))
                 a), w)
        else (Ok (set_style_and_desc (a_style a) (Some style_desc) a), w)
  | _ => (Ok a, w)
  end.

(** "Set resolution based on format flags". *)
Definition apply_format (a : args) : args :=
  match filter (λ f, Is_true (flag_set f (a_formats a))) flag_order with
  | f :: _ => set_resolution (Some (preset f)) a
  | [] => a
  end.

(** "Validate iterate command". *)
Definition apply_iterate (a : args) : result args :=
  if Py.truthy_str (a_iterate a) then
    match a_seed a with
    | None => Raise ValueError
    | Some _ =>
        match Cli.ints (Py.split "," (default "" (a_iterate a))) with
        | Ok l => Ok (set_iterate l a)
        | Raise _ => Raise ValueError
        end
    end
  else Ok a.

Definition parse_args (c : cli) : W args :=
  a ← wlift (argparse c);
  match c_save_style c with
  | Some (name, description) =>
      _ ← save_style name description; wraise (SystemExit 0)
  | None =>
      if c_list_styles c then wraise (SystemExit 0)
      else
        a ← apply_style a;
        wlift (apply_iterate (apply_format a))
  end.

(** *** Session lookup

    [datetime.strptime(text, "%Y%m%d_%H%M%S")]: the library turns the
    format into the regular expression
    [\d\d\d\d(1[0-2]|0[1-9]|[1-9])(3[0-1]|[1-2]\d|0[1-9]|[1-9]| [1-9])_(2[0-3]|[0-1]\d|\d)([0-5]\d|\d)(6[0-1]|[0-5]\d|\d)],
    takes its first match (alternatives in order, with backtracking),
    rejects text left over after it, and hands the numbers to the
    [datetime] constructor. *)

Inductive cls : Type :=
| Digit
| Range (lo hi : nat)
| Lit (c : ascii).

Definition cls_match (k : cls) (c : ascii) : bool :=
  let n := nat_of_ascii c in
  match k with
  | Digit => (48 <=? n)%nat && (n <=? 57)%nat
  | Range lo hi => (48 + lo <=? n)%nat && (n <=? 48 + hi)%nat
  | Lit c' => Ascii.eqb c c'
  end.

(** One alternative: a fixed sequence of character classes; the
    matched text and the rest. *)
Fixpoint match_alt (a : list cls) (s : string) : option (string * string) :=
  match a with
  | [] => Some ("", s)
  | k :: a' =>
      match s with
      | "" => None
      | String c r =>
          if cls_match k c then
            match match_alt a' r with
            | Some (m, rest) => Some (String c m, rest)
            | None => None
            end
          else None
      end
  end.

(** A sequence of groups, each a list of alternatives. *)
Fixpoint match_seq (groups : list (list (list cls))) (s : string)
  : option (list string * string) :=
  match groups with
  | [] => Some ([], s)
  | alts :: gs =>
      (fix try (alts : list (list cls)) : option (list string * string) :=
         match alts with
         | [] => None
         | a :: alts' =>
             match match_alt a s with
             | Some (m, rest) =>
                 match match_seq gs rest with
                 | Some (ms, r) => Some (m :: ms, r)
                 | None => try alts'
                 end
             | None => try alts'
             end
         end) alts
  end.

Definition format_regex : list (list (list cls)) :=
  [ [[Digit; Digit; Digit; Digit]];
    [[Lit "1"; Range 0 2]; [Lit "0"; Range 1 9]; [Range 1 9]];
    [[Lit "3"; Range 0 1]; [Range 1 2; Digit]; [Lit "0"; Range 1 9];
     [Range 1 9]; [Lit " "; Range 1 9]];
    [[Lit "_"]];
    [[Lit "2"; Range 0 3]; [Range 0 1; Digit]; [Digit]];
    [[Range 0 5; Digit]; [Digit]];
    [[Lit "6"; Range 0 1]; [Range 0 5; Digit]; [Digit]] ].

Definition strptime (text : string) : result datetime :=
  match match_seq format_regex text with
  | Some ([gY; gm; gd; _; gH; gM; gS], "") =>
      year ← Py.int gY; month ← Py.int gm; day ← Py.int gd;
      hour ← Py.int gH; minute ← Py.int gM; second ← Py.int gS;
      Datetime.make year month day hour minute second
  | _ => Raise ValueError
  end.

(** [os.listdir('.')]: the directories whose path has one
    component. *)
Definition listdir_cwd (w : wworld) : list string :=
  filter (λ n, Is_true (negb (Py.contains "/" n))) (map_to_list (ww_dirs w)).*1.

(** [os.listdir(base_dir)] *)
Definition listdir (base_dir : string) : W (list string) := λ w,
  match ww_dirs w !! base_dir with
  | Some s => (Ok (map_to_list s).*1, w)
  | None => (Raise FileNotFoundError, w)
  end.

(** The loop over [os.listdir('.')] filling [recent_dirs].  The test
    [(now - dir_time).total_seconds() < 3600] is decided on the
    microseconds: the float quotient is below 3600 exactly when they
    are below 3600 million. *)
Fixpoint scan_recent (now : datetime) (names : list string)
  : list (datetime * string) :=
  match names with
  | [] => []
  | d :: rest =>
      if Py.startswith "mflux_output_" d then
        match strptime (nth 2 (Py.splitn "_" d 2) "") with
        | Ok dir_time =>
            if (Datetime.sub now dir_time <? 3600 * 1000000)%Z
            then (dir_time, d) :: scan_recent now rest
            else scan_recent now rest
        | Raise _ => scan_recent now rest
        end
      else scan_recent now rest
  end.

(** *** [get_last_settings] *)

Record last_settings : Type := mk_last_settings {
  ls_prompt : string;
  ls_resolution : option string;
  ls_style : option string;
  ls_variations : Z
}.

(** [int(x.split("_")[1])] *)
Definition run_number (name : string) : result Z :=
  match Py.split "_" name with
  | _ :: n :: _ => Py.int n
  | _ => Raise IndexError
  end.

Fixpoint run_numbers (names : list string) : result (list (Z * string)) :=
  match names with
  | [] => Ok []
  | x :: rest => k ← run_number x; ks ← run_numbers rest; Ok ((k, x) :: ks)
  end.

(** [sorted(names, key=run_number, reverse=True)] on the keyed
    names: stable, descending. *)
Fixpoint insert_by_key (x : Z * string) (l : list (Z * string))
  : list (Z * string) :=
  match l with
  | [] => [x]
  | y :: l' => if (x.1 <? y.1)%Z then y :: insert_by_key x l' else x :: y :: l'
  end.

Definition run_names (entries : list string) : list string :=
  filter (λ d, Is_true (Py.startswith "run_" d)) entries.

(** [prompt.split(",")[0].strip()] and [prompt.split(",", 1)[1].strip()] *)
Definition base_prompt_of (prompt : string) : string :=
  Py.strip (hd "" (Py.split "," prompt)).

Definition style_part_of (prompt : string) : string :=
  Py.strip (nth 1 (Py.splitn "," prompt 1) "").

(** "Extract style from prompt if it exists". *)
Definition extract_style (prompt : string) (styles : list (string * string))
  : string * option string :=
  if Py.contains "," prompt then
    let base_prompt := base_prompt_of prompt in
    let style_part := style_part_of prompt in
    if existsb (λ kv, (kv.2 =? style_part)%string) styles then
      match find (λ kv, (kv.2 =? style_part)%string) styles with
      | Some (name, _) => (base_prompt, Some name)
      | None => (prompt, None)
      end
    else (prompt, None)
  else (prompt, None).

(** The loop [for run in runs]. *)
Fixpoint first_readable (s : session) (w : wworld) (runs : list string)
  : option last_settings :=
  match runs with
  | [] => None
  | run :: rest =>
      match s !! run with
      | Some (Info i) =>
          let '(prompt, style) :=
            extract_style (default "" (i_prompt i)) (load_styles w) in
          Some (mk_last_settings prompt (i_resolution i) style
                  (default 4%Z (i_variations i)))
      | _ => first_readable s w rest
      end
  end.

Definition get_last_settings (base_dir : string) : W (option last_settings) :=
  entries ← listdir base_dir;
  keyed ← wlift (run_numbers (run_names entries));
  w ← wget;
  mret (first_readable (default ∅ (ww_dirs w !! base_dir)) w
          (foldr insert_by_key [] keyed).*2).

(** *** [create_output_directories] *)

(** [f"{x}"] for an optional text. *)
Definition fmt (x : option string) : string := default "None" x.

(** "Apply last prompt if none specified". *)
Definition inherit_prompt (ls : last_settings) (a : args) : W args := λ w,
  let a := set_prompt (Some (ls_prompt ls)) a in
  match a_style_desc a with
  | Some style_desc =>
      (Ok (set_prompt (Some (fmt (a_prompt a) ++ ", " ++ fmt style_desc)) a), w)
  | None =>
      if Py.truthy_str (ls_style ls) && negb (Py.truthy_str (a_style a)) then
        let style_desc := get_style (default "" (ls_style ls)) w in
        if Py.truthy_str style_desc
        then (Ok (set_prompt (Some (fmt (a_prompt a) ++ ", " ++ fmt style_desc)) a), w)
        else (Ok a, w)
      else (Ok a, w)
  end.

(** "Apply last resolution if none specified (no format flag used)". *)
Definition inherit_resolution (ls : last_settings) (a : args) : args :=
  if negb (any_format (a_formats a))
     && bool_decide (a_resolution a = Some "1024x1024")
  then set_resolution (ls_resolution ls) a
  else a.

(** "Apply last variations if none specified and not using iterate". *)
Definition inherit_variations (ls : last_settings) (a : args) : args :=
  if (a_variations a =? 4)%Z && bool_decide (a_iterate_steps a = None)
  then set_variations (ls_variations ls) a
  else a.

Definition get_default_steps (model : string) : Z :=
  if (model =? "schnell")%string then 1
  else if (model =? "dev")%string then 5
  else 1.

(** [os.makedirs(path, exist_ok=True)] for a session directory and
    for a run directory. *)
Definition makedirs (base_dir : string) : W unit := λ w,
  (Ok tt, match ww_dirs w !! base_dir with
          | Some _ => w
          | None => set_dirs (<[base_dir := ∅]> (ww_dirs w)) w
          end).

Definition makedirs_run (base_dir run : string) : W unit := λ w,
  let s := default ∅ (ww_dirs w !! base_dir) in
  (Ok tt, match s !! run with
          | Some _ => w
          | None => set_dirs (<[base_dir := <[run := NoInfo]> s]> (ww_dirs w)) w
          end).

(** Writing [run_info.json] of a run directory. *)
Definition write_info (base_dir run : string) (i : info) : W unit := λ w,
  let s := default ∅ (ww_dirs w !! base_dir) in
  (Ok tt, set_dirs (<[base_dir := <[run := Info i]> s]> (ww_dirs w)) w).

Definition effective_steps (a : args) : Z :=
  match a_steps a with
  | Some n => n
  | None => get_default_steps (a_model a)
  end.

Definition initial_info (a : args) : info :=
  let steps := match a_iterate_steps a with
               | Some _ => StepsText (fmt (a_iterate a))
               | None => StepsInt (effective_steps a)
               end in
  mk_info (a_prompt a) (a_model a) steps (a_resolution a)
    (Some (a_variations a))
    (mk_command_args (a_prompt a) (a_model a) (a_resolution a)
       (a_metadata a) (a_style a) steps (a_iterate a))
    [].

(** The session of the invocation and the settings taken over from
    its last run. *)
Definition resolve_session (a : args) : W (args * string) :=
  if negb (Py.truthy_str (a_output_dir a)) then
    w ← wget;
    let now := ww_now w in
    let recent_dirs :=
      if a_new a then [] else scan_recent now (listdir_cwd w) in
    match Session.sorted_desc recent_dirs with
    | first :: _ =>
        let base_dir := first.2 in
        last ← get_last_settings base_dir;
        match last with
        | Some ls =>
            a ← (match a_prompt a with
                 | None => inherit_prompt ls a
                 | Some _ => mret a
                 end);
            let a := inherit_resolution ls a in
            let a := inherit_variations ls a in
            match a_prompt a with
            | None => wraise ValueError
            | Some _ => mret (a, base_dir)
            end
        | None => mret (a, base_dir)
        end
    | [] =>
        let base_dir := "mflux_output_" ++ Datetime.strftime now in
        match a_prompt a with
        | None => wraise ValueError
        | Some _ => mret (a, base_dir)
        end
    end
  else
    let base_dir := default "" (a_output_dir a) in
    match a_prompt a with
    | None =>
        last ← get_last_settings base_dir;
        match last with
        | Some ls =>
            a ← inherit_prompt ls a;
            let a := inherit_resolution ls a in
            let a := inherit_variations ls a in
            mret (a, base_dir)
        | None => wraise ValueError
        end
    | Some _ => mret (a, base_dir)
    end.

(** "Determine the next run number". *)
Definition next_run_number (base_dir : string) : W Z :=
  entries ← listdir base_dir;
  match run_names entries with
  | [] => mret 1%Z
  | existing_runs =>
      keyed ← wlift (run_numbers existing_runs);
      mret (foldr Z.max (hd 0%Z keyed.*1) keyed.*1 + 1)%Z
  end.

(** Returns the namespace as it is left, the session directory and
    the name of the run directory in it. *)
Definition create_output_directories (a : args) : W (args * string * string) :=
  '(a, base_dir) ← resolve_session a;
  _ ← makedirs base_dir;
  next_run ← next_run_number base_dir;
  let run := "run_" ++ Py.str next_run in
  _ ← makedirs_run base_dir run;
  _ ← write_info base_dir run (initial_info a);
  mret (a, base_dir, run).

(** The run directories that [n] invocations in a row create, each
    one starting from the namespace [a] that its command line gave. *)
Fixpoint create_runs (n : nat) (a : args) : W (list string) :=
  match n with
  | O => mret []
  | S n' =>
      '(_, _, run) ← create_output_directories a;
      rest ← create_runs n' a;
      mret (run :: rest)
  end.

(** The run directories of the session [base_dir] are those numbered
    1 to [j]. *)
Definition numbered (base_dir : string) (j : Z) (w : wworld) : Prop :=
  ∀ name, Py.startswith "run_" name = true →
    is_Some (default ∅ (ww_dirs w !! base_dir) !! name)
    ↔ ∃ i, (1 ≤ i ≤ j)%Z ∧ name = "run_" ++ Py.str i.

(** *** [generate_images] and [save_run_info] *)

(** [os.path.basename] *)
Definition basename (path : string) : string :=
  default "" (last (Py.split "/" path)).

Definition save_run_info (base_dir run : string) (a : args)
    (results : list image_info) : W unit :=
  write_info base_dir run
    (mk_info (a_prompt a) (a_model a) (StepsInt (effective_steps a))
       (a_resolution a) (Some (a_variations a))
       (mk_command_args (a_prompt a) (a_model a) (a_resolution a)
          (a_metadata a) (a_style a) (StepsInt (effective_steps a))
          (a_iterate a))
       (map (λ r, mk_image_info (im_index r) (im_seed r) (im_steps r)
                    (basename (im_file_path r)) None) results)).

(** [width, height = map(int, args.resolution.split('x'))] *)
Definition parse_resolution (r : option string) : result (Z * Z) :=
  match r with
  | None => Raise AttributeError
  | Some r =>
      match Py.split "x" r with
      | [a; b] => width ← Py.int a; height ← Py.int b; Ok (width, height)
      | _ => Raise ValueError
      end
  end.

(** [random.randint(1, 1000000)] *)
Definition wrandint : W Z := λ w,
  match ww_rand w with
  | r :: rest =>
      (Ok r, mk_wworld (ww_dirs w) (ww_styles w) (ww_now w) rest
               (ww_exits w) (ww_calls w))
  | [] => (Ok 1%Z, w)
  end.

(** Running the command to its end; the exit status. *)
Definition popen (cmd : list string) : W Z := λ w,
  (Ok (hd 0%Z (ww_exits w)),
   mk_wworld (ww_dirs w) (ww_styles w) (ww_now w) (ww_rand w)
     (tl (ww_exits w)) (ww_calls w ++ [cmd])).

Definition command (a : args) (prompt : string)
    (current_steps seed width height : Z) (output_path : string)
  : list string :=
  ["mflux-generate"; "--prompt"; prompt; "--model"; a_model a;
   "--steps"; Py.str current_steps; "--seed"; Py.str seed;
   "--width"; Py.str width; "--height"; Py.str height;
   "--output"; output_path]
  ++ (if a_metadata a then ["--metadata"] else []).

(** The path of the image of the variation with index [i] of the
    loop. *)
Definition output_path (base_dir run : string) (i : nat) : string :=
  base_dir ++ "/" ++ run ++ "/image_" ++ Py.str (Z.of_nat i + 1) ++ ".png".

(** The loop [for i in range(args.variations)]; a non-zero exit
    status is reported by the [except] clause and the loop goes on. *)
Fixpoint images_loop (a : args) (base_dir run : string)
    (steps width height : Z) (indices : list nat)
    (results : list image_info) : W (list image_info) :=
  match indices with
  | [] => mret results
  | i :: rest =>
      seed ← (match a_seed a with
              | Some s => mret (s + Z.of_nat i)%Z
              | None => wrandint
              end : W Z);
      current_steps ←
        (match a_iterate_steps a with
         | Some l =>
             match l !! i with
             | Some c => mret c
             | None => wraise IndexError
             end
         | None => mret steps
         end : W Z);
      let output_path := output_path base_dir run i in
      prompt ← (match a_prompt a with
                | Some p => mret p
                | None => wraise TypeError
                end : W string);
      rc ← popen (command a prompt current_steps seed width height output_path);
      if (rc =? 0)%Z then
        let image_info :=
          mk_image_info (Z.of_nat i + 1) seed current_steps output_path
            (if a_metadata a then Some (output_path ++ ".json") else None) in
        let results := (results ++ [image_info])%list in
        _ ← save_run_info base_dir run a results;
        images_loop a base_dir run steps width height rest results
      else
        images_loop a base_dir run steps width height rest results
  end.

Definition generate_images (a : args) (base_dir run : string)
  : W (list image_info) :=
  let steps := effective_steps a in
  '(width, height) ← wlift (parse_resolution (a_resolution a));
  images_loop a base_dir run steps width height
    (Generator.range (a_variations a)) [].

(** Reading [run_info.json] of a run directory back. *)
Definition read_info (base_dir run : string) (w : wworld) : option info :=
  s ← ww_dirs w !! base_dir;
  e ← s !! run;
  match e with
  | Info i => Some i
  | _ => None
  end.


(** [main], without the live-server. *)
Definition main (c : cli) : W (list image_info) :=
  a ← parse_args c;
  '(a, base_dir, run) ← create_output_directories a;
  generate_images a base_dir run.

End Wrapper.

(** ** Further parts of the code

    What the modules above leave out of the files they embed: the
    [Resolution] class of [core/config.py], the pure parts of
    [utils/gallery.py] and [core/brainstorm.py], and the built-ins they
    need. *)

Module PyText.

(** [sep.join(l)] *)
Fixpoint join (sep : string) (l : list string) : string :=
  match l with
  | [] => ""
  | [x] => x
  | x :: rest => x ++ sep ++ join sep rest
  end.

(** [l[:n]]: the first [n] elements, and all but the last [-n] when
    [n] is negative. *)
Definition slice_to {A} (n : Z) (l : list A) : list A :=
  if (0 <=? n)%Z then take (Z.to_nat n) l
  else take (length l - Z.to_nat (- n)) l.

End PyText.

(** *** [core/config.py]: the [Resolution] class *)

Module Resolution.

(** [Resolution.from_string]: [width, height = map(int,
    resolution_str.split('x'))].  The unpacking raises [ValueError]
    when there are not exactly two parts, and so does [int] on a part
    that is not an integer. *)
Definition from_string (resolution_str : string) : result (Z * Z) :=
  match Py.split "x" resolution_str with
  | [a; b] => width ← Py.int a; height ← Py.int b; Ok (width, height)
  | _ => Raise ValueError
  end.

(** [Resolution.__str__] *)
Definition to_string (r : Z * Z) : string :=
  Py.str r.1 ++ "x" ++ Py.str r.2.

End Resolution.

(** The attribute of the [args] namespace that holds a format flag of
    the script ([--landscape-sm] is [args.landscape_sm]); the package
    has the same names as keys of [RESOLUTIONS]. *)
Definition format_name (f : Wrapper.format_flag) : string :=
  match f with
  | Wrapper.landscape => "landscape"
  | Wrapper.landscape_sm => "landscape_sm"
  | Wrapper.landscape_lg => "landscape_lg"
  | Wrapper.landscape_xl => "landscape_xl"
  | Wrapper.portrait => "portrait"
  | Wrapper.portrait_sm => "portrait_sm"
  | Wrapper.portrait_lg => "portrait_lg"
  | Wrapper.portrait_xl => "portrait_xl"
  | Wrapper.square_sm => "square_sm"
  | Wrapper.square_xl => "square_xl"
  end.

(** *** [utils/gallery.py] *)

Module Gallery.

Local Open Scope Z_scope.

(** "Determine format option" of [_get_image_info], for the integer
    width and height of a record the generator wrote: what the command
    shown under an image adds for the format. *)
Definition format_option (width height : Z) : string :=
  if negb (width =? 1024) || negb (height =? 1024) then
    if (width =? 1024) && (height =? 576) then " --format landscape"
    else if (width =? 768) && (height =? 1024) then " --format portrait"
    else if (width =? 512) && (height =? 288) then " --format landscape_sm"
    else if (width =? 384) && (height =? 512) then " --format portrait_sm"
    else if (width =? 1536) && (height =? 864) then " --format landscape_lg"
    else if (width =? 1152) && (height =? 1536) then " --format portrait_lg"
    else ""
  else "".

End Gallery.

(** *** [core/brainstorm.py] *)

Module Brainstorm.

Definition newline : ascii := ascii_of_nat 10.

(** The condition of the comprehension of [generate_variations]:
    [line.strip() and not line.startswith(("#", "-"))]. *)
Definition keep (line : string) : bool :=
  Py.truthy_str (Some (Py.strip line))
  && negb (Py.startswith "#" line || Py.startswith "-" line).

(** The prompts read from the output of the external command. *)
Definition extract_prompts (stdout : string) (num_variations : Z)
  : list string :=
  PyText.slice_to num_variations
    (Py.strip <$> filter (λ line, Is_true (keep line))
                    (Py.split newline stdout)).

End Brainstorm.

(** * Properties *)

(** A few sanity checks of the built-ins against the interpreter. *)
Example int_plain : Py.int "42" = Ok 42%Z.
Proof. reflexivity. Qed.
Example int_spaces_sign : Py.int "  -007 " = Ok (-7)%Z.
Proof. reflexivity. Qed.
Example int_underscore : Py.int "1_000" = Ok 1000%Z.
Proof. reflexivity. Qed.
Example int_bad_underscore : Py.int "_9" = Raise ValueError.
Proof. reflexivity. Qed.
Example int_empty : Py.int "" = Raise ValueError.
Proof. reflexivity. Qed.
Example int_text : Py.int "abc" = Raise ValueError.
Proof. reflexivity. Qed.
Example str_neg : Py.str (-15) = "-15".
Proof. reflexivity. Qed.
Example split_commas : Py.split "," "1,3,,9" = ["1"; "3"; ""; "9"].
Proof. reflexivity. Qed.
Example splitn_once : Py.splitn "," "a, b, c" 1 = ["a"; " b, c"].
Proof. reflexivity. Qed.
Example strip_both : Py.strip "  a b  " = "a b".
Proof. reflexivity. Qed.

Example ord_2025_03_08 : Datetime.ymd2ord 2025 3 8 = 739318%Z.
Proof. reflexivity. Qed.
Example strftime_example :
  Datetime.strftime (Datetime.mk 2025 3 8 17 7 9 123456) = "20250308_170709".
Proof. reflexivity. Qed.
Example feb_29_rejected : Datetime.make 2025 2 29 0 0 0 = Raise ValueError.
Proof. reflexivity. Qed.

(** ** Facts about the built-ins *)

Section py_facts.

Local Open Scope Z_scope.

Ltac eval_digit :=
  match goal with
  | |- context [Py.digit_of ?c] =>
      let v := eval vm_compute in (Py.digit_of c) in
      change (Py.digit_of c) with v; cbv iota beta
  end.

Lemma digits_uint_acc (d : uint) (p : positive) (z : Z) :
  z = Z.pos p →
  Py.digits (NilEmpty.string_of_uint d) z true
  = Some (Z.pos (Pos.of_uint_acc d p)).
Proof.
  revert p z.
  induction d; intros p z ->; cbn [NilEmpty.string_of_uint Py.digits];
    try reflexivity.
  all: eval_digit; apply IHd; lia.
Qed.

Lemma digits_uint (d : uint) :
  Py.digits (NilEmpty.string_of_uint d) 0 true = Some (Z.of_N (Pos.of_uint d)).
Proof.
  induction d; cbn [NilEmpty.string_of_uint Py.digits Pos.of_uint];
    try reflexivity.
  all: eval_digit.
  all: try (erewrite digits_uint_acc; [reflexivity | lia]).
  exact IHd.
Qed.

(** The first character of a literal decides nothing but the flag. *)
Lemma digits_first_flag (d : uint) (b : bool) :
  d ≠ Nil →
  Py.digits (NilEmpty.string_of_uint d) 0 b
  = Py.digits (NilEmpty.string_of_uint d) 0 true.
Proof. destruct d; intros H; try congruence; reflexivity. Qed.

Definition no_space (s : string) : Prop :=
  Forall (λ c, Py.is_space c = false) (list_ascii_of_string s).

Lemma lstrip_no_space s : no_space s → Py.lstrip s = s.
Proof.
  destruct s as [|c r]; [reflexivity|].
  intros H. apply Forall_cons in H as [Hc _]. cbn. by rewrite Hc.
Qed.

Lemma rstrip_no_space s : no_space s → Py.rstrip s = s.
Proof.
  induction s as [|c r IH]; [reflexivity|].
  intros H. apply Forall_cons in H as [Hc Hr].
  cbn. rewrite Hc. cbn. by rewrite IH.
Qed.

Lemma strip_no_space s : no_space s → Py.strip s = s.
Proof.
  intros H. unfold Py.strip. rewrite lstrip_no_space by done.
  by apply rstrip_no_space.
Qed.

Lemma uint_no_space (d : uint) : no_space (NilEmpty.string_of_uint d).
Proof.
  unfold no_space.
  induction d; cbn; constructor; try reflexivity; assumption.
Qed.

Lemma str_no_space (n : Z) : no_space (Py.str n).
Proof.
  unfold Py.str.
  destruct n as [|p|p]; cbn.
  - repeat constructor.
  - destruct (Pos.to_uint p) eqn:E; try apply (uint_no_space (_ _)).
    repeat constructor.
  - constructor; [reflexivity|].
    destruct (Pos.to_uint p) eqn:E; try apply (uint_no_space (_ _)).
    repeat constructor.
Qed.

(** Reading back a printed integer. *)
Lemma int_str (n : Z) : Py.int (Py.str n) = Ok n.
Proof.
  unfold Py.int. rewrite strip_no_space by apply str_no_space.
  unfold Py.str.
  destruct n as [|p|p]; [reflexivity| |].
  - cbn [Z.to_int NilZero.string_of_int].
    pose proof (Unsigned.to_uint_nonnil p) as Hnil.
    pose proof (DecimalPos.Unsigned.of_to p) as Hof.
    assert (NilZero.string_of_uint (Pos.to_uint p)
            = NilEmpty.string_of_uint (Pos.to_uint p)) as ->.
    { revert Hnil. destruct (Pos.to_uint p); first [reflexivity | congruence]. }
    pose proof (digits_uint (Pos.to_uint p)) as Hd.
    rewrite Hof in Hd.
    rewrite <- (digits_first_flag _ false) in Hd by done.
    destruct (Pos.to_uint p); try congruence;
      cbn [NilEmpty.string_of_uint] in *;
      (change (Ascii.eqb _ "-") with false; change (Ascii.eqb _ "+") with false;
       cbn match; rewrite Hd; reflexivity).
  - cbn [Z.to_int NilZero.string_of_int].
    pose proof (Unsigned.to_uint_nonnil p) as Hnil.
    pose proof (DecimalPos.Unsigned.of_to p) as Hof.
    assert (NilZero.string_of_uint (Pos.to_uint p)
            = NilEmpty.string_of_uint (Pos.to_uint p)) as ->.
    { revert Hnil. destruct (Pos.to_uint p); first [reflexivity | congruence]. }
    pose proof (digits_uint (Pos.to_uint p)) as Hd.
    rewrite Hof in Hd.
    rewrite <- (digits_first_flag _ false) in Hd by done.
    change (Ascii.eqb "-" "-") with true. cbn match.
    rewrite Hd. reflexivity.
Qed.

Lemma str_inj (n m : Z) : Py.str n = Py.str m → n = m.
Proof.
  intros H. pose proof (int_str n) as Hn. rewrite H, int_str in Hn. congruence.
Qed.

End py_facts.

Section datetime_facts.

Import Datetime.
Local Open Scope Z_scope.

Local Ltac div_lia :=
  Z.to_euclidean_division_equations; lia.

Lemma div_step (y k : Z) :
  0 < k → y / k = (y - 1) / k + (if y mod k =? 0 then 1 else 0).
Proof.
  intros Hk. pose proof (Z.div_mod y k ltac:(lia)) as Hy.
  pose proof (Z.mod_pos_bound y k Hk) as Hr.
  destruct (y mod k =? 0) eqn:E.
  - apply Z.eqb_eq in E.
    assert ((y - 1) / k = y / k - 1) as ->; [|lia].
    symmetry. apply (Z.div_unique_pos _ _ _ (k - 1)); lia.
  - apply Z.eqb_neq in E.
    assert ((y - 1) / k = y / k) as ->; [|lia].
    symmetry. apply (Z.div_unique_pos _ _ _ (y mod k - 1)); lia.
Qed.

Lemma days_before_year_step (y : Z) :
  days_before_year (y + 1)
  = days_before_year y + 365 + (if is_leap y then 1 else 0).
Proof.
  unfold days_before_year, is_leap.
  replace (y + 1 - 1) with y by lia.
  rewrite (div_step y 4), (div_step y 100), (div_step y 400) by lia.
  assert (y mod 100 = 0 → y mod 4 = 0) as H1.
  { intros H. div_lia. }
  assert (y mod 400 = 0 → y mod 100 = 0) as H2.
  { intros H. div_lia. }
  destruct (Z.eqb_spec (y mod 4) 0), (Z.eqb_spec (y mod 100) 0),
    (Z.eqb_spec (y mod 400) 0); cbn [andb orb negb]; lia.
Qed.

Lemma days_before_year_le (a b : Z) :
  a ≤ b → days_before_year a ≤ days_before_year b.
Proof. intros H. unfold days_before_year. div_lia. Qed.

Lemma days_before_year_mono (y1 y2 : Z) :
  y1 < y2 →
  days_before_year y1 + 365 + (if is_leap y1 then 1 else 0)
  ≤ days_before_year y2.
Proof.
  intros H. rewrite <- days_before_year_step.
  apply days_before_year_le. lia.
Qed.

Local Ltac eval_month :=
  repeat match goal with
    | |- context [Z.to_nat ?k] =>
        let v := eval vm_compute in (Z.to_nat k) in
        change (Z.to_nat k) with v
    end;
  cbn in *.

Lemma month_cases (m : Z) :
  1 ≤ m ≤ 12 →
  m = 1 ∨ m = 2 ∨ m = 3 ∨ m = 4 ∨ m = 5 ∨ m = 6
  ∨ m = 7 ∨ m = 8 ∨ m = 9 ∨ m = 10 ∨ m = 11 ∨ m = 12.
Proof. lia. Qed.

Lemma valid_date_bounds (y m d : Z) :
  valid_date y m d = true →
  1 ≤ y ≤ 9999 ∧ 1 ≤ m ≤ 12 ∧ 1 ≤ d ≤ days_in_month y m.
Proof. unfold valid_date. intros H. repeat (apply andb_prop in H as [H ?]). lia. Qed.

Lemma valid_time_bounds (h mi s us : Z) :
  valid_time h mi s us = true →
  0 ≤ h ≤ 23 ∧ 0 ≤ mi ≤ 59 ∧ 0 ≤ s ≤ 59 ∧ 0 ≤ us ≤ 999999.
Proof. unfold valid_time. intros H. repeat (apply andb_prop in H as [H ?]). lia. Qed.

(** Within one year the day number follows the order of (month, day)
    and stays within the year. *)
Lemma day_of_year_bounds (y m d : Z) :
  valid_date y m d = true →
  1 ≤ days_before_month y m + d ≤ 365 + (if is_leap y then 1 else 0).
Proof.
  intros H. apply valid_date_bounds in H as (_ & Hm & Hd).
  unfold days_before_month, days_in_month in *.
  destruct (is_leap y);
    destruct (month_cases m Hm) as [->|[->|[->|[->|[->|[->|[->|[->|[->|[->|[->| ->]]]]]]]]]]];
    eval_month; lia.
Qed.

Lemma day_of_year_lt (y m1 d1 m2 d2 : Z) :
  valid_date y m1 d1 = true → valid_date y m2 d2 = true →
  m1 < m2 →
  days_before_month y m1 + d1 < days_before_month y m2 + d2.
Proof.
  intros H1 H2 Hlt.
  apply valid_date_bounds in H1 as (_ & Hm1 & Hd1).
  apply valid_date_bounds in H2 as (_ & Hm2 & Hd2).
  unfold days_before_month, days_in_month in *.
  destruct (is_leap y);
    destruct (month_cases m1 Hm1) as [->|[->|[->|[->|[->|[->|[->|[->|[->|[->|[->| ->]]]]]]]]]]];
    destruct (month_cases m2 Hm2) as [->|[->|[->|[->|[->|[->|[->|[->|[->|[->|[->| ->]]]]]]]]]]];
    eval_month; lia.
Qed.

(** The order of [datetime] values is the order of the instants. *)
Lemma compare_to_us (a b : datetime) :
  valid a = true → valid b = true →
  compare a b = (to_us a ?= to_us b).
Proof.
  destruct a as [y1 m1 d1 h1 mi1 s1 us1], b as [y2 m2 d2 h2 mi2 s2 us2].
  unfold valid, compare, fields, to_us, ymd2ord. cbn [year month day hour minute second microsecond].
  intros Ha Hb.
  apply andb_prop in Ha as [Hda Hta]. apply andb_prop in Hb as [Hdb Htb].
  pose proof (valid_time_bounds _ _ _ _ Hta).
  pose proof (valid_time_bounds _ _ _ _ Htb).
  pose proof (day_of_year_bounds _ _ _ Hda).
  pose proof (day_of_year_bounds _ _ _ Hdb).
  pose proof (valid_date_bounds _ _ _ Hda) as (Hy1 & _ & Hd1).
  pose proof (valid_date_bounds _ _ _ Hdb) as (Hy2 & _ & Hd2).
  cbn [lex_compare].
  symmetry.
  destruct (Z.compare_spec y1 y2) as [->|Hy|Hy].
  2:{ pose proof (days_before_year_mono y1 y2 Hy).
      apply Z.compare_lt_iff. lia. }
  2:{ pose proof (days_before_year_mono y2 y1 Hy).
      apply Z.compare_gt_iff. lia. }
  destruct (Z.compare_spec m1 m2) as [->|Hm|Hm].
  2:{ pose proof (day_of_year_lt y2 m1 d1 m2 d2 Hda Hdb Hm).
      apply Z.compare_lt_iff. lia. }
  2:{ pose proof (day_of_year_lt y2 m2 d2 m1 d1 Hdb Hda Hm).
      apply Z.compare_gt_iff. lia. }
  destruct (Z.compare_spec d1 d2) as [->|?|?];
    [|apply Z.compare_lt_iff; lia|apply Z.compare_gt_iff; lia].
  destruct (Z.compare_spec h1 h2) as [->|?|?];
    [|apply Z.compare_lt_iff; lia|apply Z.compare_gt_iff; lia].
  destruct (Z.compare_spec mi1 mi2) as [->|?|?];
    [|apply Z.compare_lt_iff; lia|apply Z.compare_gt_iff; lia].
  destruct (Z.compare_spec s1 s2) as [->|?|?];
    [|apply Z.compare_lt_iff; lia|apply Z.compare_gt_iff; lia].
  destruct (Z.compare_spec us1 us2) as [->|?|?];
    [|apply Z.compare_lt_iff; lia|apply Z.compare_gt_iff; lia].
  apply Z.compare_refl.
Qed.

Lemma make_valid (y m d h mi s : Z) (t : datetime) :
  make y m d h mi s = Ok t → valid t = true ∧ t = mk y m d h mi s 0.
Proof.
  unfold make, valid. destruct (valid_date y m d && valid_time h mi s 0) eqn:E;
    [|discriminate].
  intros [= <-]. split; [exact E | reflexivity].
Qed.

End datetime_facts.

Section session_counter.

Local Open Scope Z_scope.
Implicit Types (d : disk) (sname : string) (c : Z).

Lemma load_after_save sname c d :
  Session._load_run_counter sname
    (Session._save_run_counter (Session.mk_session sname c) d) = Ok c.
Proof.
  unfold Session._load_run_counter, Session._save_run_counter.
  cbn -[Py.strip Py.int Py.str].
  rewrite lookup_insert_eq. cbn -[Py.strip Py.int Py.str].
  rewrite strip_no_space by apply str_no_space.
  apply int_str.
Qed.

Lemma run_name_inj (n m : Z) : Session.run_name n = Session.run_name m → n = m.
Proof. unfold Session.run_name. intros H. apply str_inj. by simplify_eq/=. Qed.

(** One allocation: the persisted counter [c] is read, the run
    directory is named by [c + 1] and exists afterwards, the run
    directories that were there are kept, and [c + 1] is persisted. *)
Lemma allocate_run_step sname c d :
  Session._load_run_counter sname d = Ok c →
  ∃ d', Session.allocate_run sname d = Ok (Session.run_name (c + 1), d')
        ∧ Session._load_run_counter sname d' = Ok (c + 1)
        ∧ (d' !! sname ≫= run_counter_txt) = Some (Py.str (c + 1))
        ∧ is_Some (d' !! sname ≫= λ sd, runs sd !! Session.run_name (c + 1))
        ∧ (∀ r, is_Some (d !! sname ≫= λ sd, runs sd !! r) →
                is_Some (d' !! sname ≫= λ sd, runs sd !! r)).
Proof.
  intros Hload. unfold Session.allocate_run. rewrite Hload. cbn.
  eexists. split; [reflexivity|].
  split; [apply load_after_save|].
  unfold Session._save_run_counter, mkdir_run. cbn.
  rewrite !lookup_insert_eq. cbn.
  split; [reflexivity|]. split.
  - destruct (runs _ !! _) eqn:E; [by rewrite E|].
    by rewrite lookup_insert_eq.
  - intros r [x Hx]. destruct (d !! sname) as [sd|] eqn:Hd; [|done].
    cbn in *. destruct (runs sd !! Session.run_name (c + 1)) eqn:E; [eauto|].
    destruct (decide (Session.run_name (c + 1) = r)) as [<-|Hne].
    + rewrite lookup_insert_eq. eauto.
    + rewrite lookup_insert_ne by done. eauto.
Qed.

Lemma allocate_runs_from sname (n : nat) : ∀ c d,
  Session._load_run_counter sname d = Ok c →
  ∃ d', Session.allocate_runs n sname d
        = Ok (Session.run_name <$> seqZ (c + 1) (Z.of_nat n), d')
        ∧ Session._load_run_counter sname d' = Ok (c + Z.of_nat n)
        ∧ (∀ r, is_Some (d !! sname ≫= λ sd, runs sd !! r) →
                is_Some (d' !! sname ≫= λ sd, runs sd !! r))
        ∧ (∀ i, c < i ≤ c + Z.of_nat n →
                is_Some (d' !! sname ≫= λ sd, runs sd !! Session.run_name i)).
Proof.
  induction n as [|n IH]; intros c d Hload.
  - exists d. cbn. rewrite Z.add_0_r. repeat split; first [done | lia].
  - destruct (allocate_run_step sname c d Hload)
      as (d1 & Hrun & Hload1 & _ & Hnew & Hkeep).
    destruct (IH (c + 1) d1 Hload1) as (d2 & Hruns & Hload2 & Hkeep2 & Hall).
    exists d2. cbn [Session.allocate_runs]. rewrite Hrun. cbn. rewrite Hruns. cbn.
    split.
    { rewrite Nat2Z.inj_succ, (seqZ_cons (c + 1) (Z.succ _)) by lia. cbn.
      do 3 f_equal. rewrite Z.pred_succ. reflexivity. }
    split; [rewrite Hload2; f_equal; lia|].
    split; [auto|].
    intros i Hi. destruct (decide (i = c + 1)) as [->|Hne].
    + auto.
    + apply Hall. lia.
Qed.

(** The same numbering when one session object serves all the
    calls. *)
Lemma next_run_dirs_names (n : nat) :
  ∀ (s : Session.t) (d : disk),
    (Session.next_run_dirs n s d).1.1
    = Session.run_name <$> seqZ (Session.run_counter s + 1) (Z.of_nat n)
    ∧ Session.run_counter (Session.next_run_dirs n s d).1.2
      = Session.run_counter s + Z.of_nat n.
Proof.
  induction n as [|n IH]; intros s d.
  - cbn. split; [done | lia].
  - cbn [Session.next_run_dirs]. unfold Session.get_next_run_dir.
    cbn [Session.current_session_dir Session.run_counter].
    match goal with
    | |- context [Session.next_run_dirs n ?s1 ?d1] =>
        destruct (IH s1 d1) as [Hn Hc];
        destruct (Session.next_run_dirs n s1 d1) as [[names s2] d2]
    end.
    cbn [fst snd Session.run_counter] in *. subst names. split.
    + rewrite Nat2Z.inj_succ,
        (seqZ_cons (Session.run_counter s + 1) (Z.succ _)) by lia.
      cbn. do 2 f_equal. rewrite Z.pred_succ. reflexivity.
    + lia.
Qed.

End session_counter.

Section wrapper_numbering.

Import Wrapper.
Local Open Scope Z_scope.

Lemma split_no_sep (sep : ascii) (s : string) :
  Py.contains sep s = false → Py.split sep s = [s].
Proof.
  induction s as [|c r IH]; [done|]. cbn.
  destruct (Ascii.eqb c sep); [done|]. cbn. intros H. by rewrite IH.
Qed.

Lemma uint_no_underscore (d : uint) :
  Py.contains "_" (NilEmpty.string_of_uint d) = false.
Proof. induction d; cbn; done. Qed.

Lemma str_no_underscore (n : Z) : Py.contains "_" (Py.str n) = false.
Proof.
  unfold Py.str. destruct n as [|p|p]; cbn; [done| |].
  - destruct (Pos.to_uint p) eqn:E; try apply (uint_no_underscore (_ _)). done.
  - destruct (Pos.to_uint p) eqn:E; try apply (uint_no_underscore (_ _)). done.
Qed.

Lemma run_number_name (i : Z) : run_number ("run_" ++ Py.str i) = Ok i.
Proof.
  unfold run_number.
  change ("run_" ++ Py.str i)
    with (String "r" (String "u" (String "n" (String "_" (Py.str i))))).
  cbn [Py.split Ascii.eqb Bool.eqb].
  rewrite split_no_sep by apply str_no_underscore. apply int_str.
Qed.

Lemma run_name_prefix (i : Z) : Py.startswith "run_" ("run_" ++ Py.str i) = true.
Proof. cbv -[Py.str]. by destruct (Py.str i). Qed.

Lemma max_of_list (ks : list Z) (j : Z) :
  (∀ k, k ∈ ks → k ≤ j) → j ∈ ks → foldr Z.max (hd 0 ks) ks = j.
Proof.
  intros Hle Hin.
  assert (∀ l d, (∀ k, k ∈ l → k ≤ j) → d ≤ j → foldr Z.max d l ≤ j) as Hub.
  { induction l as [|x l IH]; intros d Hl Hd; cbn; [done|].
    apply Z.max_lub; [apply Hl; left | apply IH; [|done]].
    intros k Hk. apply Hl. by right. }
  assert (∀ l d, j ∈ l → j ≤ foldr Z.max d l) as Hlb.
  { induction l as [|x l IH]; intros d Hl; [by apply elem_of_nil in Hl|].
    cbn. apply elem_of_cons in Hl as [->|Hl]; [lia|].
    specialize (IH d Hl). lia. }
  apply Z.le_antisymm.
  - apply Hub; [done|]. destruct ks; [by apply elem_of_nil in Hin|].
    apply Hle. left.
  - by apply Hlb.
Qed.

End wrapper_numbering.

Section wrapper_sequence.

Import Wrapper.
Local Open Scope Z_scope.

Variable base : string.

Lemma run_numbers_numbered (names : list string) (j : Z) :
  (∀ n, n ∈ names → ∃ i, 1 ≤ i ≤ j ∧ n = "run_" ++ Py.str i) →
  ∃ keyed, run_numbers names = Ok keyed
    ∧ (∀ k, k ∈ keyed.*1 → 1 ≤ k ≤ j ∧ ("run_" ++ Py.str k) ∈ names)
    ∧ (∀ i, ("run_" ++ Py.str i) ∈ names → i ∈ keyed.*1).
Proof.
  induction names as [|x names IH]; intros Hall.
  - exists []. split; [done|]. split; intros ? H; by apply elem_of_nil in H.
  - destruct (Hall x) as (i & Hi & ->); [left|].
    destruct IH as (keyed & Hk & Hle & Hin).
    { intros n Hn. apply Hall. by right. }
    exists ((i, "run_" ++ Py.str i) :: keyed). split; [|split].
    + cbn [run_numbers]. rewrite run_number_name, Hk. reflexivity.
    + intros k [->|Hkin]%elem_of_cons.
      * split; [done | left].
      * destruct (Hle k Hkin). split; [done | by right].
    + intros i' [Heq|Hin']%elem_of_cons.
      * apply (run_name_inj i' i) in Heq as ->. left.
      * right. by apply Hin.
Qed.

Lemma next_run_number_numbered (j : Z) (w : wworld) :
  0 ≤ j → numbered base j w → is_Some (ww_dirs w !! base) →
  next_run_number base w = (Ok (j + 1), w).
Proof.
  intros Hj Hnum [s Hs]. unfold next_run_number, listdir.
  unfold numbered in Hnum. rewrite Hs in Hnum. cbn [default from_option id] in Hnum.
  unfold mbind at 1, W_bind. rewrite Hs.
  assert (∀ n, n ∈ run_names (map_to_list s).*1
               ↔ ∃ i, 1 ≤ i ≤ j ∧ n = "run_" ++ Py.str i) as Hnames.
  { intros n. unfold run_names. rewrite list_elem_of_filter. split.
    - intros [Hp Hin]. apply Is_true_true in Hp. apply Hnum; [done|].
      apply list_elem_of_fmap in Hin as ([n' v] & -> & Hin).
      apply elem_of_map_to_list in Hin. by eexists.
    - intros (i & Hi & ->). split; [apply Is_true_true, run_name_prefix|].
      destruct (proj2 (Hnum _ (run_name_prefix i))) as [v Hv]; [eauto|].
      apply list_elem_of_fmap. exists ("run_" ++ Py.str i, v).
      split; [done | by apply elem_of_map_to_list]. }
  destruct (run_names (map_to_list s).*1) as [|x rest] eqn:Hr.
  - assert (j = 0) as ->; [|done].
    destruct (Z.eq_dec j 0) as [|Hne]; [done|].
    assert (("run_" ++ Py.str j) ∈ @nil string) as H
      by (apply Hnames; exists j; split; [lia | done]).
    by apply elem_of_nil in H.
  - destruct (run_numbers_numbered (x :: rest) j) as (keyed & Hk & Hle & Hin).
    { intros n Hn. by apply Hnames. }
    unfold mbind, W_bind, wlift, mret, W_ret. rewrite Hk. do 2 f_equal.
    rewrite (max_of_list keyed.*1 j); [done| |].
    + intros k Hkin. destruct (Hle k Hkin). lia.
    + apply Hin. apply Hnames. exists j. split; [|done].
      destruct (Hnames x) as [(i & Hi & _) _]; [left|]. lia.
Qed.

Lemma create_output_directories_numbered (a : args) (p : string) (j : Z)
    (w : wworld) :
  a_output_dir a = Some base → Py.truthy_str (Some base) = true →
  a_prompt a = Some p →
  0 ≤ j → numbered base j w →
  ∃ w', create_output_directories a w
        = (Ok (a, base, "run_" ++ Py.str (j + 1)), w')
        ∧ numbered base (j + 1) w'.
Proof.
  intros Hout Htruthy Hp Hj Hnum.
  unfold create_output_directories.
  assert (resolve_session a w = (Ok (a, base), w)) as Hres.
  { unfold resolve_session. rewrite Hout, Htruthy, Hp. reflexivity. }
  unfold mbind at 1, W_bind. rewrite Hres.
  set (w1 := (makedirs base w).2).
  assert (makedirs base w = (Ok tt, w1)) as Hmk by reflexivity.
  assert (is_Some (ww_dirs w1 !! base)
          ∧ default ∅ (ww_dirs w1 !! base) = default ∅ (ww_dirs w !! base))
    as [Hsome Hsame].
  { subst w1. unfold makedirs. cbn [snd].
    destruct (ww_dirs w !! base) as [s|] eqn:Hs.
    - rewrite Hs. split; [by eexists | done].
    - unfold set_dirs. cbn [ww_dirs]. rewrite lookup_insert_eq.
      split; [by eexists | done]. }
  assert (numbered base j w1) as Hnum1.
  { unfold numbered. rewrite Hsame. exact Hnum. }
  unfold mbind at 1, W_bind. rewrite Hmk.
  unfold mbind at 1, W_bind.
  rewrite (next_run_number_numbered j w1 Hj Hnum1 Hsome).
  set (run := "run_" ++ Py.str (j + 1)).
  unfold mbind at 1, W_bind.
  set (w2 := (makedirs_run base run w1).2).
  assert (makedirs_run base run w1 = (Ok tt, w2)) as -> by reflexivity.
  unfold mbind at 1, W_bind.
  set (w3 := (write_info base run (initial_info a) w2).2).
  assert (write_info base run (initial_info a) w2 = (Ok tt, w3)) as ->
    by reflexivity.
  exists w3. split; [reflexivity|].
  intros name Hpre.
  assert (is_Some (default ∅ (ww_dirs w3 !! base) !! name)
          ↔ name = run ∨ is_Some (default ∅ (ww_dirs w1 !! base) !! name))
    as ->.
  { subst w3 w2. unfold write_info, makedirs_run, set_dirs. cbn [snd ww_dirs].
    rewrite lookup_insert_eq. cbn [default from_option id].
    destruct (decide (name = run)) as [->|Hne].
    - rewrite lookup_insert_eq. split; [auto | by eexists].
    - rewrite lookup_insert_ne by done.
      destruct (default ∅ (ww_dirs w1 !! base) !! run) eqn:Hrun.
      + tauto.
      + cbn [ww_dirs]. rewrite lookup_insert_eq. cbn [default from_option id].
        rewrite lookup_insert_ne by done. tauto. }
  rewrite (Hnum1 name Hpre). split.
  - intros [->|(i & Hi & ->)]; [exists (j + 1) | exists i]; split; (lia || done).
  - intros (i & Hi & ->). destruct (Z.eq_dec i (j + 1)) as [->|Hne].
    + by left.
    + right. exists i. split; [lia | done].
Qed.

(** [N] invocations in a row with the same output directory, which
    holds the runs 1 to [j] at the start: the run directories created
    are those numbered [j + 1] to [j + N], in order. *)
Lemma create_runs_numbered (a : args) (p : string) (N : nat) :
  a_output_dir a = Some base → Py.truthy_str (Some base) = true →
  a_prompt a = Some p →
  ∀ (j : Z) (w : wworld), 0 ≤ j → numbered base j w →
  ∃ w', create_runs N a w
        = (Ok ((λ i, "run_" ++ Py.str i) <$> seqZ (j + 1) (Z.of_nat N)), w')
        ∧ numbered base (j + Z.of_nat N) w'.
Proof.
  intros Hout Htruthy Hp. induction N as [|N IH]; intros j w Hj Hnum.
  - exists w. split; [reflexivity|]. by rewrite Z.add_0_r.
  - destruct (create_output_directories_numbered a p j w Hout Htruthy Hp Hj Hnum)
      as (w1 & Hstep & Hnum1).
    destruct (IH (j + 1) w1 ltac:(lia) Hnum1) as (w2 & Hrest & Hnum2).
    exists w2. split.
    + cbn [create_runs]. unfold mbind at 1, W_bind. rewrite Hstep.
      unfold mbind at 1, W_bind. rewrite Hrest.
      rewrite Nat2Z.inj_succ, (seqZ_cons (j + 1) (Z.succ _)) by lia.
      rewrite Z.pred_succ. reflexivity.
    + replace (j + Z.of_nat (S N)) with (j + 1 + Z.of_nat N) by lia. done.
Qed.

End wrapper_sequence.

(** [C1] For N sequential run allocations on a session directory that has
    no persisted counter, each allocation reading the counter (0 when the
    file is absent), adding one, creating the run directory named by the
    new value and persisting it, the run ids are exactly 1..N: the
    directories returned are [run_1 .. run_N] in order, without repeats,
    all of them exist afterwards, and the persisted counter reads N.
    The directories are the same when one session object, created with
    the counter 0, serves the N calls.  The script, which numbers a run
    one above the greatest number among the run directories present,
    creates the same [run_1 .. run_N] in N invocations in a row on an
    output directory that holds no run directory. *)
Theorem C1_counter_monotonic (N : nat) (sname : string) (d : disk) :
  d !! sname ≫= run_counter_txt = None →
  (∃ d', Session.allocate_runs N sname d
         = Ok (Session.run_name <$> seqZ 1 (Z.of_nat N), d')
         ∧ NoDup (Session.run_name <$> seqZ 1 (Z.of_nat N))
         ∧ (∀ i, (1 ≤ i ≤ Z.of_nat N)%Z →
                 is_Some (d' !! sname ≫= λ sd, runs sd !! Session.run_name i))
         ∧ Session._load_run_counter sname d' = Ok (Z.of_nat N))
  ∧ Session._load_run_counter sname d = Ok 0%Z
  ∧ (Session.next_run_dirs N (Session.mk_session sname 0) d).1.1
    = Session.run_name <$> seqZ 1 (Z.of_nat N)
  ∧ (∀ (a : Wrapper.args) (p : string) (w : Wrapper.wworld),
       Wrapper.a_output_dir a = Some sname →
       Py.truthy_str (Some sname) = true →
       Wrapper.a_prompt a = Some p →
       (∀ name, Py.startswith "run_" name = true →
          default ∅ (Wrapper.ww_dirs w !! sname) !! name = None) →
       ∃ w', Wrapper.create_runs N a w
             = (Ok (Session.run_name <$> seqZ 1 (Z.of_nat N)), w')
             ∧ ∀ i, (1 ≤ i ≤ Z.of_nat N)%Z →
                 is_Some (default ∅ (Wrapper.ww_dirs w' !! sname)
                            !! Session.run_name i)).
Proof.
  intros Hfresh.
  assert (Session._load_run_counter sname d = Ok 0%Z) as Hload.
  { unfold Session._load_run_counter. by rewrite Hfresh. }
  split; [|split; [exact Hload | split;
    [apply (next_run_dirs_names N (Session.mk_session sname 0) d)|]]].
  - destruct (allocate_runs_from sname N 0%Z d Hload)
      as (d' & Hruns & Hl & _ & Hall).
    exists d'. split; [exact Hruns|]. split; [|split].
    + apply NoDup_fmap_2; [intros ??; apply run_name_inj | apply NoDup_seqZ].
    + intros i Hi. apply Hall. lia.
    + exact Hl.
  - intros a p w Hout Htruthy Hp Hnone.
    destruct (create_runs_numbered sname a p N Hout Htruthy Hp 0%Z w)
      as (w' & Hruns & Hnum); [lia | |].
    { intros name Hpre. rewrite (Hnone name Hpre). split.
      - by intros [? ?].
      - intros (i & Hi & _). lia. }
    exists w'. split; [exact Hruns|].
    intros i Hi. apply (Hnum _ (run_name_prefix i)). exists i.
    split; [lia | reflexivity].
Qed.

(** Three allocations on a session directory that was just created,
    and three invocations of the script on an output directory that
    does not exist yet. *)
Lemma C1_counter_monotonic_witness :
  let sname := "mflux_output_20250308_170709" in
  let w := Wrapper.mk_wworld ∅ Wrapper.NoStyleFile (Datetime.mk 2025 3 8 17 7 9 0) [] [] [] in
  let c := Wrapper.mk_cli None false None (Some "a cat") None false None None
             [] None None false (Some sname) None in
  (∃ d', Session.allocate_runs 3 sname {[sname := empty_session_dir]}
         = Ok (["run_1"; "run_2"; "run_3"], d')
         ∧ Session._load_run_counter sname d' = Ok 3%Z)
  ∧ ∀ a, (Wrapper.parse_args c w).1 = Ok a →
      ∃ w', Wrapper.create_runs 3 a w = (Ok ["run_1"; "run_2"; "run_3"], w').
Proof.
  intros sname w c.
  destruct (C1_counter_monotonic 3 sname {[sname := empty_session_dir]})
    as ((d' & H1 & _ & _ & H2) & _ & _ & Hscript); [reflexivity|].
  split; [exists d'; split; [exact H1 | exact H2]|].
  intros a Ha. vm_compute in Ha. injection Ha as <-.
  match goal with
  | |- ∃ w', Wrapper.create_runs 3 ?a _ = _ =>
      destruct (Hscript a "a cat" w eq_refl eq_refl eq_refl)
        as (w' & Hruns & _)
  end.
  - intros name _. reflexivity.
  - exists w'. exact Hruns.
Defined.

Section session_scan.

Import Datetime.
Local Open Scope Z_scope.
Implicit Types (d : disk) (now T : datetime) (n : string).


Lemma result_bind_ok {A B} (r : result A) (k : A → result B) (b : B) :
  r ≫= k = Ok b → ∃ a, r = Ok a ∧ k a = Ok b.
Proof. destruct r; [eauto | discriminate]. Qed.



(** The order on [(timestamp, path)] tuples, for timestamps the
    [datetime] constructor accepted. *)
Lemma tuple_lt_false (a b : datetime * string) :
  valid a.1 = true → valid b.1 = true →
  Session.tuple_lt a b = false
  ↔ to_us b.1 < to_us a.1 ∨ (to_us b.1 = to_us a.1 ∧ String.le b.2 a.2).
Proof.
  intros Ha Hb. unfold Session.tuple_lt. rewrite compare_to_us by done.
  destruct (Z.compare_spec (to_us a.1) (to_us b.1)) as [Heq|Hlt|Hgt].
  - unfold String.le, String.ltb, String.leb.
    rewrite (String.compare_antisym a.2 b.2).
    destruct (String.compare b.2 a.2); cbn; split; try done; try lia;
      intros _; right; split; done.
  - split; [done | intros [?|[? _]]; lia].
  - split; [auto | done].
Qed.

Lemma insert_desc_elem x l y :
  y ∈ Session.insert_desc x l ↔ y = x ∨ y ∈ l.
Proof.
  induction l as [|z l IH]; cbn.
  - by rewrite elem_of_cons.
  - destruct (Session.tuple_lt x z); rewrite !elem_of_cons, ?IH; tauto.
Qed.

Lemma sorted_desc_elem l y : y ∈ Session.sorted_desc l ↔ y ∈ l.
Proof.
  induction l as [|x l IH]; cbn; [done|].
  rewrite insert_desc_elem, elem_of_cons, IH. done.
Qed.

(** The first element of the sorted list is not below any other. *)
Lemma sorted_desc_head l x rest :
  (∀ y, y ∈ l → valid y.1 = true) →
  Session.sorted_desc l = x :: rest →
  x ∈ l ∧ ∀ y, y ∈ l → Session.tuple_lt x y = false.
Proof.
  intros Hv H. split.
  { apply sorted_desc_elem. rewrite H. left. }
  revert x rest H. induction l as [|a l IH]; intros x rest H; [done|].
  change (Session.sorted_desc (a :: l))
    with (Session.insert_desc a (Session.sorted_desc l)) in H.
  assert (∀ y, y ∈ l → valid y.1 = true) as Hvl
    by (intros; apply Hv; by right).
  assert (valid a.1 = true) as Hva by (apply Hv; left).
  destruct (Session.sorted_desc l) as [|z l'] eqn:Hs.
  - cbn in H. injection H as <- <-.
    assert (l = []) as ->.
    { destruct l as [|b l]; [done|].
      assert (b ∈ Session.sorted_desc (b :: l)) as Hb
        by (apply sorted_desc_elem; left).
      rewrite Hs in Hb. by apply elem_of_nil in Hb. }
    intros y ->%list_elem_of_singleton.
    apply tuple_lt_false; [done..|]. right. split; [done|].
    reflexivity.
  - specialize (IH Hvl z l' eq_refl).
    assert (z ∈ l) as Hz by (apply sorted_desc_elem; rewrite Hs; left).
    assert (valid z.1 = true) as Hvz by auto.
    cbn in H. destruct (Session.tuple_lt a z) eqn:Haz.
    + injection H as <- <-.
      intros y [->|Hy]%elem_of_cons; [|by apply IH].
      apply tuple_lt_false; [done..|].
      unfold Session.tuple_lt in Haz. rewrite compare_to_us in Haz by done.
      destruct (Z.compare_spec (to_us a.1) (to_us z.1)); [|lia|done].
      right. split; [done|].
      unfold String.ltb in Haz. unfold String.le, String.leb.
      destruct (String.compare a.2 z.2); done.
    + injection H as <- <-.
      intros y [->|Hy]%elem_of_cons.
      * apply tuple_lt_false; [done..|]. right. split; [done | reflexivity].
      * pose proof (IH y Hy) as Hzy.
        apply tuple_lt_false in Hzy; [|auto..].
        apply tuple_lt_false in Haz; [|done..].
        apply tuple_lt_false; [auto..|].
        destruct Hzy as [?|[? Hle1]], Haz as [?|[? Hle2]]; try (left; lia).
        right. split; [lia|]. by etrans.
Qed.

Lemma sorted_desc_nil l : Session.sorted_desc l = [] → l = [].
Proof.
  destruct l as [|b l]; [done|]. intros Hs.
  assert (b ∈ Session.sorted_desc (b :: l)) as Hb
    by (apply sorted_desc_elem; left).
  rewrite Hs in Hb. by apply elem_of_nil in Hb.
Qed.


End session_scan.

Section strftime_facts.

Import Datetime.
Local Open Scope Z_scope.

Lemma digit_cases (k : Z) :
  0 ≤ k ≤ 9 →
  k = 0 ∨ k = 1 ∨ k = 2 ∨ k = 3 ∨ k = 4 ∨ k = 5 ∨ k = 6 ∨ k = 7 ∨ k = 8 ∨ k = 9.
Proof. lia. Qed.

Local Ltac each_digit H :=
  destruct (digit_cases _ H) as [->|[->|[->|[->|[->|[->|[->|[->|[->| ->]]]]]]]]].

Lemma digit_of_digit_char (k : Z) :
  0 ≤ k ≤ 9 → Py.digit_of (digit_char k) = Some k.
Proof. intros H. each_digit H; reflexivity. Qed.

Lemma digit_char_plain (k : Z) :
  0 ≤ k ≤ 9 →
  Py.is_space (digit_char k) = false
  ∧ Ascii.eqb (digit_char k) "-" = false
  ∧ Ascii.eqb (digit_char k) "+" = false.
Proof. intros H. each_digit H; done. Qed.

Lemma int_pad2 (n : Z) : 0 ≤ n ≤ 99 → Py.int (pad2 n) = Ok n.
Proof.
  intros H.
  assert (0 ≤ n / 10 ≤ 9 ∧ 0 ≤ n mod 10 ≤ 9) as [Ha Hb]
    by (Z.to_euclidean_division_equations; lia).
  destruct (digit_char_plain _ Ha) as (Hs1 & Hm & Hp).
  destruct (digit_char_plain _ Hb) as (Hs2 & _ & _).
  unfold Py.int, pad2.
  rewrite strip_no_space by (repeat constructor; done).
  rewrite Hm, Hp. cbn [Py.digits].
  rewrite !digit_of_digit_char by done.
  do 2 f_equal. Z.to_euclidean_division_equations; lia.
Qed.

Lemma int_pad4 (n : Z) : 0 ≤ n ≤ 9999 → Py.int (pad4 n) = Ok n.
Proof.
  intros H.
  assert (0 ≤ n / 1000 ≤ 9 ∧ 0 ≤ n / 100 mod 10 ≤ 9
          ∧ 0 ≤ n mod 100 / 10 ≤ 9 ∧ 0 ≤ n mod 100 mod 10 ≤ 9)
    as (Ha & Hb & Hc & Hd)
    by (Z.to_euclidean_division_equations; lia).
  destruct (digit_char_plain _ Ha) as (Hs1 & Hm & Hp).
  destruct (digit_char_plain _ Hb) as (Hs2 & _ & _).
  destruct (digit_char_plain _ Hc) as (Hs3 & _ & _).
  destruct (digit_char_plain _ Hd) as (Hs4 & _ & _).
  unfold Py.int, pad4, pad2.
  rewrite strip_no_space by (repeat constructor; done).
  rewrite Hm, Hp. cbn [Py.digits].
  rewrite !digit_of_digit_char by done.
  do 2 f_equal. Z.to_euclidean_division_equations; lia.
Qed.



End strftime_facts.

Section session_window.

Import Datetime.
Local Open Scope Z_scope.
Implicit Types (d : disk) (now T : datetime) (n : string).



Lemma startswith_prefix (s : string) :
  Py.startswith Session.prefix (Session.prefix ++ s) = true.
Proof. cbv. by destruct s. Qed.


End session_window.

Section wrapper_session.

Import Datetime.
Local Open Scope Z_scope.

Lemma strptime_valid (text : string) (T : datetime) :
  Wrapper.strptime text = Ok T → valid T = true.
Proof.
  unfold Wrapper.strptime.
  destruct (Wrapper.match_seq _ _) as [[groups rest]|]; [|discriminate].
  destruct groups as [|gY [|gm [|gd [|g_ [|gH [|gM [|gS [|??]]]]]]]];
    try discriminate.
  destruct rest; [|discriminate]. intros H.
  repeat (apply result_bind_ok in H as (? & _ & H)).
  by apply make_valid in H as [Hv _].
Qed.

(** Which directories the script keeps as recent: the name starts
    with the prefix, the rest reads as a timestamp, and [now] is less
    than an hour after it, on the signed difference. *)
Lemma scan_recent_spec (now : datetime) (names : list string) T n :
  (T, n) ∈ Wrapper.scan_recent now names
  ↔ n ∈ names ∧ Py.startswith "mflux_output_" n = true
    ∧ Wrapper.strptime (nth 2 (Py.splitn "_" n 2) "") = Ok T
    ∧ sub now T < 3600 * 1000000.
Proof.
  induction names as [|x names IH]; cbn [Wrapper.scan_recent].
  - split; [by intros ?%elem_of_nil | by intros [?%elem_of_nil _]].
  - destruct (Py.startswith "mflux_output_" x) eqn:Hp.
    2:{ rewrite elem_of_cons, IH. split.
        - intros (? & ? & ? & ?); auto.
        - intros ([->|?] & ? & ? & ?); [congruence | auto]. }
    destruct (Wrapper.strptime (nth 2 (Py.splitn "_" x 2) ""))
      as [Tx|e] eqn:Hx.
    2:{ rewrite elem_of_cons, IH. split.
        - intros (? & ? & ? & ?); auto.
        - intros ([->|?] & ? & ? & ?); [congruence | auto]. }
    destruct (Z.ltb_spec (sub now Tx) (3600 * 1000000)) as [Hlt|Hge].
    + rewrite !elem_of_cons, IH. split.
      * intros [[= -> ->]|(? & ? & ? & ?)]; auto.
      * intros ([->|?] & ? & ? & ?); [left; congruence | auto].
    + rewrite elem_of_cons, IH. split.
      * intros (? & ? & ? & ?); auto.
      * intros ([->|?] & ? & HT & ?); [|auto].
        rewrite Hx in HT. injection HT as ->. lia.
Qed.

(** The session the script reuses: the most recent of the directories
    kept, the greatest name deciding between equal timestamps. *)
Lemma recent_session_spec (now : datetime) (names : list string) :
  match Session.sorted_desc (Wrapper.scan_recent now names) with
  | first :: _ =>
      first ∈ Wrapper.scan_recent now names
      ∧ ∀ T' n', (T', n') ∈ Wrapper.scan_recent now names →
          to_us T' < to_us first.1
          ∨ (to_us T' = to_us first.1 ∧ String.le n' first.2)
  | [] => Wrapper.scan_recent now names = []
  end.
Proof.
  assert (∀ y, y ∈ Wrapper.scan_recent now names → valid y.1 = true) as Hv.
  { intros [T n] (_ & _ & HT & _)%scan_recent_spec. by apply strptime_valid in HT. }
  destruct (Session.sorted_desc _) as [|first rest] eqn:Hs.
  - by apply sorted_desc_nil.
  - apply sorted_desc_head in Hs as [Hin Hmax]; [|done].
    split; [done|]. intros T' n' Hin'.
    specialize (Hmax _ Hin').
    apply tuple_lt_false in Hmax; [done| by apply Hv | by apply (Hv (T', n'))].
Qed.

End wrapper_session.






(** [C9]: a counter file that does not hold an integer makes the read of
    the counter raise [ValueError]; the session object is not built and
    the [generate] command ends with status 1, where the claim has the
    counter default to 0. *)
Theorem C9_malformed_counter_raises :
  let sname := "mflux_output_20250308_115900" in
  let d : disk := {[sname := mk_session_dir (Some "abc") ∅]} in
  let now := Datetime.mk 2025 3 8 12 0 0 0 in
  Session._load_run_counter sname d = Raise ValueError
  ∧ (Session.init false d now).1 = Raise ValueError
  ∧ (Cli.generate (Cli.mk_options "a cat" None None None false None None)
       (mk_world d ∅ now [] [] [])).1 = 1%Z.
Proof. repeat split; reflexivity. Qed.

Section tolerant_reads.

(** The reads that do tolerate bad state: a directory name that does
    not parse is skipped by the scan, and a style file that is not
    JSON or lacks a field is skipped by [list_styles]. *)
Lemma scan_skips_unparseable now n names e :
  Session.parse_timestamp n = Raise e →
  Session.scan now (n :: names) = Session.scan now names.
Proof. intros H. cbn. by rewrite H. Qed.

Lemma insert_by_name_elem x l y :
  y ∈ Styles.insert_by_name x l ↔ y = x ∨ y ∈ l.
Proof.
  induction l as [|z l IH]; cbn.
  - by rewrite elem_of_cons.
  - destruct (String.ltb z.1 x.1); rewrite !elem_of_cons, ?IH; tauto.
Qed.

Lemma list_styles_elem (sd : gmap string json_file) (x : string * string) :
  x ∈ Styles.list_styles sd
  ↔ ∃ n f, sd !! n = Some f ∧ Styles.read_style f = Some x.
Proof.
  unfold Styles.list_styles.
  assert (∀ l, x ∈ foldr Styles.insert_by_name [] l ↔ x ∈ l) as ->.
  { induction l as [|a l IH]; cbn; [done|].
    by rewrite insert_by_name_elem, elem_of_cons, IH. }
  rewrite list_elem_of_omap. split.
  - intros (f & Hf & Hr). apply list_elem_of_fmap in Hf as ([n f'] & -> & Hin).
    apply elem_of_map_to_list in Hin. eauto.
  - intros (n & f & Hn & Hr). exists f. split; [|done].
    apply list_elem_of_fmap. exists (n, f). split; [done|].
    by apply elem_of_map_to_list.
Qed.

Lemma read_style_not_json : Styles.read_style NotJson = None.
Proof. reflexivity. Qed.

End tolerant_reads.


Section generator_failure.

Implicit Types (g : Generator.t) (w : world) (info : run_info).

Lemma read_update_run sname run (f : run_dir → run_dir) (d : disk) :
  read_run_info sname run (update_run sname run f d)
  = run_info_json
      (f (default empty_run_dir
            (runs (default empty_session_dir (d !! sname)) !! run))).
Proof.
  unfold read_run_info, update_run. rewrite lookup_insert_eq. cbn.
  by rewrite lookup_insert_eq.
Qed.

Lemma read_save_metadata g run fi w :
  read_run_info (Session.current_session_dir (Generator.session g)) run
    (w_disk (Generator.save_metadata g run fi w))
  = read_run_info (Session.current_session_dir (Generator.session g)) run
      (w_disk w).
Proof.
  unfold Generator.save_metadata, Session.save_metadata. cbn [w_disk set_disk].
  rewrite read_update_run. cbn. unfold read_run_info.
  destruct (w_disk w !! _) as [sd|]; cbn; [|done].
  by destruct (runs sd !! run).
Qed.

Lemma read_update_run_info g run info w :
  read_run_info (Session.current_session_dir (Generator.session g)) run
    (w_disk (Generator._update_run_info g run info w)) = Some info.
Proof.
  unfold Generator._update_run_info. cbn [w_disk set_disk].
  by rewrite read_update_run.
Qed.







End generator_failure.

Section config_error.

(** [generate] with [--vary-steps] and no usable seed: the session
    object is built first, so the session directory is resolved, and
    created when none qualifies, before the usage error; no command
    is run and the status is 1. *)
Lemma generate_vary_steps_without_seed (o : Cli.options) (w : world) :
  Py.truthy_str (Cli.o_vary_steps o) = true →
  Py.truthy_int (Cli.o_seed o) = false →
  ∃ w', Cli.generate o w = (1%Z, w')
    ∧ w_disk w' = (Session._get_or_create_session_dir
                     (Cli.o_force_new_session o) (w_disk w) (w_now w)).2
    ∧ w_calls w' = w_calls w.
Proof.
  intros Hsteps Hseed. unfold Cli.generate, Cli.generate_body.
  unfold mbind, M_bind, Cli.new_session, Session.init.
  destruct (Session._get_or_create_session_dir _ _ _) as [sname d'] eqn:Hd.
  cbn [snd].
  destruct (Session._load_run_counter sname d') as [counter|e]; cbn.
  2:{ eexists. split; [reflexivity|]. done. }
  rewrite Hsteps, Hseed. cbn.
  destruct (Py.truthy_str (Cli.o_style o)); cbn.
  - unfold Cli.get_style. destruct (Styles.get_style _ _); cbn.
    + eexists. split; [reflexivity|]. done.
    + eexists. split; [reflexivity|]. done.
  - eexists. split; [reflexivity|]. done.
Qed.

End config_error.

(** [C5]: with no session directory on disk, [generate --prompt "a cat"
    --vary-steps 1,3,5,9] without [--seed] ends with status 1 and runs
    no command, but the session directory of the invocation has been
    created by then, where the claim has nothing new on disk. *)
Theorem C5_session_created_before_error :
  let now := Datetime.mk 2025 3 8 12 0 0 0 in
  let w := mk_world ∅ ∅ now [] [] [] in
  let o := Cli.mk_options "a cat" None None (Some "1,3,5,9") false None None in
  ∃ w', Cli.generate o w = (1%Z, w')
    ∧ w_disk w' = {["mflux_output_20250308_120000" := empty_session_dir]}
    ∧ w_disk w' ≠ w_disk w
    ∧ w_calls w' = [].
Proof.
  intros now w o.
  destruct (generate_vary_steps_without_seed o w) as (w' & Hgen & Hdisk & Hcalls);
    [reflexivity..|].
  exists w'. split; [exact Hgen|]. rewrite Hdisk, Hcalls.
  split; [reflexivity|]. split; [|reflexivity].
  vm_compute. discriminate.
Qed.

Section wrapper_loop.

Import Wrapper.
Implicit Types (a : args) (w : wworld) (results : list image_info).





End wrapper_loop.



Section wrapper_settings.

Import Wrapper.
Implicit Types (a : args) (w : wworld) (c : cli) (ls : last_settings).

Lemma W_bind_ok {A B} (m : W A) (k : A → W B) w (b : B) w' :
  (m ≫= k) w = (Ok b, w') →
  ∃ x w1, m w = (Ok x, w1) ∧ k x w1 = (Ok b, w').
Proof.
  unfold mbind, W_bind. destruct (m w) as [[x|e] w1]; [eauto | discriminate].
Qed.

(** What [parse_args] leaves in the namespace when it returns. *)
Lemma parse_args_ok c w a w' :
  parse_args c w = (Ok a, w') →
  w' = w
  ∧ (group_count c ≤ 1)%nat
  ∧ a_formats a = c_formats c
  ∧ a_new a = c_new c
  ∧ a_output_dir a = c_output_dir c
  ∧ a_resolution a
    = Some (match filter (λ f, Is_true (flag_set f (c_formats c))) flag_order with
            | f :: _ => preset f
            | [] => default "1024x1024" (c_resolution c)
            end)
  ∧ (c_style c = None → a_style a = None ∧ a_style_desc a = None
                        ∧ a_prompt a = c_prompt c).
Proof.
  unfold parse_args. intros H.
  apply W_bind_ok in H as (a0 & w0 & Harg & H).
  unfold wlift, argparse in Harg.
  case_bool_decide as Hwf; [|discriminate]. injection Harg as <- <-.
  destruct Hwf as (Hg & _ & _).
  destruct (c_save_style c) as [[??]|].
  { apply W_bind_ok in H as (? & ? & _ & H). discriminate. }
  destruct (c_list_styles c); [discriminate|].
  apply W_bind_ok in H as (a1 & w1 & Hst & H).
  assert (w1 = w ∧ a_formats a1 = c_formats c ∧ a_new a1 = c_new c
          ∧ a_output_dir a1 = c_output_dir c
          ∧ a_resolution a1 = Some (default "1024x1024" (c_resolution c))
          ∧ a_iterate a1 = c_iterate c ∧ a_seed a1 = c_seed c
          ∧ (c_style c = None → a_style a1 = None ∧ a_style_desc a1 = None
                                ∧ a_prompt a1 = c_prompt c))
    as (-> & Hf & Hn & Ho & Hr & _ & _ & Hsty).
  { unfold apply_style in Hst. cbn [a_style a_prompt] in Hst.
    destruct (c_style c) as [[|ch name]|].
    - injection Hst as <- <-. by repeat split.
    - destruct (Py.lower _ =? "none")%string.
      + injection Hst as <- <-. by repeat split.
      + destruct (negb _); [discriminate|].
        destruct (Py.truthy_str (c_prompt c)); injection Hst as <- <-;
          by repeat split.
    - injection Hst as <- <-. by repeat split. }
  unfold wlift in H.
  assert (a_formats (apply_format a1) = c_formats c
          ∧ a_new (apply_format a1) = c_new c
          ∧ a_output_dir (apply_format a1) = c_output_dir c
          ∧ a_style (apply_format a1) = a_style a1
          ∧ a_style_desc (apply_format a1) = a_style_desc a1
          ∧ a_prompt (apply_format a1) = a_prompt a1
          ∧ a_resolution (apply_format a1)
            = Some (match filter (λ f, Is_true (flag_set f (c_formats c))) flag_order with
                    | f :: _ => preset f
                    | [] => default "1024x1024" (c_resolution c)
                    end)) as (Hf2 & Hn2 & Ho2 & Hs2 & Hd2 & Hp2 & Hr2).
  { unfold apply_format. rewrite Hf.
    destruct (filter _ flag_order); by repeat split. }
  assert (a_formats a = a_formats (apply_format a1)
          ∧ a_new a = a_new (apply_format a1)
          ∧ a_output_dir a = a_output_dir (apply_format a1)
          ∧ a_style a = a_style (apply_format a1)
          ∧ a_style_desc a = a_style_desc (apply_format a1)
          ∧ a_prompt a = a_prompt (apply_format a1)
          ∧ a_resolution a = a_resolution (apply_format a1))
    as (-> & -> & -> & Hs3 & Hd3 & Hp3 & ->).
  { unfold apply_iterate in H.
    destruct (Py.truthy_str _).
    - destruct (a_seed _); [|discriminate].
      destruct (Cli.ints _); [|discriminate].
      injection H as <- <-. by repeat split.
    - injection H as <- <-. by repeat split. }
  injection H as _ <-.
  repeat split; try done.
  all: destruct (Hsty ltac:(assumption)) as (? & ? & ?); congruence.
Qed.

Lemma get_last_settings_world base w r w' :
  get_last_settings base w = (r, w') → w' = w.
Proof.
  unfold get_last_settings, mbind, W_bind, listdir, wlift, wget.
  destruct (ww_dirs w !! base); [|by intros [= _ <-]].
  destruct (run_numbers _); by intros [= _ <-].
Qed.

Lemma inherit_prompt_ok ls a w :
  ∃ q, inherit_prompt ls a w = (Ok (set_prompt (Some q) a), w).
Proof.
  unfold inherit_prompt. cbn [a_style_desc set_prompt a_style a_prompt].
  destruct (a_style_desc a); [by eexists|].
  destruct (_ && _); [|by eexists].
  destruct (Py.truthy_str (get_style _ w)); by eexists.
Qed.


(** The two ways [resolve_session] returns: the namespace untouched,
    or the settings of the last readable run of the session taken
    over. *)
Lemma resolve_session_cases a w a' base w' :
  resolve_session a w = (Ok (a', base), w') →
  w' = w
  ∧ (a' = a
     ∨ ∃ ls a1,
         get_last_settings base w = (Ok (Some ls), w)
         ∧ a' = inherit_variations ls (inherit_resolution ls a1)
         ∧ ((a_prompt a ≠ None ∧ a1 = a)
            ∨ (a_prompt a = None ∧ inherit_prompt ls a w = (Ok a1, w)))).
Proof.
  unfold resolve_session. destruct (negb _).
  - unfold mbind, W_bind, wget.
    destruct (Session.sorted_desc _) as [|first rest].
    + destruct (a_prompt a); [|discriminate].
      intros [= <- <- <-]. auto.
    + destruct (get_last_settings first.2 w) as [[[ls|]|e] w1] eqn:Hg;
        [| |discriminate].
      * pose proof (get_last_settings_world _ _ _ _ Hg) as ->.
        destruct (a_prompt a) as [p0|] eqn:Hp.
        -- cbn [mret W_ret].
           destruct (a_prompt (inherit_variations _ _)); [|discriminate].
           intros [= <- <- <-]. split; [done|]. right.
           exists ls, a. repeat split; try done. left. by split.
        -- destruct (inherit_prompt_ok ls a w) as [q Hq]. rewrite Hq.
           destruct (a_prompt (inherit_variations _ _)); [|discriminate].
           intros [= <- <- <-]. split; [done|]. right.
           exists ls, (set_prompt (Some q) a). repeat split; try done.
           right. by split.
      * pose proof (get_last_settings_world _ _ _ _ Hg) as ->.
        intros [= <- <- <-]. auto.
  - destruct (a_prompt a) as [p0|] eqn:Hp.
    + intros [= <- <- <-]. auto.
    + unfold mbind, W_bind.
      destruct (get_last_settings _ w) as [[[ls|]|e] w1] eqn:Hg;
        [| discriminate | discriminate].
      pose proof (get_last_settings_world _ _ _ _ Hg) as ->.
      destruct (inherit_prompt_ok ls a w) as [q Hq]. rewrite Hq.
      intros [= <- <- <-]. split; [done|]. right.
      exists ls, (set_prompt (Some q) a). repeat split; try done.
      right. by split.
Qed.


Lemma create_output_directories_args a w a' base run w' :
  create_output_directories a w = (Ok (a', base, run), w') →
  ∃ w1, resolve_session a w = (Ok (a', base), w1).
Proof.
  unfold create_output_directories. intros H.
  apply W_bind_ok in H as ([a1 base1] & w1 & Hres & H).
  apply W_bind_ok in H as (? & ? & _ & H).
  apply W_bind_ok in H as (? & ? & _ & H).
  apply W_bind_ok in H as (? & ? & _ & H).
  apply W_bind_ok in H as (? & ? & _ & H).
  injection H as <- <- _ _. eauto.
Qed.

Lemma inherit_resolution_spec ls a :
  a_resolution (inherit_resolution ls a)
  = (if negb (any_format (a_formats a))
        && bool_decide (a_resolution a = Some "1024x1024")
     then ls_resolution ls else a_resolution a)
  ∧ a_prompt (inherit_resolution ls a) = a_prompt a.
Proof. unfold inherit_resolution. by destruct (_ && _). Qed.

Lemma inherit_variations_spec ls a :
  a_resolution (inherit_variations ls a) = a_resolution a
  ∧ a_prompt (inherit_variations ls a) = a_prompt a.
Proof. unfold inherit_variations. by destruct (_ && _). Qed.


Lemma no_flag_set : any_format [] = false
  ∧ filter (λ f, Is_true (flag_set f [])) flag_order = [].
Proof. done. Qed.

End wrapper_settings.

Section wrapper_resolution.

Import Wrapper.
Implicit Types (a : args) (w : wworld) (c : cli) (ls : last_settings).


End wrapper_resolution.




(** [C4]: [--iterate 1,3,5,9 --seed 42] without [--variations].  The
    number of variations is 4 throughout.  The record written when the
    run starts holds the text "1,3,5,9" under [steps], and the record
    rewritten by [save_run_info] after each image holds the default
    step count of the model, 1, where the claim has the list
    [1;3;5;9]. *)
Theorem C4_iterate_steps_not_recorded :
  let now := Datetime.mk 2025 3 8 12 0 0 0 in
  let c := Wrapper.mk_cli None false None (Some "a cat") None false
             (Some "1,3,5,9") None [] None None false None (Some 42%Z) in
  let w := Wrapper.mk_wworld ∅ Wrapper.NoStyleFile now [] [] [] in
  let base := "mflux_output_20250308_120000" in
  ∃ a a' w1 i0 rs w2 i1,
    Wrapper.parse_args c w = (Ok a, w)
    ∧ Wrapper.a_variations a = 4%Z
    ∧ Wrapper.a_iterate_steps a = Some [1; 3; 5; 9]%Z
    ∧ Wrapper.create_output_directories a w = (Ok (a', base, "run_1"), w1)
    ∧ Wrapper.read_info base "run_1" w1 = Some i0
    ∧ Wrapper.i_variations i0 = Some 4%Z
    ∧ Wrapper.i_steps i0 = Wrapper.StepsText "1,3,5,9"
    ∧ Wrapper.main c w = (Ok rs, w2)
    ∧ Wrapper.im_steps <$> rs = [1; 3; 5; 9]%Z
    ∧ Wrapper.read_info base "run_1" w2 = Some i1
    ∧ Wrapper.i_variations i1 = Some 4%Z
    ∧ Wrapper.i_steps i1 = Wrapper.StepsInt 1
    ∧ Wrapper.i_steps i1 ≠ Wrapper.StepsList [1; 3; 5; 9]%Z.
Proof.
  intros now c w base.
  let r := eval vm_compute in (Wrapper.parse_args c w) in
  match r with
  | (Ok ?a, _) =>
      exists a;
      let r := eval vm_compute in (Wrapper.create_output_directories a w) in
      match r with
      | (Ok (?a', ?b, ?run), ?w1) =>
          exists a', w1;
          let r := eval vm_compute in (Wrapper.read_info b run w1) in
          match r with
          | Some ?i0 => exists i0
          end
      end
  end.
  let r := eval vm_compute in (Wrapper.main c w) in
  match r with
  | (Ok ?rs, ?w2) =>
      exists rs, w2;
      let r := eval vm_compute in (Wrapper.read_info base "run_1" w2) in
      match r with
      | Some ?i1 => exists i1
      end
  end.
  repeat split; try (vm_compute; reflexivity).
  discriminate.
Qed.

Section wrapper_style.

Import Wrapper.
Implicit Types (a : args) (w : wworld) (c : cli) (ls : last_settings).





End wrapper_style.




Section wrapper_config_error.

Import Wrapper.

(** The script checks [--iterate] against [--seed] in [parse_args],
    before any directory is made: the invocation ends with an
    exception and the world is as it was. *)
Lemma wrapper_iterate_without_seed (c : cli) (w : wworld) :
  c_save_style c = None →
  Py.truthy_str (c_iterate c) = true → c_seed c = None →
  ∃ e, main c w = (Raise e, w).
Proof.
  intros Hsave Hit Hseed.
  assert (∃ e, parse_args c w = (Raise e, w)) as [e He].
  { unfold parse_args, mbind, W_bind, wlift, argparse. rewrite Hsave.
    case_bool_decide; [|by eexists].
    destruct (c_list_styles c); [by eexists|].
    unfold apply_style. cbn [a_style a_prompt].
    assert (∀ a1, a_iterate a1 = c_iterate c → a_seed a1 = None →
                  ∃ e, (apply_iterate (apply_format a1), w) = (Raise e, w)) as Hfin.
    { intros a1 Hi Hs. unfold apply_iterate.
      assert (a_iterate (apply_format a1) = a_iterate a1
              ∧ a_seed (apply_format a1) = a_seed a1) as [-> ->].
      { unfold apply_format. by destruct (filter _ _). }
      rewrite Hi, Hit, Hs. by eexists. }
    destruct (c_style c) as [[|ch name]|]; try (by apply Hfin).
    destruct (Py.lower _ =? "none")%string; [by apply Hfin|].
    destruct (negb _); [by eexists|].
    destruct (Py.truthy_str (c_prompt c)); by apply Hfin. }
  exists e. unfold main, mbind, W_bind. by rewrite He.
Qed.

End wrapper_config_error.




(** * Further properties of the code *)

(** ** Splitting and joining *)

Section text_facts.

Lemma append_nil_l (s : string) : "" ++ s = s.
Proof. reflexivity. Qed.

Lemma append_cons (c : ascii) (r s : string) :
  String c r ++ s = String c (r ++ s).
Proof. reflexivity. Qed.

Lemma split_app_sep (sep : ascii) (a b : string) :
  Py.contains sep a = false →
  Py.split sep (a ++ String sep b) = a :: Py.split sep b.
Proof.
  induction a as [|c r IH]; rewrite ?append_nil_l, ?append_cons;
    cbn [Py.split Py.contains].
  - intros _. by rewrite Ascii.eqb_refl.
  - destruct (Ascii.eqb c sep); [done|]. cbn [orb]. intros H. by rewrite IH.
Qed.

(** A character that is neither a digit nor the minus sign does not
    occur in a printed integer. *)
Lemma digit_neq (k c : ascii) :
  Py.digit_of k ≠ None → Py.digit_of c = None → Ascii.eqb k c = false.
Proof.
  intros Hk Hc. destruct (Ascii.eqb_spec k c) as [->|]; [done | reflexivity].
Qed.

Lemma uint_no_char (c : ascii) (d : uint) :
  Py.digit_of c = None →
  Py.contains c (NilEmpty.string_of_uint d) = false.
Proof.
  intros Hc. induction d; cbn [NilEmpty.string_of_uint Py.contains]; [done|..].
  all: rewrite digit_neq by done; exact IHd.
Qed.

Lemma str_no_char (c : ascii) (n : Z) :
  Py.digit_of c = None → c ≠ "-"%char →
  Py.contains c (Py.str n) = false.
Proof.
  intros Hc Hm. unfold Py.str.
  assert (Py.contains c "0" = false) as H0.
  { cbn [Py.contains]. by rewrite digit_neq. }
  destruct n as [|p|p]; cbn [Z.to_int NilZero.string_of_int Py.contains].
  - exact H0.
  - destruct (Pos.to_uint p) eqn:E; try apply (uint_no_char c (_ _) Hc).
    exact H0.
  - destruct (Ascii.eqb_spec "-" c) as [<-|_]; [done|]. cbn.
    destruct (Pos.to_uint p) eqn:E; try apply (uint_no_char c (_ _) Hc).
    exact H0.
Qed.

Lemma int_raises (s : string) (e : exn) : Py.int s = Raise e → e = ValueError.
Proof.
  unfold Py.int. destruct (Py.strip s) as [|c r]; [by intros [= <-]|].
  destruct (if Ascii.eqb c "-" then _ else _); [discriminate | by intros [= <-]].
Qed.

Lemma ints_raises (l : list string) (e : exn) :
  Cli.ints l = Raise e → e = ValueError.
Proof.
  induction l as [|s l IH]; [discriminate|]. cbn [Cli.ints].
  destruct (Py.int (Py.strip s)) as [n|e'] eqn:Hn.
  - cbn. destruct (Cli.ints l) as [ns|e'']; [discriminate|].
    cbn. intros [= <-]. by apply IH.
  - cbn. intros [= <-]. by apply int_raises in Hn.
Qed.

Lemma ints_app (l1 l2 : list string) (n1 : list Z) :
  Cli.ints l1 = Ok n1 →
  Cli.ints (l1 ++ l2) = (n2 ← Cli.ints l2; Ok (n1 ++ n2)%list).
Proof.
  revert n1. induction l1 as [|s l1 IH]; intros n1.
  - intros [= <-]. cbn. by destruct (Cli.ints l2).
  - cbn [Cli.ints app]. destruct (Py.int (Py.strip s)) as [n|]; [|discriminate].
    cbn. destruct (Cli.ints l1) as [ns|] eqn:Hl1; [|discriminate].
    cbn. intros [= <-]. rewrite (IH ns eq_refl).
    by destruct (Cli.ints l2).
Qed.

(** The pieces of a joined text are the texts joined, when none of
    them holds the separator. *)
Lemma split_join (sep : ascii) (texts : list string) :
  texts ≠ [] →
  Forall (λ t, Py.contains sep t = false) texts →
  Py.split sep (PyText.join (String sep "") texts) = texts.
Proof.
  induction texts as [|t texts IH]; [done|]. intros _ Hall.
  apply Forall_cons in Hall as [Ht Hall].
  destruct texts as [|t' texts].
  - cbn. by apply split_no_sep.
  - change (PyText.join (String sep "") (t :: t' :: texts))
      with (t ++ String sep (PyText.join (String sep "") (t' :: texts))).
    rewrite split_app_sep by done. by rewrite IH.
Qed.

Lemma ints_texts (texts : list string) (l : list Z) :
  Forall2 (λ t n, Py.int (Py.strip t) = Ok n) texts l →
  Cli.ints texts = Ok l.
Proof.
  induction 1 as [|t n texts l Ht _ IH]; [done|].
  cbn [Cli.ints]. by rewrite Ht, IH.
Qed.

End text_facts.

Lemma from_string_raises (s : string) (e : exn) :
  Resolution.from_string s = Raise e → e = ValueError.
Proof.
  unfold Resolution.from_string.
  destruct (Py.split "x" s) as [|a [|b [|??]]]; try by intros [= <-].
  destruct (Py.int a) eqn:Ha; cbn.
  - destruct (Py.int b) eqn:Hb; cbn; [discriminate|].
    intros [= <-]. by apply int_raises in Hb.
  - intros [= <-]. by apply int_raises in Ha.
Qed.

(** [X1] A resolution printed by [Resolution.__str__] is read back by
    [Resolution.from_string], whatever the two integers; the only
    exception [from_string] raises is [ValueError]; and the script
    reads [args.resolution] with the same code. *)
Theorem X1_resolution_round_trip :
  (∀ w h : Z, Resolution.from_string (Resolution.to_string (w, h)) = Ok (w, h))
  ∧ (∀ s e, Resolution.from_string s = Raise e → e = ValueError)
  ∧ (∀ s, Wrapper.parse_resolution (Some s) = Resolution.from_string s).
Proof.
  split; [|split].
  - intros w h. unfold Resolution.from_string, Resolution.to_string.
    cbn [fst snd].
    change (Py.str w ++ "x" ++ Py.str h)
      with (Py.str w ++ String "x" (Py.str h)).
    rewrite split_app_sep by (by apply str_no_char).
    rewrite split_no_sep by (by apply str_no_char).
    by rewrite !int_str.
  - apply from_string_raises.
  - reflexivity.
Qed.

Section step_lists.

Import Wrapper.

Lemma split_trailing_sep (sep : ascii) (t : string) :
  ∃ p ps, Py.split sep (t ++ String sep "") = (p :: ps ++ [""])%list.
Proof.
  induction t as [|c r (p & ps & IH)]; rewrite ?append_nil_l, ?append_cons;
    cbn [Py.split].
  - rewrite Ascii.eqb_refl. by exists "", [].
  - rewrite IH. destruct (Ascii.eqb c sep).
    + by exists "", (p :: ps).
    + by exists (String c p), ps.
Qed.

Lemma ints_trailing_empty (l : list string) :
  Cli.ints (l ++ [""]) = Raise ValueError.
Proof.
  induction l as [|s l IH]; [reflexivity|].
  cbn [app Cli.ints]. destruct (Py.int (Py.strip s)) eqn:Hs; cbn.
  - by rewrite IH.
  - by apply int_raises in Hs as ->.
Qed.

Lemma join_nonempty (sep : string) (t : string) (texts : list string) :
  t ≠ "" → PyText.join sep (t :: texts) ≠ "".
Proof.
  intros Ht. destruct texts as [|t' texts]; [done|].
  cbn [PyText.join]. destruct t; [done|]. by rewrite append_cons.
Qed.

End step_lists.

(** [X2] The list of step counts given with [--iterate] (and with
    [--vary-steps] of the package, which reads it with the same code):
    the text is cut at the commas and every piece is read with
    [int(piece.strip())].  For pieces that hold no comma and read as
    the integers [l], [parse_args] stores [l] as the step list, sets
    the number of variations to its length and clears [--steps].  A
    list of integers printed with [str] and joined with commas is read
    back as it was, and a text that ends in a comma is rejected with
    [ValueError]. *)
Theorem X2_iterate_list (a : Wrapper.args) (texts : list string)
    (l : list Z) (s : Z) :
  texts ≠ [] →
  Forall (λ t, Py.contains "," t = false) texts →
  Forall2 (λ t n, Py.int (Py.strip t) = Ok n) texts l →
  Wrapper.a_iterate a = Some (PyText.join "," texts) →
  Wrapper.a_seed a = Some s →
  (∃ a', Wrapper.apply_iterate a = Ok a'
         ∧ Wrapper.a_iterate_steps a' = Some l
         ∧ Wrapper.a_variations a' = Z.of_nat (length l)
         ∧ Wrapper.a_steps a' = None
         ∧ Wrapper.a_seed a' = Some s
         ∧ Wrapper.a_prompt a' = Wrapper.a_prompt a
         ∧ Wrapper.a_resolution a' = Wrapper.a_resolution a)
  ∧ Cli.ints (Py.split "," (PyText.join "," (Py.str <$> l))) = Ok l
  ∧ (∀ t, Cli.ints (Py.split "," (t ++ ",")) = Raise ValueError).
Proof.
  intros Hne Hcomma Hints Hit Hseed.
  split; [|split].
  - exists (Wrapper.set_iterate l a). split; [|by rewrite <- Hseed].
    unfold Wrapper.apply_iterate. rewrite Hit, Hseed.
    assert (Py.truthy_str (Some (PyText.join "," texts)) = true) as ->.
    { destruct texts as [|t texts]; [done|].
      apply Forall2_cons_inv_l in Hints as (n & l' & Ht & _ & _).
      assert (t ≠ "") as Hnonempty by (by intros ->).
      pose proof (join_nonempty "," t texts Hnonempty) as Hj.
      by destruct (PyText.join "," (t :: texts)). }
    cbn [default from_option id].
    rewrite (split_join "," texts) by done.
    by rewrite (ints_texts texts l).
  - assert (l ≠ []) as Hl.
    { intros ->. apply Forall2_nil_inv_r in Hints. done. }
    rewrite (split_join "," (Py.str <$> l)).
    + apply ints_texts. clear. induction l as [|n l IH]; constructor; [|done].
      rewrite strip_no_space by apply str_no_space. apply int_str.
    + by destruct l.
    + apply Forall_fmap, Forall_forall. intros n _. by apply str_no_char.
  - intros t. destruct (split_trailing_sep "," t) as (p & ps & ->).
    apply (ints_trailing_empty (p :: ps)).
Qed.

(** The list 1,3,5,9 written with blanks after the commas. *)
Lemma X2_iterate_list_witness :
  let a := Wrapper.mk_args None None (Some "a cat") "schnell" false
             (Some "1, 3, 5, 9") None (Some "1024x1024") [] (Some 20%Z) 4
             false None (Some 42%Z) in
  ∃ a', Wrapper.apply_iterate a = Ok a'
        ∧ Wrapper.a_iterate_steps a' = Some [1; 3; 5; 9]%Z
        ∧ Wrapper.a_variations a' = 4%Z
        ∧ Wrapper.a_steps a' = None.
Proof.
  intros a.
  destruct (X2_iterate_list a ["1"; " 3"; " 5"; " 9"] [1; 3; 5; 9]%Z 42%Z)
    as [(a' & H1 & H2 & H3 & H4 & _) _];
    [done | repeat constructor | repeat constructor | reflexivity | reflexivity |].
  exists a'. repeat split; assumption.
Defined.

Section wrapper_iterate_loop.

Import Wrapper.
Implicit Types (a : args) (w : wworld) (results : list image_info).




End wrapper_iterate_loop.



Section style_store.

Import Styles.
Implicit Types (sd : gmap string json_file) (x y : string * string).









End style_store.



Section cli_options.

Implicit Types (o : Cli.options) (w : world).

Lemma assoc_None {A} (k : string) (l : list (string * A)) :
  k ∉ l.*1 → Config.assoc k l = None.
Proof.
  induction l as [|[k' v] l IH]; [done|]. cbn [Config.assoc fmap list_fmap fst].
  intros Hk. apply not_elem_of_cons in Hk as [Hne Hk].
  destruct (String.eqb_spec k' k) as [->|_]; [done|]. by apply IH.
Qed.

(** The session object and the generator of an invocation: building
    them touches the disk only. *)
Lemma new_session_world (force_new : bool) w :
  ∃ r d, Cli.new_session force_new w = (r, set_disk d w)
         ∧ d = (Session._get_or_create_session_dir force_new (w_disk w)
                  (w_now w)).2.
Proof.
  unfold Cli.new_session, Session.init.
  destruct (Session._get_or_create_session_dir _ _ _) as [sname d'].
  by eexists _, _.
Qed.

Lemma M_bind_post {A B} (m : M A) (k1 k2 : A → M B) w :
  (∀ a w', m w = (Ok a, w') → k1 a w' = k2 a w') →
  (m ≫= k1) w = (m ≫= k2) w.
Proof.
  intros H. unfold mbind, M_bind. destruct (m w) as [[a|e] w']; [|done].
  by apply H.
Qed.

Lemma new_session_styles (force_new : bool) w r w' :
  Cli.new_session force_new w = (r, w') → w_styles w' = w_styles w.
Proof.
  destruct (new_session_world force_new w) as (r0 & d & -> & _).
  by intros [= _ <-].
Qed.

Lemma generator_init (s : Session.t) :
  Generator.init s Config.DEFAULT_MODEL
  = Ok (Generator.mk_generator s "schnell" 1024 1024 1).
Proof. reflexivity. Qed.

End cli_options.

(** [X6] A style file that is not JSON makes [generate --style]
    fail: [get_style] raises where [list_styles] skips the file.  The
    command ends with status 1 and runs nothing, after the session
    directory of the invocation has been resolved. *)
Theorem X6_corrupt_style_file (o : Cli.options) (w : world) (name : string) :
  Cli.o_style o = Some name → name ≠ "" →
  w_styles w !! name = Some NotJson →
  Styles.get_style name (w_styles w) = Raise JSONDecodeError
  ∧ (∀ x, x ∈ Styles.list_styles (w_styles w) →
       x ∈ Styles.list_styles (delete name (w_styles w)))
  ∧ ∃ w', Cli.generate o w = (1%Z, w')
      ∧ w_calls w' = w_calls w
      ∧ w_disk w' = (Session._get_or_create_session_dir
                       (Cli.o_force_new_session o) (w_disk w) (w_now w)).2.
Proof.
  intros Hstyle Hname Hfile.
  assert (Styles.get_style name (w_styles w) = Raise JSONDecodeError) as Hget.
  { unfold Styles.get_style. by rewrite Hfile. }
  split; [exact Hget|]. split.
  - intros x (n & f & Hn & Hr)%list_styles_elem.
    apply list_styles_elem. exists n, f. split; [|done].
    rewrite lookup_delete_ne; [done|]. intros <-.
    rewrite Hfile in Hn. injection Hn as <-. done.
  - unfold Cli.generate, Cli.generate_body.
    destruct (new_session_world (Cli.o_force_new_session o) w)
      as (r & d & Hnew & Hd).
    unfold mbind at 1, M_bind. rewrite Hnew.
    destruct r as [s|e].
    2:{ eexists. split; [reflexivity|]. by rewrite Hd. }
    unfold mbind at 1, M_bind, lift. rewrite generator_init.
    unfold mbind at 1, M_bind. rewrite Hstyle.
    assert (Py.truthy_str (Some name) = true) as -> by (by destruct name).
    unfold mbind at 1, M_bind, Cli.get_style. cbn [default from_option id].
    unfold set_disk at 1. cbn [w_styles]. rewrite Hget.
    eexists. split; [reflexivity|]. by rewrite Hd.
Qed.

(** The file [ghibli.json] holds text that is not JSON. *)
Lemma X6_corrupt_style_file_witness :
  let o := Cli.mk_options "a cat" None None None false None (Some "ghibli") in
  let w := mk_world ∅ {["ghibli" := NotJson]}
             (Datetime.mk 2025 3 8 12 0 0 0) [] [] [] in
  ∃ w', Cli.generate o w = (1%Z, w') ∧ w_calls w' = [].
Proof.
  intros o w.
  destruct (X6_corrupt_style_file o w "ghibli") as (_ & _ & w' & H1 & H2 & _);
    [reflexivity | done | reflexivity |].
  exists w'. split; [exact H1 | exact H2].
Defined.

(** [X7] A style that [get_style] does not find (no file for the
    name, or a file without a description) does not stop the
    [generate] command of the package: after the warning it behaves
    in every respect as the same command without [--style]. *)
Theorem X7_unknown_style_ignored (o : Cli.options) (w : world) (name : string)
    (d : option string) :
  Cli.o_style o = Some name →
  Styles.get_style name (w_styles w) = Ok d →
  Py.truthy_str d = false →
  Cli.generate o w
  = Cli.generate
      (Cli.mk_options (Cli.o_prompt o) (Cli.o_vary_seed o) (Cli.o_seed o)
         (Cli.o_vary_steps o) (Cli.o_force_new_session o) (Cli.o_format o)
         None) w.
Proof.
  intros Hstyle Hget Hd.
  unfold Cli.generate.
  match goal with
  | |- match ?x with _ => _ end = match ?y with _ => _ end =>
      enough (x = y) as -> by reflexivity
  end.
  unfold Cli.generate_body.
  cbn [Cli.o_prompt Cli.o_vary_seed Cli.o_seed Cli.o_vary_steps
       Cli.o_force_new_session Cli.o_format Cli.o_style].
  apply M_bind_post. intros session w1 Hnew%new_session_styles.
  apply M_bind_post. intros generator w2 [= _ <-].
  rewrite Hstyle.
  destruct name as [|c name]; [done|].
  cbn [Py.truthy_str default from_option id].
  unfold mbind at 1 2, M_bind, Cli.get_style.
  unfold mbind at 1, M_bind. cbv beta.
  rewrite Hnew, Hget. cbn [mret M_ret]. by rewrite Hd.
Qed.

(** No file for the style [noir]. *)
Lemma X7_unknown_style_ignored_witness :
  let w := mk_world ∅ ∅ (Datetime.mk 2025 3 8 12 0 0 0) [] [] [] in
  Cli.generate
    (Cli.mk_options "a cat" None (Some 7%Z) None false None (Some "noir")) w
  = Cli.generate
      (Cli.mk_options "a cat" None (Some 7%Z) None false None None) w.
Proof.
  intros w.
  apply (X7_unknown_style_ignored
           (Cli.mk_options "a cat" None (Some 7%Z) None false None (Some "noir"))
           w "noir" None); reflexivity.
Defined.

(** [X8] A [--format] name that is not among the presets is not
    reported: [get_resolution] falls back to 1024x1024 and the
    [generate] command behaves in every respect as the same command
    without [--format]. *)
Theorem X8_unknown_format_ignored (o : Cli.options) (w : world) (name : string) :
  Cli.o_format o = Some name →
  name ∉ Config.RESOLUTIONS.*1 →
  Config.get_resolution name = (1024, 1024)%Z
  ∧ Cli.generate o w
    = Cli.generate
        (Cli.mk_options (Cli.o_prompt o) (Cli.o_vary_seed o) (Cli.o_seed o)
           (Cli.o_vary_steps o) (Cli.o_force_new_session o) None
           (Cli.o_style o)) w.
Proof.
  intros Hformat Hname.
  assert (Config.get_resolution name = (1024, 1024)%Z) as Hres.
  { unfold Config.get_resolution. by rewrite assoc_None. }
  split; [exact Hres|].
  unfold Cli.generate.
  match goal with
  | |- match ?x with _ => _ end = match ?y with _ => _ end =>
      enough (x = y) as -> by reflexivity
  end.
  unfold Cli.generate_body.
  cbn [Cli.o_prompt Cli.o_vary_seed Cli.o_seed Cli.o_vary_steps
       Cli.o_force_new_session Cli.o_format Cli.o_style].
  apply M_bind_post. intros session w1 _.
  apply M_bind_post. intros generator w2 Hgen.
  unfold lift in Hgen. rewrite generator_init in Hgen.
  injection Hgen as <- _.
  rewrite Hformat. cbn [default from_option id]. rewrite Hres.
  by destruct name.
Qed.

(** The name [wide] is not a preset. *)
Lemma X8_unknown_format_ignored_witness :
  let w := mk_world ∅ ∅ (Datetime.mk 2025 3 8 12 0 0 0) [] [] [] in
  Cli.generate
    (Cli.mk_options "a cat" None (Some 7%Z) None false (Some "wide") None) w
  = Cli.generate
      (Cli.mk_options "a cat" None (Some 7%Z) None false None None) w.
Proof.
  intros w.
  apply (X8_unknown_format_ignored
           (Cli.mk_options "a cat" None (Some 7%Z) None false (Some "wide") None)
           w "wide"); [reflexivity|].
  cbn [fmap list_fmap Config.RESOLUTIONS fst]. intros Hin.
  repeat (apply elem_of_cons in Hin as [Heq|Hin]; [discriminate Heq|]).
  by apply elem_of_nil in Hin.
Defined.

Section wrapper_styles.

Import Wrapper.
Implicit Types (a : args) (w : wworld) (c : cli) (l : list (string * string)).




(** What [argparse] has checked when [--style] was given: no other
    option of the style group is there. *)
Lemma argparse_style c a name :
  argparse c = Ok a → c_style c = Some name →
  c_save_style c = None ∧ c_list_styles c = false
  ∧ a_style a = Some name ∧ a_style_desc a = None
  ∧ a_prompt a = c_prompt c.
Proof.
  unfold argparse. case_bool_decide as Hok; [|discriminate].
  intros [= <-] Hstyle. destruct Hok as (_ & Hgroup & _).
  unfold style_group_count in Hgroup. rewrite Hstyle in Hgroup.
  cbn [given] in Hgroup.
  destruct (c_save_style c), (c_list_styles c); cbn in Hgroup; try lia.
  by rewrite Hstyle.
Qed.

End wrapper_styles.



(** [X10] [--style NAME] of the script with a name that has no
    description in the style file (and is not a spelling of [none]):
    the invocation ends with [ValueError] in [parse_args], before any
    directory is made or command run. *)
Theorem X10_style_not_found (c : Wrapper.cli) (a : Wrapper.args)
    (w : Wrapper.wworld) (name : string) :
  Wrapper.argparse c = Ok a →
  Wrapper.c_style c = Some name → name ≠ "" →
  Py.lower name ≠ "none" →
  Py.truthy_str (Wrapper.get_style name w) = false →
  Wrapper.main c w = (Raise ValueError, w).
Proof.
  intros Harg Hstyle Hname Hnone Hget.
  destruct (argparse_style c a name Harg Hstyle) as (Hsave & Hlist & Hst & _).
  unfold Wrapper.main, Wrapper.parse_args, mbind, Wrapper.W_bind, Wrapper.wlift.
  rewrite Harg, Hsave, Hlist. unfold Wrapper.apply_style. rewrite Hst.
  destruct name as [|ch name]; [done|].
  destruct (String.eqb_spec (Py.lower (String ch name)) "none"); [done|].
  by rewrite Hget.
Qed.

(** The style file has no style [noir]. *)
Lemma X10_style_not_found_witness :
  let c := Wrapper.mk_cli None false (Some "noir") (Some "a cat") None false
             None None [] None None false None None in
  let w := Wrapper.mk_wworld ∅ (Wrapper.StyleDict [("ghibli", "studio ghibli")])
             (Datetime.mk 2025 3 8 12 0 0 0) [] [] [] in
  Wrapper.main c w = (Raise ValueError, w).
Proof.
  intros c w.
  apply (X10_style_not_found c
           (Wrapper.mk_args (Some "noir") None (Some "a cat") "schnell" false
              None None (Some "1024x1024") [] None 4 false None None)
           w "noir"); [reflexivity | reflexivity | done | done | reflexivity].
Defined.

Section wrapper_style_none.

Import Wrapper.
Implicit Types (a : args) (w : wworld) (c : cli) (ls : last_settings).

Lemma apply_format_style a :
  a_style (apply_format a) = a_style a
  ∧ a_style_desc (apply_format a) = a_style_desc a
  ∧ a_prompt (apply_format a) = a_prompt a.
Proof. unfold apply_format. by destruct (filter _ _). Qed.

Lemma apply_iterate_style a a' :
  apply_iterate a = Ok a' →
  a_style a' = a_style a ∧ a_style_desc a' = a_style_desc a
  ∧ a_prompt a' = a_prompt a.
Proof.
  unfold apply_iterate. destruct (Py.truthy_str (a_iterate a)).
  - destruct (a_seed a); [|discriminate].
    destruct (Cli.ints _); [|discriminate]. by intros [= <-].
  - by intros [= <-].
Qed.

(** [--style none], whatever the case of the letters, given without
    a prompt: the namespace has no style, and a style description
    that is [None]. *)
Lemma parse_args_style_none c w a w1 name :
  parse_args c w = (Ok a, w1) →
  c_style c = Some name → Py.lower name = "none" → c_prompt c = None →
  a_style a = None ∧ a_style_desc a = Some None ∧ a_prompt a = None.
Proof.
  unfold parse_args, mbind at 1, W_bind, wlift.
  destruct (argparse c) as [a0|] eqn:Harg; [|discriminate].
  intros H Hstyle Hnone Hprompt.
  destruct (argparse_style c a0 name Harg Hstyle)
    as (Hsave & Hlist & Hst & Hdesc & Hp).
  rewrite Hsave, Hlist in H. unfold mbind, W_bind, apply_style in H.
  rewrite Hst in H. destruct name as [|ch name]; [done|].
  rewrite Hnone in H.
  change ("none" =? "none")%string with true in H. cbv iota in H.
  unfold wlift in H.
  destruct (apply_iterate _) as [a1|] eqn:Hit; [|discriminate].
  injection H as <- _.
  apply apply_iterate_style in Hit as (-> & -> & ->).
  destruct (apply_format_style (set_style_and_desc None (Some None) a0))
    as (-> & -> & ->).
  cbn. by rewrite Hp.
Qed.

Lemma inherit_prompt_none ls a w :
  a_style_desc a = Some None →
  inherit_prompt ls a w
  = (Ok (set_prompt (Some (ls_prompt ls ++ ", None")) a), w).
Proof.
  intros Hdesc. unfold inherit_prompt. cbn [a_style_desc set_prompt].
  rewrite Hdesc. reflexivity.
Qed.

Lemma inherited_style ls a :
  a_style (inherit_variations ls (inherit_resolution ls a)) = a_style a.
Proof.
  unfold inherit_variations, inherit_resolution.
  by repeat (destruct (_ && _)).
Qed.

(** The session of an invocation without a prompt. *)
Lemma resolve_session_no_prompt a w a' base w' :
  a_prompt a = None →
  resolve_session a w = (Ok (a', base), w') →
  (get_last_settings base w = (Ok None, w) ∧ a' = a)
  ∨ ∃ ls a1,
      get_last_settings base w = (Ok (Some ls), w)
      ∧ inherit_prompt ls a w = (Ok a1, w)
      ∧ a' = inherit_variations ls (inherit_resolution ls a1).
Proof.
  intros Hp. unfold resolve_session. rewrite Hp. destruct (negb _).
  - unfold mbind, W_bind, wget.
    destruct (Session.sorted_desc _) as [|first rest]; [discriminate|].
    destruct (get_last_settings first.2 w) as [[[ls|]|e] w1] eqn:Hg;
      [| |discriminate].
    + pose proof (get_last_settings_world _ _ _ _ Hg) as ->.
      destruct (inherit_prompt_ok ls a w) as [q Hq]. rewrite Hq.
      destruct (a_prompt (inherit_variations _ _)); [|discriminate].
      intros [= <- <- <-]. right. by exists ls, (set_prompt (Some q) a).
    + pose proof (get_last_settings_world _ _ _ _ Hg) as ->.
      intros [= <- <- <-]. by left.
  - unfold mbind, W_bind.
    destruct (get_last_settings _ w) as [[[ls|]|e] w1] eqn:Hg;
      [| discriminate | discriminate].
    pose proof (get_last_settings_world _ _ _ _ Hg) as ->.
    destruct (inherit_prompt_ok ls a w) as [q Hq]. rewrite Hq.
    intros [= <- <- <-]. right. by exists ls, (set_prompt (Some q) a).
Qed.

End wrapper_style_none.

(** [X11] [--style none] given without [--prompt]: the namespace
    leaves [parse_args] with no style and with a style description
    that exists and is [None].  When the prompt is then taken over
    from the last run of the session, the code that appends the style
    description formats that [None]: the prompt of the run is the
    inherited prompt followed by the text [", None"]. *)
Theorem X11_style_none_appended (c : Wrapper.cli) (w w1 w2 : Wrapper.wworld)
    (a a' : Wrapper.args) (base run name : string) :
  Wrapper.parse_args c w = (Ok a, w1) →
  Wrapper.c_style c = Some name → Py.lower name = "none" →
  Wrapper.c_prompt c = None →
  Wrapper.create_output_directories a w1 = (Ok (a', base, run), w2) →
  Wrapper.a_style a' = None
  ∧ (∀ ls, Wrapper.get_last_settings base w = (Ok (Some ls), w) →
       Wrapper.a_prompt a' = Some (Wrapper.ls_prompt ls ++ ", None"))
  ∧ (Wrapper.get_last_settings base w = (Ok None, w) →
       Wrapper.a_prompt a' = None).
Proof.
  intros Hparse Hstyle Hnone Hprompt Hcreate.
  destruct (parse_args_style_none c w a w1 name Hparse Hstyle Hnone Hprompt)
    as (Hst & Hdesc & Hp).
  apply parse_args_ok in Hparse as [-> _].
  apply create_output_directories_args in Hcreate as [w3 Hres].
  apply resolve_session_no_prompt in Hres as
    [[Hlast ->]|(ls & a1 & Hlast & Hinh & ->)]; [| |done].
  - split; [done|]. split; [|done].
    intros ls Hlast'. rewrite Hlast in Hlast'. discriminate.
  - rewrite inherit_prompt_none in Hinh by done. injection Hinh as <-.
    rewrite inherited_style. split; [done|].
    destruct (inherit_variations_spec ls
                (Wrapper.inherit_resolution ls
                   (Wrapper.set_prompt
                      (Some (Wrapper.ls_prompt ls ++ ", None")) a))) as [_ ->].
    destruct (inherit_resolution_spec ls
                (Wrapper.set_prompt
                   (Some (Wrapper.ls_prompt ls ++ ", None")) a)) as [_ ->].
    split.
    + intros ls' Hlast'. rewrite Hlast in Hlast'. by injection Hlast' as <-.
    + intros Hlast'. rewrite Hlast in Hlast'. discriminate.
Qed.

(** [--prompt "a cat"], then [--style None] five minutes later. *)
Lemma X11_style_none_appended_witness :
  let now := Datetime.mk 2025 3 8 12 0 0 0 in
  let first := Wrapper.mk_cli None false None (Some "a cat") None false None
                 None [] None None false None None in
  let second := Wrapper.mk_cli None false (Some "None") None None false None
                  None [] None None false None None in
  let w0 := Wrapper.mk_wworld ∅ Wrapper.NoStyleFile now [] [] [] in
  let w1 := Wrapper.at_time (Datetime.mk 2025 3 8 12 5 0 0)
              (Wrapper.main first w0).2 in
  ∃ a a' base run w2,
    Wrapper.parse_args second w1 = (Ok a, w1)
    ∧ Wrapper.create_output_directories a w1 = (Ok (a', base, run), w2)
    ∧ Wrapper.a_prompt a' = Some "a cat, None".
Proof.
  intros now first second w0 w1.
  let r := eval vm_compute in (Wrapper.parse_args second w1) in
  match r with
  | (Ok ?a, _) =>
      let r2 := eval vm_compute in (Wrapper.create_output_directories a w1) in
      match r2 with
      | (Ok (?a', ?base, ?run), ?w2) =>
          exists a, a', base, run, w2;
          assert (Wrapper.parse_args second w1 = (Ok a, w1)) as Hparse
            by (vm_compute; reflexivity);
          assert (Wrapper.create_output_directories a w1 = (Ok (a', base, run), w2))
            as Hcreate by (vm_compute; reflexivity);
          split; [exact Hparse|]; split; [exact Hcreate|];
          destruct (X11_style_none_appended second w1 w1 w2 a a' base run "None"
                      Hparse eq_refl eq_refl eq_refl Hcreate) as (_ & Hinh & _);
          apply (Hinh (Wrapper.mk_last_settings "a cat" (Some "1024x1024") None 4));
          vm_compute; reflexivity
      end
  end.
Defined.

Section wrapper_run_directory.

Import Wrapper.
Implicit Types (a : args) (w : wworld) (s : session).
Local Open Scope Z_scope.

Lemma startswith_inv (p t : string) :
  Py.startswith p t = true → ∃ rest, t = (p ++ rest)%string.
Proof.
  unfold Py.startswith. revert t.
  induction p as [|c p IH]; intros t; [by exists t|].
  destruct t as [|c' t]; [discriminate|]. cbn [String.prefix].
  destruct (ascii_dec c c') as [<-|]; [|discriminate].
  intros (rest & ->)%IH. by exists rest.
Qed.

Lemma split_nonempty (sep : ascii) (t : string) : Py.split sep t ≠ [].
Proof.
  destruct t as [|c r]; cbn [Py.split]; [done|].
  destruct (Ascii.eqb c sep); [done|]. by destruct (Py.split sep r).
Qed.

(** The number of a run directory is what stands between the first
    and the second underscore of its name. *)
Lemma run_number_rest (rest : string) :
  run_number ("run_" ++ rest) = Py.int (hd "" (Py.split "_" rest)).
Proof.
  unfold run_number.
  change ("run_" ++ rest)%string
    with (String "r" (String "u" (String "n" (String "_" rest)))).
  cbn [Py.split Ascii.eqb Bool.eqb].
  pose proof (split_nonempty "_" rest).
  by destruct (Py.split "_" rest).
Qed.

Lemma run_number_raises (name : string) (e : exn) :
  Py.startswith "run_" name = true → run_number name = Raise e →
  e = ValueError.
Proof.
  intros (rest & ->)%startswith_inv. rewrite run_number_rest.
  apply int_raises.
Qed.

Lemma run_numbers_elem (names : list string) (keyed : list (Z * string)) :
  run_numbers names = Ok keyed →
  ∀ x, x ∈ names → ∃ k, run_number x = Ok k ∧ k ∈ keyed.*1.
Proof.
  revert keyed. induction names as [|y names IH]; intros keyed.
  - intros _ x Hx. by apply elem_of_nil in Hx.
  - cbn [run_numbers]. destruct (run_number y) as [k|] eqn:Hy; [|discriminate].
    cbn. destruct (run_numbers names) as [ks|]; [|discriminate].
    cbn. intros [= <-] x [->|Hx]%elem_of_cons.
    + exists k. split; [done | left].
    + destruct (IH ks eq_refl x Hx) as (k' & Hk' & Hin).
      exists k'. split; [done | by right].
Qed.

Lemma run_numbers_raises (names : list string) (x : string) (e : exn) :
  x ∈ names → run_number x = Raise e →
  Forall (λ n, Py.startswith "run_" n = true) names →
  run_numbers names = Raise ValueError.
Proof.
  intros Hx Hraise Hall. induction names as [|y names IH].
  - by apply elem_of_nil in Hx.
  - apply Forall_cons in Hall as [Hy Hall]. cbn [run_numbers].
    destruct (run_number y) as [k|e'] eqn:Hnum; cbn.
    + apply elem_of_cons in Hx as [->|Hx]; [congruence|].
      by rewrite IH.
    + by apply run_number_raises in Hnum as ->.
Qed.

Lemma foldr_max_ge (ks : list Z) (d k : Z) :
  k ∈ ks → k ≤ foldr Z.max d ks.
Proof.
  induction ks as [|x ks IH]; [by intros ?%elem_of_nil|].
  cbn. intros [->|Hk]%elem_of_cons; [lia|]. specialize (IH Hk). lia.
Qed.

Lemma run_names_elem (s : session) (name : string) :
  name ∈ run_names (map_to_list s).*1
  ↔ is_Some (s !! name) ∧ Py.startswith "run_" name = true.
Proof.
  unfold run_names. rewrite list_elem_of_filter, list_elem_of_fmap. split.
  - intros [Hp ([n v] & -> & Hin)]. apply elem_of_map_to_list in Hin.
    split; [by eexists | by apply Is_true_true].
  - intros [[v Hv] Hp]. split; [by apply Is_true_true|].
    exists (name, v). split; [done | by apply elem_of_map_to_list].
Qed.

(** The number chosen for a run is above the number of every run
    directory there is, so the directory named by it does not
    exist. *)
Lemma next_run_number_fresh base w n w' s :
  next_run_number base w = (Ok n, w') → ww_dirs w !! base = Some s →
  w' = w ∧ s !! ("run_" ++ Py.str n)%string = None.
Proof.
  unfold next_run_number, mbind, W_bind, listdir. intros H Hs.
  rewrite Hs in H.
  destruct (run_names (map_to_list s).*1) as [|x rest] eqn:Hnames.
  - injection H as <- <-. split; [done|].
    destruct (s !! "run_1"%string) eqn:E; [|done].
    assert ("run_1"%string ∈ run_names (map_to_list s).*1) as Hin
      by (apply run_names_elem; split; [by eexists | done]).
    rewrite Hnames in Hin. by apply elem_of_nil in Hin.
  - unfold wlift in H.
    destruct (run_numbers (x :: rest)) as [keyed|] eqn:Hk; [|discriminate].
    injection H as <- <-. split; [done|].
    set (n := foldr Z.max (hd 0 keyed.*1) keyed.*1 + 1).
    destruct (s !! ("run_" ++ Py.str n)%string) eqn:E; [|done].
    assert (("run_" ++ Py.str n)%string ∈ (x :: rest)) as Hin.
    { rewrite <- Hnames. apply run_names_elem.
      split; [by eexists | apply run_name_prefix]. }
    destruct (run_numbers_elem _ _ Hk _ Hin) as (k & Hnum & Hkin).
    rewrite run_number_name in Hnum. injection Hnum as <-.
    pose proof (foldr_max_ge keyed.*1 (hd 0 keyed.*1) n Hkin). lia.
Qed.

Lemma makedirs_spec base w :
  ∃ w1 s, makedirs base w = (Ok tt, w1)
    ∧ ww_dirs w1 !! base = Some s
    ∧ s = default ∅ (ww_dirs w !! base)
    ∧ (∀ b, b ≠ base → ww_dirs w1 !! b = ww_dirs w !! b)
    ∧ ww_calls w1 = ww_calls w ∧ ww_styles w1 = ww_styles w.
Proof.
  unfold makedirs. destruct (ww_dirs w !! base) as [s|] eqn:Hs.
  - exists w, s. by rewrite Hs.
  - eexists _, ∅. split; [reflexivity|]. unfold set_dirs. cbn [ww_dirs].
    rewrite lookup_insert_eq. repeat split; try done.
    intros b Hb. by rewrite lookup_insert_ne.
Qed.

End wrapper_run_directory.

(** What [create_output_directories] does to the directories when it
    returns: one entry is added to the session, under a name that was
    not there. *)
Lemma create_output_directories_dirs (a a' : Wrapper.args) (base run : string)
    (w w' : Wrapper.wworld) :
  Wrapper.create_output_directories a w = (Ok (a', base, run), w') →
  default ∅ (Wrapper.ww_dirs w !! base) !! run = None
  ∧ w' = Wrapper.set_dirs
           (<[base := <[run := Wrapper.Info (Wrapper.initial_info a')]>
                        (default ∅ (Wrapper.ww_dirs w !! base))]>
              (Wrapper.ww_dirs w)) w.
Proof.
  unfold Wrapper.create_output_directories. intros H.
  apply W_bind_ok in H as ([a1 base1] & w0 & Hres & H).
  apply resolve_session_cases in Hres as [-> _].
  apply W_bind_ok in H as ([] & w1 & Hmk & H).
  apply W_bind_ok in H as (n & w2 & Hnext & H).
  apply W_bind_ok in H as ([] & w3 & Hrun & H).
  apply W_bind_ok in H as ([] & w4 & Hinfo & H).
  injection H as <- <- <- <-.
  set (s := default ∅ (Wrapper.ww_dirs w !! base1)).
  assert (Wrapper.ww_dirs w1 !! base1 = Some s
          ∧ w1 = Wrapper.set_dirs (<[base1 := s]> (Wrapper.ww_dirs w)) w)
    as [Hs Hw1].
  { unfold Wrapper.makedirs in Hmk. subst s.
    destruct (Wrapper.ww_dirs w !! base1) as [s0|] eqn:E.
    - injection Hmk as <-. split; [done|].
      rewrite insert_id by done. by destruct w.
    - injection Hmk as <-. unfold Wrapper.set_dirs. cbn [Wrapper.ww_dirs].
      by rewrite lookup_insert_eq. }
  destruct (next_run_number_fresh _ _ _ _ _ Hnext Hs) as [-> Hfresh].
  split; [exact Hfresh|].
  unfold Wrapper.makedirs_run in Hrun. rewrite Hs in Hrun.
  cbn [default from_option id] in Hrun. rewrite Hfresh in Hrun.
  injection Hrun as <-.
  unfold Wrapper.write_info, Wrapper.set_dirs in Hinfo.
  cbn [Wrapper.ww_dirs] in Hinfo. rewrite lookup_insert_eq in Hinfo.
  cbn [default from_option id] in Hinfo. injection Hinfo as <-.
  rewrite Hw1. unfold Wrapper.set_dirs.
  cbn [Wrapper.ww_dirs Wrapper.ww_styles Wrapper.ww_now Wrapper.ww_rand
       Wrapper.ww_exits Wrapper.ww_calls].
  by rewrite !insert_insert_eq.
Qed.

(** [X12] The run directory of an invocation of the script is new:
    its number is above the number of every run directory of the
    session, so no directory of that name was there.  The invocation
    puts the first record into it and leaves every other run
    directory of the session, every other session directory and the
    style file as they were; no command has been run by then. *)
Theorem X12_run_directory_fresh (a a' : Wrapper.args) (base run : string)
    (w w' : Wrapper.wworld) :
  Wrapper.create_output_directories a w = (Ok (a', base, run), w') →
  default ∅ (Wrapper.ww_dirs w !! base) !! run = None
  ∧ Wrapper.read_info base run w' = Some (Wrapper.initial_info a')
  ∧ (∀ r, r ≠ run →
       default ∅ (Wrapper.ww_dirs w' !! base) !! r
       = default ∅ (Wrapper.ww_dirs w !! base) !! r)
  ∧ (∀ b, b ≠ base → Wrapper.ww_dirs w' !! b = Wrapper.ww_dirs w !! b)
  ∧ Wrapper.ww_calls w' = Wrapper.ww_calls w
  ∧ Wrapper.ww_styles w' = Wrapper.ww_styles w.
Proof.
  intros [Hfresh ->]%create_output_directories_dirs.
  split; [exact Hfresh|].
  unfold Wrapper.read_info, Wrapper.set_dirs.
  cbn [Wrapper.ww_dirs Wrapper.ww_calls Wrapper.ww_styles].
  rewrite !lookup_insert_eq. cbn [mbind option_bind default from_option id].
  rewrite lookup_insert_eq. split; [done|].
  split; [|split; [|done]].
  - intros r Hr. by rewrite lookup_insert_ne.
  - intros b Hb. by rewrite lookup_insert_ne.
Qed.

(** The second invocation in a session directory creates [run_2] and
    leaves [run_1] alone. *)
Lemma X12_run_directory_fresh_witness :
  let now := Datetime.mk 2025 3 8 12 0 0 0 in
  let c := Wrapper.mk_cli None false None (Some "a cat") None false None
             None [] None None false None None in
  let w0 := Wrapper.mk_wworld ∅ Wrapper.NoStyleFile now [] [] [] in
  let w1 := (Wrapper.main c w0).2 in
  ∃ a a' w2,
    Wrapper.parse_args c w1 = (Ok a, w1)
    ∧ Wrapper.create_output_directories a w1
      = (Ok (a', "mflux_output_20250308_120000", "run_2"), w2)
    ∧ Wrapper.read_info "mflux_output_20250308_120000" "run_1" w2
      = Wrapper.read_info "mflux_output_20250308_120000" "run_1" w1.
Proof.
  intros now c w0 w1.
  let r := eval vm_compute in (Wrapper.parse_args c w1) in
  match r with
  | (Ok ?a, _) =>
      let r2 := eval vm_compute in (Wrapper.create_output_directories a w1) in
      match r2 with
      | (Ok (?a', _, _), ?w2) =>
          exists a, a', w2;
          assert (Wrapper.create_output_directories a w1
                  = (Ok (a', "mflux_output_20250308_120000", "run_2"), w2))
            as Hcreate by (vm_compute; reflexivity);
          split; [vm_compute; reflexivity|]; split; [exact Hcreate|];
          destruct (X12_run_directory_fresh _ _ _ _ _ _ Hcreate)
            as (_ & _ & Hruns & _);
          unfold Wrapper.read_info;
          specialize (Hruns "run_1" ltac:(discriminate));
          destruct (Wrapper.ww_dirs w2 !! "mflux_output_20250308_120000")
            as [s2|] eqn:E2; [|vm_compute in E2; discriminate E2];
          destruct (Wrapper.ww_dirs w1 !! "mflux_output_20250308_120000")
            as [s1|] eqn:E1; [|vm_compute in E1; discriminate E1];
          cbn [default from_option id] in Hruns; cbn; by rewrite Hruns
      end
  end.
Defined.

(** [X13] A directory in the session whose name starts with [run_]
    but has no integer after the underscore ([run_], [run_final])
    stops every invocation that uses the session, whether the session
    is named with [--output-dir] or is the recent one that is reused:
    the numbers of the run directories are read with a bare [int]
    over all such names, and the invocation ends with [ValueError]
    before anything is created. *)
Theorem X13_stray_run_directory (a : Wrapper.args) (base name : string)
    (w : Wrapper.wworld) (s : Wrapper.session) (e : exn) :
  (Wrapper.a_output_dir a = Some base ∧ base ≠ "")
  ∨ (Py.truthy_str (Wrapper.a_output_dir a) = false
     ∧ Wrapper.a_new a = false
     ∧ ∃ first rest,
         Session.sorted_desc
           (Wrapper.scan_recent (Wrapper.ww_now w) (Wrapper.listdir_cwd w))
         = first :: rest
         ∧ first.2 = base) →
  Wrapper.ww_dirs w !! base = Some s →
  is_Some (s !! name) →
  Py.startswith "run_" name = true →
  Wrapper.run_number name = Raise e →
  e = ValueError
  ∧ Wrapper.create_output_directories a w = (Raise ValueError, w).
Proof.
  intros Hbase Hs Hname Hpre Hnum.
  split; [by apply (run_number_raises name)|].
  assert (name ∈ Wrapper.run_names (map_to_list s).*1) as Hin
    by (by apply run_names_elem).
  assert (Wrapper.run_numbers (Wrapper.run_names (map_to_list s).*1)
          = Raise ValueError) as Hraise.
  { apply (run_numbers_raises _ name e Hin Hnum).
    apply Forall_forall. intros n Hn. by apply run_names_elem in Hn as [_ ?]. }
  assert (Wrapper.get_last_settings base w = (Raise ValueError, w)) as Hlast.
  { unfold Wrapper.get_last_settings, mbind, Wrapper.W_bind, Wrapper.listdir,
      Wrapper.wlift.
    by rewrite Hs, Hraise. }
  assert (∀ a1, (Wrapper.makedirs base
                   ≫= λ _ : unit, Wrapper.next_run_number base
                   ≫= λ next_run : Z,
                        Wrapper.makedirs_run base ("run_" ++ Py.str next_run)
                        ≫= λ _ : unit,
                             Wrapper.write_info base ("run_" ++ Py.str next_run)
                               (Wrapper.initial_info a1)
                             ≫= λ _ : unit,
                                  mret (a1, base, "run_" ++ Py.str next_run)) w
                = (Raise ValueError, w)) as Hrest.
  { intros a1.
    unfold mbind at 1, Wrapper.W_bind, Wrapper.makedirs. rewrite Hs.
    unfold mbind at 1, Wrapper.W_bind, Wrapper.next_run_number.
    unfold mbind at 1, Wrapper.W_bind, Wrapper.listdir. rewrite Hs.
    destruct (Wrapper.run_names (map_to_list s).*1) as [|x rest];
      [by apply elem_of_nil in Hin|].
    unfold mbind, Wrapper.W_bind, Wrapper.wlift. by rewrite Hraise. }
  unfold Wrapper.create_output_directories.
  unfold mbind at 1, Wrapper.W_bind, Wrapper.resolve_session.
  destruct Hbase as [[Hout Hne]|(Hout & Hnew & first & rest & Hsorted & <-)].
  - rewrite Hout.
    assert (Py.truthy_str (Some base) = true) as -> by (by destruct base).
    cbn [negb default from_option id].
    destruct (Wrapper.a_prompt a) as [p|].
    + cbn [mret Wrapper.W_ret]. apply Hrest.
    + unfold mbind at 1, Wrapper.W_bind. by rewrite Hlast.
  - rewrite Hout, Hnew. cbn [negb].
    unfold mbind at 1, Wrapper.W_bind, Wrapper.wget. rewrite Hsorted.
    unfold mbind at 1, Wrapper.W_bind. by rewrite Hlast.
Qed.

(** A directory [run_final] beside [run_1]. *)
Lemma X13_stray_run_directory_witness :
  let base := "out" in
  let a := Wrapper.mk_args None None (Some "a cat") "schnell" false None None
             (Some "1024x1024") [] None 4 false (Some base) None in
  let w := Wrapper.mk_wworld
             {[base := {["run_1" := Wrapper.NoInfo; "run_final" := Wrapper.NoInfo]}]}
             Wrapper.NoStyleFile (Datetime.mk 2025 3 8 12 0 0 0) [] [] [] in
  Wrapper.create_output_directories a w = (Raise ValueError, w).
Proof.
  intros base a w.
  apply (X13_stray_run_directory a base "run_final" w
           {["run_1" := Wrapper.NoInfo; "run_final" := Wrapper.NoInfo]}
           ValueError); try reflexivity.
  - left. by split.
  - by eexists.
Defined.

Section session_resolution.

Import Datetime.
Implicit Types (d : disk) (now T : datetime) (n : string).


End session_resolution.



Section strptime_facts.

Import Datetime Wrapper.
Local Open Scope Z_scope.

Lemma range_cases (P : Z → Prop) (lo : Z) (k : nat) :
  Forall P (seqZ lo (Z.of_nat k)) → ∀ n, lo ≤ n < lo + Z.of_nat k → P n.
Proof.
  intros Hall n Hn. apply (proj1 (Forall_forall _ _) Hall).
  apply elem_of_seqZ. lia.
Qed.

(** A group of the expression whose alternatives are tried on a
    two-digit field: the field is matched whole when what follows it
    matches the rest of the expression. *)
Definition matches_field (alts : list (list cls)) (n : Z) : Prop :=
  ∀ gs rest ms r,
    match_seq gs rest = Some (ms, r) →
    match_seq (alts :: gs) (pad2 n ++ rest) = Some (pad2 n :: ms, r).

Local Ltac field_case :=
  intros gs rest ms r Hrest;
  match goal with
  | |- context [pad2 ?i] =>
      let s := eval vm_compute in (pad2 i) in change (pad2 i) with s
  end;
  rewrite !append_cons, append_nil_l;
  repeat (cbn [match_seq match_alt];
          repeat match goal with
                 | |- context [cls_match ?k ?c] =>
                     let v := eval vm_compute in (cls_match k c) in
                     change (cls_match k c) with v
                 end;
          cbv iota beta);
  rewrite Hrest; reflexivity.

Lemma month_field (n : Z) :
  1 ≤ n ≤ 12 →
  matches_field [[Lit "1"; Range 0 2]; [Lit "0"; Range 1 9]; [Range 1 9]] n.
Proof.
  intros Hn. apply (range_cases _ 1 12); [|lia].
  vm_compute seqZ. repeat (constructor; [field_case|]). constructor.
Qed.

Lemma day_field (n : Z) :
  1 ≤ n ≤ 31 →
  matches_field [[Lit "3"; Range 0 1]; [Range 1 2; Digit]; [Lit "0"; Range 1 9];
                 [Range 1 9]; [Lit " "; Range 1 9]] n.
Proof.
  intros Hn. apply (range_cases _ 1 31); [|lia].
  vm_compute seqZ. repeat (constructor; [field_case|]). constructor.
Qed.

Lemma hour_field (n : Z) :
  0 ≤ n ≤ 23 →
  matches_field [[Lit "2"; Range 0 3]; [Range 0 1; Digit]; [Digit]] n.
Proof.
  intros Hn. apply (range_cases _ 0 24); [|lia].
  vm_compute seqZ. repeat (constructor; [field_case|]). constructor.
Qed.

Lemma minute_field (n : Z) :
  0 ≤ n ≤ 59 → matches_field [[Range 0 5; Digit]; [Digit]] n.
Proof.
  intros Hn. apply (range_cases _ 0 60); [|lia].
  vm_compute seqZ. repeat (constructor; [field_case|]). constructor.
Qed.

Lemma second_field (n : Z) :
  0 ≤ n ≤ 59 →
  matches_field [[Lit "6"; Range 0 1]; [Range 0 5; Digit]; [Digit]] n.
Proof.
  intros Hn. apply (range_cases _ 0 60); [|lia].
  vm_compute seqZ. repeat (constructor; [field_case|]). constructor.
Qed.

Lemma digit_char_digit (k : Z) :
  0 ≤ k ≤ 9 → cls_match Digit (digit_char k) = true.
Proof.
  intros Hk. apply (range_cases (λ k, cls_match Digit (digit_char k) = true) 0 10);
    [|lia].
  vm_compute seqZ. repeat (constructor; [reflexivity|]). constructor.
Qed.

Lemma year_field (y : Z) gs rest ms r :
  0 ≤ y ≤ 9999 →
  match_seq gs rest = Some (ms, r) →
  match_seq ([[Digit; Digit; Digit; Digit]] :: gs) (pad4 y ++ rest)
  = Some (pad4 y :: ms, r).
Proof.
  intros Hy Hrest.
  assert (0 ≤ y / 1000 ≤ 9 ∧ 0 ≤ y / 100 mod 10 ≤ 9
          ∧ 0 ≤ y mod 100 / 10 ≤ 9 ∧ 0 ≤ y mod 100 mod 10 ≤ 9)
    as (Ha & Hb & Hc & Hd)
    by (Z.to_euclidean_division_equations; lia).
  unfold pad4, pad2. rewrite !append_cons, append_nil_l.
  cbn [match_seq match_alt].
  rewrite !digit_char_digit by done. by rewrite Hrest.
Qed.

Lemma underscore_field gs rest ms r :
  match_seq gs rest = Some (ms, r) →
  match_seq ([[Lit "_"]] :: gs) ("_" ++ rest) = Some ("_"%string :: ms, r).
Proof.
  intros Hrest. rewrite !append_cons, append_nil_l.
  cbn [match_seq match_alt].
  change (cls_match (Lit "_") "_") with true. cbv iota. by rewrite Hrest.
Qed.

(** The text [strftime] makes of an instant is read back by
    [strptime] as that instant, cut to the second. *)
Lemma strptime_strftime (now : datetime) :
  valid now = true →
  strptime (strftime now)
  = Ok (mk (year now) (month now) (day now)
          (hour now) (minute now) (second now) 0).
Proof.
  intros Hv. unfold valid in Hv. apply andb_prop in Hv as [Hd Ht].
  pose proof (valid_date_bounds _ _ _ Hd) as (Hy & Hm & Hdd).
  pose proof (valid_time_bounds _ _ _ _ Ht) as (Hh & Hmi & Hs & Hus).
  assert (days_in_month (year now) (month now) ≤ 31) as Hdim.
  { unfold days_in_month. repeat case_match; lia. }
  unfold strptime, strftime, format_regex.
  change (pad2 (second now)) with (pad2 (second now) ++ "")%string.
  rewrite (year_field (year now) _ _
             [pad2 (month now); pad2 (day now); "_"%string; pad2 (hour now);
              pad2 (minute now); pad2 (second now)] "") by
    first [ lia
          | apply month_field; [lia|]; apply day_field; [lia|];
            apply underscore_field; apply hour_field; [lia|];
            apply minute_field; [lia|]; apply second_field; [lia|];
            reflexivity ].
  rewrite int_pad4 by lia. rewrite !int_pad2 by lia. cbn [mbind result_bind].
  unfold make. rewrite Hd. cbn [andb].
  assert (valid_time (hour now) (minute now) (second now) 0 = true) as ->; [|done].
  unfold valid_time.
  repeat (apply andb_true_intro; split); apply Z.leb_le; lia.
Qed.

(** The name of a session directory of the script: three parts, the
    third is the timestamp; no part of a path. *)
Lemma splitn_0 (sep : ascii) (t : string) : Py.splitn sep t 0 = [t].
Proof. by destruct t. Qed.

Lemma splitn_session_name (t : string) :
  nth 2 (Py.splitn "_" ("mflux_output_" ++ t) 2) ""%string = t.
Proof.
  rewrite !append_cons, append_nil_l. cbn [Py.splitn Ascii.eqb Bool.eqb].
  by rewrite splitn_0.
Qed.

Lemma digit_char_no_slash (k : Z) :
  0 ≤ k ≤ 9 → Ascii.eqb (digit_char k) "/" = false.
Proof.
  intros Hk.
  apply (range_cases (λ k, Ascii.eqb (digit_char k) "/" = false) 0 10); [|lia].
  vm_compute seqZ. repeat (constructor; [reflexivity|]). constructor.
Qed.

Lemma contains_app (c : ascii) (t1 t2 : string) :
  Py.contains c (t1 ++ t2) = Py.contains c t1 || Py.contains c t2.
Proof.
  induction t1 as [|c1 t1 IH]; rewrite ?append_nil_l, ?append_cons;
    cbn [Py.contains]; [done|].
  by rewrite IH, orb_assoc.
Qed.

Lemma pad2_no_slash (n : Z) : 0 ≤ n ≤ 99 → Py.contains "/" (pad2 n) = false.
Proof.
  intros Hn. unfold pad2. cbn [Py.contains].
  by rewrite !digit_char_no_slash by (Z.to_euclidean_division_equations; lia).
Qed.

Lemma session_name_no_slash (now : datetime) :
  valid now = true →
  Py.contains "/" ("mflux_output_" ++ strftime now) = false.
Proof.
  intros Hv. unfold valid in Hv. apply andb_prop in Hv as [Hd Ht].
  pose proof (valid_date_bounds _ _ _ Hd) as (Hy & Hm & Hdd).
  pose proof (valid_time_bounds _ _ _ _ Ht) as (Hh & Hmi & Hs & Hus).
  assert (days_in_month (year now) (month now) ≤ 31) as Hdim.
  { unfold days_in_month. repeat case_match; lia. }
  assert (Py.contains "/" (pad4 (year now)) = false) as Hpad4.
  { unfold pad4. cbn [Py.contains].
    rewrite !digit_char_no_slash by (Z.to_euclidean_division_equations; lia).
    apply pad2_no_slash. Z.to_euclidean_division_equations; lia. }
  unfold strftime. rewrite !contains_app, Hpad4.
  by rewrite !pad2_no_slash by lia.
Qed.

End strptime_facts.

Section wrapper_window.

Import Datetime Wrapper.
Implicit Types (a : args) (w : wworld).
Local Open Scope Z_scope.

Lemma listdir_cwd_elem w (n : string) :
  n ∈ listdir_cwd w ↔ is_Some (ww_dirs w !! n) ∧ Py.contains "/" n = false.
Proof.
  unfold listdir_cwd. rewrite list_elem_of_filter, list_elem_of_fmap. split.
  - intros [Hp ([n' v] & -> & Hin)]. apply elem_of_map_to_list in Hin.
    split; [by eexists|]. apply Is_true_true in Hp. by apply negb_true_iff in Hp.
  - intros [[v Hv] Hp]. split; [apply Is_true_true; by rewrite Hp|].
    exists (n, v). split; [done | by apply elem_of_map_to_list].
Qed.

(** With a recent session directory the session of the invocation is
    the first of the sorted list. *)
Lemma resolve_session_recent a w first rest a' base w' :
  Py.truthy_str (a_output_dir a) = false → a_new a = false →
  Session.sorted_desc (scan_recent (ww_now w) (listdir_cwd w)) = first :: rest →
  resolve_session a w = (Ok (a', base), w') → base = first.2.
Proof.
  intros Hout Hnew Hsorted. unfold resolve_session.
  rewrite Hout, Hnew. cbn [negb]. unfold mbind at 1, W_bind, wget.
  rewrite Hsorted. unfold mbind at 1, W_bind.
  destruct (get_last_settings first.2 w) as [[[ls|]|e] w1]; [| |discriminate].
  - unfold mbind at 1, W_bind.
    destruct (a_prompt a) as [p|].
    + cbn [mret W_ret].
      destruct (a_prompt (inherit_variations _ _)); [|discriminate].
      by intros [= _ <- _].
    + destruct (inherit_prompt_ok ls a w1) as [q ->].
      destruct (a_prompt (inherit_variations _ _)); [|discriminate].
      by intros [= _ <- _].
  - by intros [= _ <- _].
Qed.

Lemma resolve_session_new a w a' base w' :
  Py.truthy_str (a_output_dir a) = false →
  Session.sorted_desc
    (if a_new a then [] else scan_recent (ww_now w) (listdir_cwd w)) = [] →
  resolve_session a w = (Ok (a', base), w') →
  base = ("mflux_output_" ++ strftime (ww_now w))%string.
Proof.
  intros Hout Hsorted. unfold resolve_session.
  rewrite Hout. cbn [negb]. unfold mbind at 1, W_bind, wget.
  rewrite Hsorted. destruct (a_prompt a); [|discriminate].
  by intros [= _ <- _].
Qed.

End wrapper_window.

(** [X15] The hour of a session of the script runs from the instant in
    the name of its directory.  The name the script gives a new
    session directory is read back, by [strptime] on its third part,
    as the instant it was made, cut to the second.  An invocation
    without [--output-dir] and [--new] made less than an hour after
    that instant creates no session directory: it uses a directory
    that exists, one stamped no earlier than this one.  Made an hour
    or more after that instant, it does not use this directory,
    however recently the directory was used. *)
Theorem X15_script_session_window (a : Wrapper.args) (w : Wrapper.wworld)
    (t0 : Datetime.datetime) :
  Datetime.valid t0 = true →
  Datetime.valid (Wrapper.ww_now w) = true →
  let name := "mflux_output_" ++ Datetime.strftime t0 in
  let T0 := Datetime.mk (Datetime.year t0) (Datetime.month t0)
              (Datetime.day t0) (Datetime.hour t0) (Datetime.minute t0)
              (Datetime.second t0) 0 in
  is_Some (Wrapper.ww_dirs w !! name) →
  Py.truthy_str (Wrapper.a_output_dir a) = false →
  Wrapper.a_new a = false →
  Wrapper.strptime (nth 2 (Py.splitn "_" name 2) "") = Ok T0
  ∧ ∀ a' base w',
      Wrapper.resolve_session a w = (Ok (a', base), w') →
      ((Datetime.sub (Wrapper.ww_now w) T0 < 3600 * 1000000)%Z →
         is_Some (Wrapper.ww_dirs w !! base)
         ∧ ∃ T, Wrapper.strptime (nth 2 (Py.splitn "_" base 2) "") = Ok T
                ∧ (Datetime.to_us T0 ≤ Datetime.to_us T)%Z)
      ∧ ((3600 * 1000000 ≤ Datetime.sub (Wrapper.ww_now w) T0)%Z →
         base ≠ name).
Proof.
  intros Hv Hnow name T0 Hdir Hout Hnew.
  assert (Wrapper.strptime (nth 2 (Py.splitn "_" name 2) "") = Ok T0) as Hparse.
  { unfold name. rewrite splitn_session_name. by apply strptime_strftime. }
  split; [exact Hparse|].
  intros a' base w' Hres.
  pose proof (recent_session_spec (Wrapper.ww_now w) (Wrapper.listdir_cwd w))
    as Hspec.
  assert (name ∈ Wrapper.listdir_cwd w) as Hin.
  { apply listdir_cwd_elem. split; [done | by apply session_name_no_slash]. }
  destruct (Session.sorted_desc _) as [|first rest] eqn:Hsorted.
  - (* no recent directory: this one is an hour old or more *)
    split.
    + intros Hlt. exfalso.
      assert ((T0, name) ∈ Wrapper.scan_recent (Wrapper.ww_now w)
                (Wrapper.listdir_cwd w)) as Hrec.
      { apply scan_recent_spec. split; [done|].
        split; [apply (startswith_prefix (Datetime.strftime t0))|]. by split. }
      rewrite Hspec in Hrec. by apply elem_of_nil in Hrec.
    + intros Hge.
      apply (resolve_session_new a w a' base w' Hout) in Hres;
        [|by rewrite Hnew].
      subst base. unfold name. intros Heq.
      assert (Datetime.strftime (Wrapper.ww_now w) = Datetime.strftime t0)
        as Hsame
        by (rewrite !append_cons, !append_nil_l in Heq; congruence).
      pose proof (strptime_strftime _ Hnow) as H1.
      rewrite Hsame, (strptime_strftime _ Hv) in H1.
      injection H1 as Hy Hm Hd Hh Hmi Hs.
      unfold Datetime.valid in Hnow. apply andb_prop in Hnow as [_ Ht].
      pose proof (valid_time_bounds _ _ _ _ Ht) as (_ & _ & _ & Hus).
      revert Hge. unfold Datetime.sub, Datetime.to_us, T0.
      cbn [Datetime.year Datetime.month Datetime.day Datetime.hour
           Datetime.minute Datetime.second Datetime.microsecond].
      rewrite Hy, Hm, Hd, Hh, Hmi, Hs. lia.
  - destruct Hspec as [Hfirst Hmax].
    apply (resolve_session_recent a w first rest a' base w' Hout Hnew Hsorted)
      in Hres.
    subst base. destruct first as [T n]. cbn [fst snd] in *.
    apply scan_recent_spec in Hfirst as (Hn & Hpre & HT & Hlt).
    apply listdir_cwd_elem in Hn as [Hn _].
    split.
    + intros Hlt0. split; [done|]. exists T. split; [done|].
      destruct (Hmax T0 name) as [?|[? _]]; [|lia..].
      apply scan_recent_spec. split; [done|].
      split; [apply (startswith_prefix (Datetime.strftime t0))|]. by split.
    + intros Hge Heq. subst n. rewrite Hparse in HT. injection HT as <-. lia.
Qed.

(** A session made at noon is used at half past twelve. *)
Lemma X15_script_session_window_witness :
  let a := Wrapper.mk_args None None (Some "a dog") "schnell" false None None
             (Some "1024x1024") [] None 4 false None None in
  let w := Wrapper.mk_wworld {["mflux_output_20250308_120000" := ∅]}
             Wrapper.NoStyleFile (Datetime.mk 2025 3 8 12 30 0 0) [] [] [] in
  ∃ a' w',
    Wrapper.resolve_session a w
    = (Ok (a', "mflux_output_20250308_120000"), w')
    ∧ is_Some (Wrapper.ww_dirs w !! "mflux_output_20250308_120000").
Proof.
  intros a w.
  let r := eval vm_compute in (Wrapper.resolve_session a w) in
  match r with
  | (Ok (?a', _), ?w') =>
      exists a', w';
      assert (Wrapper.resolve_session a w
              = (Ok (a', "mflux_output_20250308_120000"), w')) as Hres
        by (vm_compute; reflexivity);
      split; [exact Hres|];
      destruct (X15_script_session_window a w (Datetime.mk 2025 3 8 12 0 0 0))
        as [_ H];
        [reflexivity | reflexivity | by eexists | reflexivity | reflexivity |];
      destruct (H _ _ _ Hres) as [Hreuse _];
      destruct Hreuse as [Hdir _]; [vm_compute; reflexivity | exact Hdir]
  end.
Defined.

(** [X16] The command shown under an image of the gallery names the
    format of the run for six of the presets only.  Whenever it adds
    a [--format] option, the option names a preset of exactly the
    width and height of the run; for the default size it adds
    nothing; and for the presets [square_sm], [square_lg],
    [landscape_xl], [portrait_xl] and [square_xl], whose size is not
    the default, it adds nothing either. *)
Theorem X16_gallery_format_option :
  (∀ width height : Z,
     Gallery.format_option width height ≠ "" →
     ∃ name, (name, (width, height)) ∈ Config.RESOLUTIONS
             ∧ Gallery.format_option width height = " --format " ++ name)
  ∧ (∀ name, name ∈ ["landscape"; "portrait"; "landscape_sm"; "portrait_sm";
                     "landscape_lg"; "portrait_lg"] →
       Gallery.format_option (Config.get_resolution name).1
         (Config.get_resolution name).2 = " --format " ++ name)
  ∧ Gallery.format_option Config.DEFAULT_WIDTH Config.DEFAULT_HEIGHT = ""
  ∧ (∀ name, name ∈ ["square_sm"; "square_lg"; "landscape_xl"; "portrait_xl";
                     "square_xl"] →
       Config.get_resolution name ≠ (Config.DEFAULT_WIDTH, Config.DEFAULT_HEIGHT)
       ∧ Gallery.format_option (Config.get_resolution name).1
           (Config.get_resolution name).2 = "").
Proof.
  split; [|split; [|split]].
  - intros width height. unfold Gallery.format_option.
    repeat (match goal with
            | |- context [(?x =? ?k)%Z] => destruct (Z.eqb_spec x k)
            end; cbn [andb negb orb]);
      try done; try lia; intros _; subst;
      eexists; (split; [|reflexivity]);
      unfold Config.RESOLUTIONS;
      repeat first [ apply list_elem_of_here | apply list_elem_of_further ].
  - intros name Hin.
    repeat (apply elem_of_cons in Hin as [->|Hin]; [reflexivity|]).
    by apply elem_of_nil in Hin.
  - reflexivity.
  - intros name Hin.
    repeat (apply elem_of_cons in Hin as [->|Hin]; [by split|]).
    by apply elem_of_nil in Hin.
Qed.

(** [X17] The format flags of the script and the presets of the
    package agree: the resolution the script sets for a flag reads,
    with [Resolution.from_string], as the preset the package keeps
    under the name of the flag.  The package has two presets more,
    [default] and [square_lg].  Both give the same default number of
    steps for every model name: 1 for [schnell], 5 for [dev] and 1 for
    any other. *)
Theorem X17_presets_agree :
  (∀ f : Wrapper.format_flag,
     Resolution.from_string (Wrapper.preset f)
     = Ok (Config.get_resolution (format_name f))
     ∧ format_name f ∈ Config.RESOLUTIONS.*1)
  ∧ (∀ name, name ∈ Config.RESOLUTIONS.*1 →
       name = "default" ∨ name = "square_lg" ∨ ∃ f, name = format_name f)
  ∧ (∀ model, Config.get_default_steps model
              = Wrapper.get_default_steps model).
Proof.
  split; [|split].
  - intros f. destruct f; (split; [reflexivity|]);
      cbn [fmap list_fmap Config.RESOLUTIONS fst format_name];
      repeat first [ apply list_elem_of_here | apply list_elem_of_further ].
  - intros name Hin. cbn [fmap list_fmap Config.RESOLUTIONS fst] in Hin.
    repeat (apply elem_of_cons in Hin as [->|Hin];
            [first [ by left | by right; left
                   | right; right;
                     first [ by exists Wrapper.landscape
                           | by exists Wrapper.landscape_sm
                           | by exists Wrapper.landscape_lg
                           | by exists Wrapper.landscape_xl
                           | by exists Wrapper.portrait
                           | by exists Wrapper.portrait_sm
                           | by exists Wrapper.portrait_lg
                           | by exists Wrapper.portrait_xl
                           | by exists Wrapper.square_sm
                           | by exists Wrapper.square_xl ] ]|]).
    by apply elem_of_nil in Hin.
  - intros model. unfold Config.get_default_steps, Wrapper.get_default_steps.
    cbn [Config.assoc]. rewrite (String.eqb_sym "schnell" model).
    rewrite (String.eqb_sym "dev" model).
    by repeat (destruct (_ =? _)%string).
Qed.

Section strip_facts.

Lemma rstrip_idemp (t : string) : Py.rstrip (Py.rstrip t) = Py.rstrip t.
Proof.
  induction t as [|c r IH]; [done|]. cbn [Py.rstrip].
  destruct (Py.is_space c && (Py.rstrip r =? "")%string) eqn:E; [done|].
  cbn [Py.rstrip]. by rewrite IH, E.
Qed.

Lemma lstrip_head (t : string) :
  Py.lstrip t = "" ∨ ∃ c r, Py.lstrip t = String c r ∧ Py.is_space c = false.
Proof.
  induction t as [|c r IH]; [by left|]. cbn [Py.lstrip].
  destruct (Py.is_space c) eqn:E; [exact IH|]. right. by exists c, r.
Qed.

(** What [strip] returns has no blank at either end, so that
    stripping it again changes nothing. *)
Lemma strip_idemp (t : string) : Py.strip (Py.strip t) = Py.strip t.
Proof.
  unfold Py.strip. destruct (lstrip_head t) as [->|(c & r & -> & Hc)]; [done|].
  assert (∀ u, Py.rstrip (String c u) = String c (Py.rstrip u)) as Hr.
  { intros u. cbn [Py.rstrip]. by rewrite Hc. }
  rewrite Hr. cbn [Py.lstrip]. rewrite Hc. by rewrite Hr, rstrip_idemp.
Qed.

End strip_facts.

(** [X18] The prompts read from the answer of the external command:
    each one is a line of the answer with the blanks at its ends
    removed, it is not empty, it has no blank left at either end, and
    its line did not start with [#] or [-]; they come in the order of
    the lines, and for a number of variations that is not negative
    there are no more than that many. *)
Theorem X18_brainstorm_prompts (stdout : string) (num_variations : Z) :
  (∀ p, p ∈ Brainstorm.extract_prompts stdout num_variations →
     p ≠ "" ∧ Py.strip p = p
     ∧ ∃ line, line ∈ Py.split Brainstorm.newline stdout
               ∧ p = Py.strip line
               ∧ Py.startswith "#" line = false
               ∧ Py.startswith "-" line = false)
  ∧ Brainstorm.extract_prompts stdout num_variations
    `prefix_of` (Py.strip <$> filter (λ line, Is_true (Brainstorm.keep line))
                               (Py.split Brainstorm.newline stdout))
  ∧ ((0 ≤ num_variations)%Z →
     (length (Brainstorm.extract_prompts stdout num_variations)
      ≤ Z.to_nat num_variations)%nat).
Proof.
  unfold Brainstorm.extract_prompts, PyText.slice_to.
  set (all := Py.strip <$> filter _ _).
  assert (∀ k, take k all `prefix_of` all) as Hprefix
    by (intros k; apply prefix_take).
  split; [|split].
  - intros p Hp.
    assert (p ∈ all) as Hall.
    { assert (∀ k, p ∈ take k all → p ∈ all) as Hsub.
      { intros k Hk. destruct (Hprefix k) as [rest Hrest].
        rewrite Hrest. apply elem_of_app. by left. }
      destruct (0 <=? num_variations)%Z; by apply Hsub in Hp. }
    apply list_elem_of_fmap in Hall as (line & -> & Hline).
    apply list_elem_of_filter in Hline as [Hkeep Hline].
    apply Is_true_true in Hkeep. unfold Brainstorm.keep in Hkeep.
    apply andb_prop in Hkeep as [Hnonempty Hmark].
    apply negb_true_iff, orb_false_elim in Hmark as [Hhash Hdash].
    split; [by destruct (Py.strip line)|].
    split; [apply strip_idemp|]. by exists line.
  - by destruct (0 <=? num_variations)%Z.
  - intros Hn. rewrite (proj2 (Z.leb_le _ _) Hn). apply firstn_le_length.
Qed.

(** [X19] The script reads the resolution only when it starts to
    generate.  With a resolution that does not read as
    [WIDTHxHEIGHT] (or with none, inherited from a record that has
    none) the invocation ends with an exception and runs no command,
    but the run directory has been made by then and holds its first
    record, with an empty list of results. *)
Theorem X19_resolution_checked_late (c : Wrapper.cli) (w w1 w2 : Wrapper.wworld)
    (a a' : Wrapper.args) (base run : string) (e : exn) :
  Wrapper.parse_args c w = (Ok a, w1) →
  Wrapper.create_output_directories a w1 = (Ok (a', base, run), w2) →
  Wrapper.parse_resolution (Wrapper.a_resolution a') = Raise e →
  Wrapper.main c w = (Raise e, w2)
  ∧ (e = ValueError ∨ e = AttributeError)
  ∧ default ∅ (Wrapper.ww_dirs w !! base) !! run = None
  ∧ Wrapper.read_info base run w2 = Some (Wrapper.initial_info a')
  ∧ Wrapper.i_results (Wrapper.initial_info a') = []
  ∧ Wrapper.ww_calls w2 = Wrapper.ww_calls w.
Proof.
  intros Hparse Hcreate Hres.
  pose proof Hparse as Hw. apply parse_args_ok in Hw as [-> _].
  destruct (create_output_directories_dirs _ _ _ _ _ _ Hcreate)
    as [Hfresh Hw2].
  assert (Wrapper.read_info base run w2 = Some (Wrapper.initial_info a')
          ∧ Wrapper.ww_calls w2 = Wrapper.ww_calls w) as [Hinfo Hcalls].
  { rewrite Hw2. unfold Wrapper.read_info, Wrapper.set_dirs.
    cbn [Wrapper.ww_dirs Wrapper.ww_calls].
    rewrite lookup_insert_eq. cbn [mbind option_bind].
    by rewrite lookup_insert_eq. }
  split; [|split; [|done]].
  - unfold Wrapper.main, mbind, Wrapper.W_bind.
    rewrite Hparse, Hcreate. unfold Wrapper.generate_images, mbind,
      Wrapper.W_bind, Wrapper.wlift. by rewrite Hres.
  - destruct (Wrapper.a_resolution a') as [r|].
    + left. apply (from_string_raises r). exact Hres.
    + right. by injection Hres as <-.
Qed.

(** [--resolution big] in an empty working directory. *)
Lemma X19_resolution_checked_late_witness :
  let c := Wrapper.mk_cli None false None (Some "a cat") None false None
             (Some "big") [] None None false None None in
  let w := Wrapper.mk_wworld ∅ Wrapper.NoStyleFile
             (Datetime.mk 2025 3 8 12 0 0 0) [] [] [] in
  ∃ w2 i,
    Wrapper.main c w = (Raise ValueError, w2)
    ∧ Wrapper.read_info "mflux_output_20250308_120000" "run_1" w2 = Some i
    ∧ Wrapper.i_results i = []
    ∧ Wrapper.ww_calls w2 = [].
Proof.
  intros c w.
  let r := eval vm_compute in (Wrapper.parse_args c w) in
  match r with
  | (Ok ?a, _) =>
      let r2 := eval vm_compute in (Wrapper.create_output_directories a w) in
      match r2 with
      | (Ok (?a', ?base, ?run), ?w2) =>
          assert (Wrapper.parse_args c w = (Ok a, w)) as Hparse
            by (vm_compute; reflexivity);
          assert (Wrapper.create_output_directories a w = (Ok (a', base, run), w2))
            as Hcreate by (vm_compute; reflexivity);
          destruct (X19_resolution_checked_late c w w w2 a a' base run ValueError
                      Hparse Hcreate)
            as (Hmain & _ & _ & Hinfo & Hres & Hcalls); [reflexivity|];
          exists w2, (Wrapper.initial_info a');
          split; [exact Hmain|]; split; [exact Hinfo|];
          split; [exact Hres | exact Hcalls]
      end
  end.
Defined.

(** [X21] The run counter of the package lives in [run_counter.txt]
    alone.  In a session directory that has lost the file while it
    still holds [run_1], the next allocation starts again from 0: it
    returns [run_1], the directory that exists, and the generator
    then writes the record of the new run over the one that was
    there. *)
Theorem X21_counter_file_lost (sname : string) (d : disk) (sd : session_dir)
    (rd : run_dir) :
  d !! sname = Some sd →
  run_counter_txt sd = None →
  runs sd !! "run_1" = Some rd →
  ∃ d', Session.allocate_run sname d = Ok ("run_1", d')
    ∧ (d' !! sname ≫= λ sd', runs sd' !! "run_1") = Some rd
    ∧ (d' !! sname ≫= run_counter_txt) = Some "1"
    ∧ ∀ (g : Generator.t) (info : run_info) (w : world),
        Session.current_session_dir (Generator.session g) = sname →
        w_disk w = d' →
        read_run_info sname "run_1"
          (w_disk (Generator._update_run_info g "run_1" info w))
        = Some info.
Proof.
  intros Hsd Hcounter Hrun.
  unfold Session.allocate_run, Session._load_run_counter.
  rewrite Hsd. cbn [mbind option_bind]. rewrite Hcounter.
  cbn [mbind result_bind]. unfold Session.get_next_run_dir.
  cbn [Session.current_session_dir Session.run_counter].
  eexists. split; [reflexivity|].
  unfold Session._save_run_counter, mkdir_run.
  cbn [Session.current_session_dir Session.run_counter].
  rewrite Hsd. cbn [default from_option id].
  change (Session.run_name (0 + 1)) with "run_1". rewrite Hrun.
  rewrite !lookup_insert_eq. cbn [default from_option id mbind option_bind runs
                                   run_counter_txt].
  split; [exact Hrun|]. split; [reflexivity|].
  intros g info w Hg _. rewrite <- Hg. apply read_update_run_info.
Qed.

(** A session directory with a finished run and no counter file. *)
Lemma X21_counter_file_lost_witness :
  let rd := mk_run_dir None (Some (mk_file_info "image_7.png" "a cat" "schnell"
                                      1 7 "1024x1024")) in
  let d : disk := {["mflux_output_20250308_120000"
                    := mk_session_dir None {["run_1" := rd]}]} in
  ∃ d', Session.allocate_run "mflux_output_20250308_120000" d
        = Ok ("run_1", d').
Proof.
  intros rd d.
  destruct (X21_counter_file_lost "mflux_output_20250308_120000" d
              (mk_session_dir None {["run_1" := rd]}) rd)
    as (d' & H & _); [reflexivity..|].
  by exists d'.
Defined.

(** [X22] A seed of 0 counts as no seed in the package:
    [generate --vary-steps] with [--seed 0] ends with the usage error
    for a missing seed, status 1 and no command run, and
    [generate_variations] called with step counts and the base seed 0
    allocates no run and returns the empty list.  The script, which
    tests the seed against [None], accepts the seed 0 with
    [--iterate]. *)
Theorem X22_seed_zero (o : Cli.options) (w : world) :
  Py.truthy_str (Cli.o_vary_steps o) = true →
  Cli.o_seed o = Some 0%Z →
  (∃ w', Cli.generate o w = (1%Z, w') ∧ w_calls w' = w_calls w)
  ∧ (∀ (g : Generator.t) (prompt : string) (l : list Z),
       Generator.generate_variations g prompt None (Some 0%Z) (Some l) w
       = (Ok [], g, w))
  ∧ (∀ (a : Wrapper.args) (l : list Z),
       Wrapper.a_iterate a = Cli.o_vary_steps o →
       Wrapper.a_seed a = Some 0%Z →
       Cli.ints (Py.split "," (default "" (Cli.o_vary_steps o))) = Ok l →
       Wrapper.apply_iterate a = Ok (Wrapper.set_iterate l a)).
Proof.
  intros Hsteps Hseed. split; [|split].
  - destruct (generate_vary_steps_without_seed o w Hsteps)
      as (w' & Hgen & _ & Hcalls); [by rewrite Hseed|].
    by exists w'.
  - intros g prompt l. unfold Generator.generate_variations.
    cbn [Py.truthy_int Z.eqb negb]. by rewrite andb_false_r.
  - intros a l Hit Hs Hl. unfold Wrapper.apply_iterate.
    by rewrite Hit, Hsteps, Hs, Hl.
Qed.

(** [generate --prompt "a cat" --vary-steps 1,3,5,9 --seed 0] *)
Lemma X22_seed_zero_witness :
  let o := Cli.mk_options "a cat" None (Some 0%Z) (Some "1,3,5,9") false None
             None in
  let w := mk_world ∅ ∅ (Datetime.mk 2025 3 8 12 0 0 0) [] [] [] in
  ∃ w', Cli.generate o w = (1%Z, w') ∧ w_calls w' = [].
Proof.
  intros o w.
  destruct (X22_seed_zero o w) as [(w' & H1 & H2) _]; [reflexivity..|].
  by exists w'.
Defined.

Section wrapper_last_run.

Import Wrapper.
Implicit Types (w : wworld) (s : session) (keyed : list (Z * string)).
Local Open Scope Z_scope.








End wrapper_last_run.


